(** * Tool-calling conversation loop of the agent examples

    A shallow embedding of the Go sources that drive a chat model through
    rounds of tool invocation:

    - the graph agents ([ecommerce_customer_support], [it_help_desk], [soc],
      [legal]), each a three-closure graph [assistant] / [toolExecutor] /
      branch, with the main programs of two of them;
    - the direct loop of the math-tools example ([math_tools.main]).

    What the sources import and do not define is kept abstract: the chat model
    ([Generate]), [encoding/json] ([json_Unmarshal], [json_Marshal]), float
    formatting, [math.Pow], the environment of the process and the text of a
    recovered panic.  They are class methods, so every theorem holds for
    whatever those collaborators answer.  The graph runtime ([compose]) and
    [utils.InferTool] are modelled as far as the sources use them. *)

From Stdlib Require Import ZArith String Ascii List Lia.
From Stdlib Require Import Floats.SpecFloat.
From stdpp Require Import base gmap strings list pretty.

Open Scope string_scope.
Open Scope list_scope.

(** ** Go values shared by all packages *)

(** An [error] is modelled by the text [%v] renders for it. *)
Definition error := string.

(** [float64]: IEEE 754 binary64 values (53-bit precision, emax 1024). *)
Definition float64 := spec_float.
Definition float64_add : float64 -> float64 -> float64 := SFadd 53 1024.
Definition float64_mul : float64 -> float64 -> float64 := SFmul 53 1024.

Definition newline : string := String (ascii_of_nat 10) EmptyString.
Definition dquote : string := String (ascii_of_nat 34) EmptyString.

(** ** schema: messages and tool calls (the fields the examples touch) *)
Module schema.

Inductive RoleType := System | User | Assistant | Tool.

Definition RoleType_string (r : RoleType) : string :=
  match r with
  | System => "system"
  | User => "user"
  | Assistant => "assistant"
  | Tool => "tool"
  end.

Record FunctionCall := { Name : string; Arguments : string }.

Record ToolCall := { ID : string; Function : FunctionCall }.

Record Message := {
  Role : RoleType;
  Content : string;
  ToolCalls : list ToolCall;
  ToolCallID : string
}.

Definition SystemMessage (content : string) : Message :=
  {| Role := System; Content := content; ToolCalls := []; ToolCallID := "" |}.

Definition UserMessage (content : string) : Message :=
  {| Role := User; Content := content; ToolCalls := []; ToolCallID := "" |}.

Global Instance RoleType_eq_dec : EqDecision RoleType.
Proof. solve_decision. Defined.

End schema.
Import schema.

(** ** Effects: the process around a conversation *)

(** What reaches [os.Stderr]: the text of a write to it, or a line of the
    standard logger, which no package redirects and which puts the date and the
    time of the call in front of the text it is given. *)
Inductive StderrLine :=
| Written (text : string)
| Logged (text : string).

(** What a run leaves behind outside the message log: how many times the chat
    model was called, and what was written to stdout and to stderr (one entry
    per write, without its final newline). *)
Record World := mkWorld {
  generate_calls : nat;
  stdout : list string;
  stderr : list StderrLine
}.

Definition world0 : World :=
  {| generate_calls := 0; stdout := []; stderr := [] |}.

(** A computation returns, panics (a Go run-time panic nobody recovers from) or
    leaves the process through [os.Exit]. *)
Inductive Outcome (A : Type) : Type :=
| Ret (a : A) (w : World)
| Panic (reason : string) (w : World)
| Exit (code : Z) (w : World).
Arguments Ret {A} a w.
Arguments Panic {A} reason w.
Arguments Exit {A} code w.

Definition M (A : Type) : Type := World -> Outcome A.

Definition ret {A} (a : A) : M A := fun w => Ret a w.

Definition bind {A B} (m : M A) (k : A -> M B) : M B :=
  fun w =>
    match m w with
    | Ret a w' => k a w'
    | Panic r w' => Panic r w'
    | Exit c w' => Exit c w'
    end.

Notation "'let*' x ':=' m 'in' k" := (bind m (fun x => k))
  (at level 10, x name, m at level 100, k at level 200).
Notation "'let*' ' p ':=' m 'in' k" := (bind m (fun p => k))
  (at level 10, p pattern, m at level 100, k at level 200).

Definition panic {A} (reason : string) : M A := fun w => Panic reason w.

Definition os_Exit {A} (code : Z) : M A := fun w => Exit code w.

(** The world after the standard logger wrote [line]. *)
Definition add_logged (line : string) (w : World) : World :=
  {| generate_calls := generate_calls w;
     stdout := stdout w;
     stderr := stderr w ++ [Logged line] |}.

Definition add_stdout (line : string) (w : World) : World :=
  {| generate_calls := generate_calls w;
     stdout := stdout w ++ [line];
     stderr := stderr w |}.

Definition add_stderr (line : string) (w : World) : World :=
  {| generate_calls := generate_calls w;
     stdout := stdout w;
     stderr := stderr w ++ [Written line] |}.

(** [log.Printf]: the standard logger writes to [os.Stderr]. *)
Definition log_Printf (line : string) : M unit :=
  fun w => Ret tt (add_logged line w).

Definition fmt_Printf (line : string) : M unit :=
  fun w => Ret tt (add_stdout line w).

Definition fmt_Fprintf_stderr (line : string) : M unit :=
  fun w => Ret tt (add_stderr line w).

(** ** External collaborators *)

(** The chat model. Its answer may depend on the messages it is given and on how
    many calls came before (a scripted or a sampling model alike): either a
    message, or the error of the underlying call. *)
Class ChatModel := Generate : nat -> list Message -> Message + error.

(** The world after one more call of the model. *)
Definition model_called (w : World) : World :=
  {| generate_calls := S (generate_calls w);
     stdout := stdout w;
     stderr := stderr w |}.

Definition chatModel_Generate `{ChatModel} (input : list Message) : M (Message + error) :=
  fun w => Ret (Generate (generate_calls w) input) (model_called w).

(** [json.Unmarshal(data, &v)]: the target after decoding, and the error if
    the payload did not fit. *)
Class Unmarshal (T : Type) := json_Unmarshal : string -> T -> T * option error.

(** [json.Marshal(v)] of a pointer ([None] is nil): the text of the bytes, and
    the error if the value has no JSON form. *)
Class Marshal (T : Type) := json_Marshal : option T -> string * option error.

(** The error the graph runtime makes of a panic it recovers inside a node
    ([safe.NewPanicErr(info, debug.Stack())]): its text holds the panic value
    and the stack trace of the goroutine. *)
Class Recover := NewPanicErr : string -> error.

(** What a [main] meets before the agent runs: the value of the environment
    variable, and the errors (nil when [None]) of the three library calls of
    [NewAgent] that can fail. *)
Class Setup := {
  OPENAI_API_KEY : string;
  NewChatModel_error : option error;
  BindTools_error : option error;
  Compile_error : option error
}.

(** ** Slices *)

(** [s[i]] with Go's bounds check. *)
Definition index {A} (s : list A) (i : Z) : M A :=
  if decide (0 <= i < Z.of_nat (length s))%Z
  then match s !! Z.to_nat i with
       | Some x => ret x
       | None => panic "index out of range"
       end
  else panic "index out of range".

Definition len {A} (s : list A) : Z := Z.of_nat (length s).

(** ** The tool-dispatch loop shared by the graph agents

    Every [toolExecutor] closure has the same loop over [lastMsg.ToolCalls];
    the packages differ in the [toolHandlers] map and in the cases of the
    [switch] that declares the argument struct and decodes into it.  [Args] is
    what travels through [interface{}]: one constructor per argument struct. *)
Section ToolLoop.
Context {Args : Type}.

(** [func(ctx context.Context, args interface{}) (string, error)] *)
Definition Handler : Type := Args -> M (string * option error).

Variable toolHandlers : gmap string Handler.

(** The [switch tc.Function.Name]: for a name with a case, the value handed to
    the handler ([var a T; _ = json.Unmarshal([]byte(arguments), &a)], then
    [&a]); [None] when no case matches. *)
Variable switch_case : string -> option (string -> Args).

(** The handler call of the [switch]: [resultStr, err = handler(ctx, &a)] in the
    case that matches, the zero values of [resultStr] and [err] when none does. *)
Definition switch_arm (handler : Handler) (tc : ToolCall) : M (string * option error) :=
  match switch_case (Name (Function tc)) with
  | Some decode => handler (decode (Arguments (Function tc)))
  | None => ret ("", None)
  end.

(** [if err != nil { resultStr = fmt.Sprintf("Error: %v", err) }], then the
    Tool message that is appended. *)
Definition toolMessage (tc : ToolCall) (resultStr : string) (err : option error) : Message :=
  let resultStr :=
    match err with
    | Some e => "Error: " +:+ e
    | None => resultStr
    end in
  {| Role := Tool; Content := resultStr; ToolCalls := []; ToolCallID := ID tc |}.

(** One iteration of [for _, tc := range lastMsg.ToolCalls]. *)
Definition toolCall (tc : ToolCall) (Messages : list Message) : M (list Message) :=
  match toolHandlers !! Name (Function tc) with
  | None =>
      let* _ := log_Printf ("Tool " +:+ Name (Function tc) +:+ " not found") in
      ret Messages
  | Some handler =>
      let* '(resultStr, err) := switch_arm handler tc in
      ret (Messages ++ [toolMessage tc resultStr err])
  end.

(** A tool call whose name has a handler in the map. *)
Definition registered (tc : ToolCall) : Prop :=
  is_Some (toolHandlers !! Name (Function tc)).

Global Instance registered_dec (tc : ToolCall) : Decision (registered tc).
Proof. unfold registered. apply _. Defined.

Fixpoint rangeToolCalls (calls : list ToolCall) (Messages : list Message) : M (list Message) :=
  match calls with
  | [] => ret Messages
  | tc :: rest =>
      let* Messages' := toolCall tc Messages in
      rangeToolCalls rest Messages'
  end.

End ToolLoop.

(** ** compose: the graph runtime, as far as the agents use it

    A graph is what [AddLambdaNode], [AddEdge] and [AddBranch] recorded.  A run
    starts at [START], follows the branch of the node it just left when there is
    one and its edge otherwise, and ends with the state that reaches [END], or
    with an error: the error of a node (a panic inside a node is recovered into
    one), wrapped with the key of the node, or the error of the step budget,
    when another node is due and [fuel] node runs have been made. *)
Module compose.

Definition START : string := "start".
Definition END : string := "end".

(** [ErrExceedMaxSteps] *)
Definition ErrExceedMaxSteps : error := "exceeds max steps".

(** The text of the runtime's own error: its type, the error it wraps and,
    when there is one, the path of node keys. *)
Definition internalError_Error (typ : string) (nodePath : list string) (origError : error)
    : error :=
  "[" +:+ typ +:+ "] " +:+ origError +:+
  match nodePath with
  | [] => ""
  | _ :: _ =>
      newline +:+ "------------------------" +:+ newline +:+
      "node path: [" +:+ String.concat ", " nodePath +:+ "]"
  end.

(** [wrapGraphNodeError(nodeKey, err)] for the error of a lambda node. (The
    runtime extends the node path instead when the error comes from a nested
    graph; the agents have none.) *)
Definition wrapGraphNodeError (nodeKey : string) (err : error) : error :=
  internalError_Error "NodeRunError" [nodeKey] err.

(** [newGraphRunError(err)] *)
Definition newGraphRunError (err : error) : error :=
  internalError_Error "GraphRunError" [] err.

(** A node runs under [recover]: a panic becomes the error of the node, and
    what the node wrote before it stays written. *)
Definition recovered {A} `{Recover} (m : M (A + error)) : M (A + error) :=
  fun w =>
    match m w with
    | Panic reason w' => Ret (inr (NewPanicErr reason)) w'
    | o => o
    end.

Section Graph.
Context {S : Type} `{Recover}.

Definition Lambda : Type := S -> M (S + error).

Record GraphBranch := NewGraphBranch {
  condition : S -> M (string + error);
  endNodes : gset string
}.

Record Graph := {
  nodes : gmap string Lambda;
  edges : gmap string string;
  branches : gmap string GraphBranch
}.

Definition NewGraph : Graph :=
  {| nodes := ∅; edges := ∅; branches := ∅ |}.

Definition AddLambdaNode (key : string) (node : Lambda) (g : Graph) : Graph :=
  {| nodes := <[key := node]> (nodes g); edges := edges g; branches := branches g |}.

Definition AddEdge (startNode endNode : string) (g : Graph) : Graph :=
  {| nodes := nodes g;
     edges := <[startNode := endNode]> (edges g);
     branches := branches g |}.

Definition AddBranch (startNode : string) (branch : GraphBranch) (g : Graph) : Graph :=
  {| nodes := nodes g;
     edges := edges g;
     branches := <[startNode := branch]> (branches g) |}.

(** What [Invoke] returns: the final state, or the error. *)
Inductive Result :=
| Done (finalState : S)
| Failed (err : error).

(** The node to run after [from]: [inl] its key, or the error that ends the
    run. A branch runs outside [recover]; the errors are those of a graph that
    would not have compiled, and of a branch that returns one. *)
Definition successor (g : Graph) (from : string) (state : S) : M (string + error) :=
  match branches g !! from with
  | Some b =>
      let* r := condition b state in
      match r with
      | inl next =>
          if decide (next ∈ endNodes b) then ret (inl next)
          else ret (inr ("branch returned an unintended node: " +:+ next))
      | inr e => ret (inr e)
      end
  | None =>
      match edges g !! from with
      | Some next => ret (inl next)
      | None => ret (inr ("no edge from node: " +:+ from))
      end
  end.

(** The run from the node [from], just left with [state], with [fuel] node
    runs to go. *)
Fixpoint run (g : Graph) (fuel : nat) (from : string) (state : S) : M Result :=
  let* next := successor g from state in
  match next with
  | inr e => ret (Failed (newGraphRunError e))
  | inl key =>
      if decide (key = END) then ret (Done state)
      else
        match fuel with
        | O => ret (Failed (newGraphRunError ErrExceedMaxSteps))
        | Datatypes.S fuel' =>
            match nodes g !! key with
            | None => ret (Failed (newGraphRunError ("node not found: " +:+ key)))
            | Some node =>
                let* r := recovered (node state) in
                match r with
                | inr e => ret (Failed (wrapGraphNodeError key e))
                | inl state' => run g fuel' key state'
                end
            end
        end
  end.

(** [agent.Invoke(ctx, initialState)], with the step budget of the compiled
    graph. *)
Definition Invoke (g : Graph) (fuel : nat) (initialState : S) : M Result :=
  run g fuel START initialState.

End Graph.
Arguments Lambda : clear implicits.
Arguments GraphBranch : clear implicits.
Arguments Graph : clear implicits.
Arguments Result : clear implicits.

End compose.

(** Float formatting of [fmt]: the verbs the sources use on a [float64]. *)
Class Fmt := {
  Sprintf_2f : float64 -> string;   (* "%.2f" *)
  Sprintf_v : float64 -> string     (* "%v" *)
}.

(** ** package ecommerce_customer_support *)
Module ecommerce_customer_support.
Import compose.

Record Order := {
  Order_OrderID : string;
  Order_Status : string;
  Order_Total : float64;
  Order_CustomerID : string
}.

(** [Order] is a pointer in the source: [None] is nil. *)
Record AgentState := {
  AgentState_Order : option Order;
  Messages : list Message
}.

Record SendCustomerMessageArgs := {
  SendCustomerMessageArgs_OrderID : string;
  SendCustomerMessageArgs_Text : string
}.

Record IssueRefundArgs := {
  IssueRefundArgs_OrderID : string;
  IssueRefundArgs_Amount : float64
}.

Record CancelOrderArgs := {
  CancelOrderArgs_OrderID : string
}.

Record UpdateAddressArgs := {
  UpdateAddressArgs_OrderID : string;
  UpdateAddressArgs_ShippingAddress : string
}.

(** The dynamic types that reach a handler's [args interface{}]. *)
Inductive Args :=
| PtrSendCustomerMessageArgs (a : SendCustomerMessageArgs)
| PtrIssueRefundArgs (a : IssueRefundArgs)
| PtrCancelOrderArgs (a : CancelOrderArgs)
| PtrUpdateAddressArgs (a : UpdateAddressArgs).

Section Agent.
Context `{ChatModel} `{Fmt} `{!Marshal Order}.
Context `{!Unmarshal SendCustomerMessageArgs} `{!Unmarshal IssueRefundArgs}.
Context `{!Unmarshal CancelOrderArgs} `{!Unmarshal UpdateAddressArgs}.

Definition SendCustomerMessage (args : SendCustomerMessageArgs)
    : M (string * option error) :=
  let* _ := fmt_Printf ("[TOOL] send_customer_message -> "
                        +:+ SendCustomerMessageArgs_Text args
                        +:+ " (Order: " +:+ SendCustomerMessageArgs_OrderID args +:+ ")") in
  ret ("sent", None).

Definition IssueRefund (args : IssueRefundArgs) : M (string * option error) :=
  let* _ := fmt_Printf ("[TOOL] issue_refund(order_id=" +:+ IssueRefundArgs_OrderID args
                        +:+ ", amount=" +:+ Sprintf_2f (IssueRefundArgs_Amount args) +:+ ")") in
  ret ("refund_queued", None).

Definition CancelOrder (args : CancelOrderArgs) : M (string * option error) :=
  let* _ := fmt_Printf ("[TOOL] cancel_order(order_id=" +:+ CancelOrderArgs_OrderID args
                        +:+ ")") in
  ret ("cancelled", None).

Definition UpdateAddressForOrder (args : UpdateAddressArgs) : M (string * option error) :=
  let* _ := fmt_Printf ("[TOOL] update_address_for_order(order_id="
                        +:+ UpdateAddressArgs_OrderID args
                        +:+ ", address=" +:+ UpdateAddressArgs_ShippingAddress args +:+ ")") in
  ret ("address_updated", None).

(** Each handler asserts the dynamic type of [args]; a failed assertion panics. *)
Definition toolHandlers : gmap string (@Handler Args) :=
  list_to_map [
    ("send_customer_message", fun args =>
       match args with
       | PtrSendCustomerMessageArgs a => SendCustomerMessage a
       | _ => panic "interface conversion"
       end);
    ("issue_refund", fun args =>
       match args with
       | PtrIssueRefundArgs a => IssueRefund a
       | _ => panic "interface conversion"
       end);
    ("cancel_order", fun args =>
       match args with
       | PtrCancelOrderArgs a => CancelOrder a
       | _ => panic "interface conversion"
       end);
    ("update_address_for_order", fun args =>
       match args with
       | PtrUpdateAddressArgs a => UpdateAddressForOrder a
       | _ => panic "interface conversion"
       end)
  ].

(** [var args T]: the zero value of each argument struct. *)
Definition zero_SendCustomerMessageArgs : SendCustomerMessageArgs :=
  {| SendCustomerMessageArgs_OrderID := ""; SendCustomerMessageArgs_Text := "" |}.
Definition zero_IssueRefundArgs : IssueRefundArgs :=
  {| IssueRefundArgs_OrderID := ""; IssueRefundArgs_Amount := S754_zero false |}.
Definition zero_CancelOrderArgs : CancelOrderArgs :=
  {| CancelOrderArgs_OrderID := "" |}.
Definition zero_UpdateAddressArgs : UpdateAddressArgs :=
  {| UpdateAddressArgs_OrderID := ""; UpdateAddressArgs_ShippingAddress := "" |}.

(** The cases of [switch tc.Function.Name]; the error of [json.Unmarshal] is
    assigned to [_]. *)
Definition switch_case (name : string) : option (string -> Args) :=
  if decide (name = "send_customer_message") then
    Some (fun arguments =>
            PtrSendCustomerMessageArgs
              (fst (json_Unmarshal arguments zero_SendCustomerMessageArgs)))
  else if decide (name = "issue_refund") then
    Some (fun arguments =>
            PtrIssueRefundArgs (fst (json_Unmarshal arguments zero_IssueRefundArgs)))
  else if decide (name = "cancel_order") then
    Some (fun arguments =>
            PtrCancelOrderArgs (fst (json_Unmarshal arguments zero_CancelOrderArgs)))
  else if decide (name = "update_address_for_order") then
    Some (fun arguments =>
            PtrUpdateAddressArgs (fst (json_Unmarshal arguments zero_UpdateAddressArgs)))
  else None.

Definition sysPrompt (state : AgentState) : string :=
  let orderJSON := fst (json_Marshal (AgentState_Order state)) in
  "You are a helpful e-commerce support agent." +:+ newline +:+
  "When you act, you MUST do exactly TWO steps in order:" +:+ newline +:+
  "  1) call one business tool (issue_refund / cancel_order / modify_order)" +:+ newline +:+
  "  2) call send_customer_message with confirmation text" +:+ newline +:+
  "Then STOP." +:+ newline +:+ newline +:+
  "ORDER: " +:+ orderJSON.

(** Assistant node *)
Definition assistant (state : AgentState) : M (AgentState + error) :=
  let inputMsgs := SystemMessage (sysPrompt state) :: Messages state in
  let* r := chatModel_Generate inputMsgs in
  match r with
  | inr err => ret (inr err)
  | inl resp =>
      ret (inl {| AgentState_Order := AgentState_Order state;
                  Messages := (Messages state ++ [resp]) |})
  end.

(** Tool executor node, over the handler map it closes over. *)
Definition toolExecutorWith (handlers : gmap string (@Handler Args))
    (state : AgentState) : M (AgentState + error) :=
  let* lastMsg := index (Messages state) (len (Messages state) - 1) in
  if decide (len (ToolCalls lastMsg) = 0)%Z then ret (inl state)
  else
    let* msgs := rangeToolCalls handlers switch_case (ToolCalls lastMsg) (Messages state) in
    ret (inl {| AgentState_Order := AgentState_Order state; Messages := msgs |}).

Definition toolExecutor : AgentState -> M (AgentState + error) :=
  toolExecutorWith toolHandlers.

Definition branch : GraphBranch AgentState :=
  NewGraphBranch
    (fun state =>
       let* lastMsg := index (Messages state) (len (Messages state) - 1) in
       if decide (len (ToolCalls lastMsg) > 0)%Z then ret (inl "tools")
       else ret (inl END))
    {[ "tools"; END ]}.

Definition NewAgent : Graph AgentState :=
  let g := NewGraph in
  let g := AddLambdaNode "assistant" assistant g in
  let g := AddLambdaNode "tools" toolExecutor g in
  let g := AddEdge START "assistant" g in
  let g := AddBranch "assistant" branch g in
  let g := AddEdge "tools" "assistant" g in
  g.

End Agent.
End ecommerce_customer_support.

(** ** package it_help_desk *)
Module it_help_desk.
Import compose.

Record Ticket := {
  Ticket_TicketID : string;
  Ticket_UserID : string;
  Ticket_Priority : string;
  Ticket_Status : string;
  Ticket_Category : string
}.

(** [Ticket] is a pointer in the source: [None] is nil. *)
Record AgentState := {
  AgentState_Ticket : option Ticket;
  Messages : list Message
}.

Record ProvisionUserAccessArgs := {
  ProvisionUserAccessArgs_UserID : string;
  ProvisionUserAccessArgs_Action : string
}.

Record TroubleshootNetworkArgs := {
  TroubleshootNetworkArgs_Issue : string;
  TroubleshootNetworkArgs_Location : string
}.

Record DiagnoseSystemIssueArgs := {
  DiagnoseSystemIssueArgs_System : string;
  DiagnoseSystemIssueArgs_Issue : string;
  DiagnoseSystemIssueArgs_Service : string
}.

Record DeploySoftwareArgs := {
  DeploySoftwareArgs_Software : string;
  DeploySoftwareArgs_Action : string
}.

Record ContainSecurityIncidentArgs := {
  ContainSecurityIncidentArgs_IncidentType : string;
  ContainSecurityIncidentArgs_AffectedSystem : string
}.

Record TroubleshootHardwareArgs := {
  TroubleshootHardwareArgs_Device : string;
  TroubleshootHardwareArgs_Location : string;
  TroubleshootHardwareArgs_Issue : string
}.

Record AssignRolesArgs := {
  AssignRolesArgs_UserID : string;
  AssignRolesArgs_NewRole : string
}.

Record EscalateIncidentArgs := {
  EscalateIncidentArgs_IncidentID : string;
  EscalateIncidentArgs_EscalateTo : string
}.

Record ApplyPatchesArgs := {
  ApplyPatchesArgs_TargetSystems : string;
  ApplyPatchesArgs_PatchType : string
}.

Record SendUserResponseArgs := {
  SendUserResponseArgs_UserID : string;
  SendUserResponseArgs_Message : string
}.

(** The dynamic types that reach a handler's [args interface{}]. *)
Inductive Args :=
| PtrProvisionUserAccessArgs (a : ProvisionUserAccessArgs)
| PtrTroubleshootNetworkArgs (a : TroubleshootNetworkArgs)
| PtrDiagnoseSystemIssueArgs (a : DiagnoseSystemIssueArgs)
| PtrDeploySoftwareArgs (a : DeploySoftwareArgs)
| PtrContainSecurityIncidentArgs (a : ContainSecurityIncidentArgs)
| PtrTroubleshootHardwareArgs (a : TroubleshootHardwareArgs)
| PtrAssignRolesArgs (a : AssignRolesArgs)
| PtrEscalateIncidentArgs (a : EscalateIncidentArgs)
| PtrApplyPatchesArgs (a : ApplyPatchesArgs)
| PtrSendUserResponseArgs (a : SendUserResponseArgs).

Section Agent.
Context `{ChatModel} `{!Marshal Ticket}.
Context `{!Unmarshal ProvisionUserAccessArgs}.
Context `{!Unmarshal TroubleshootNetworkArgs}.
Context `{!Unmarshal DiagnoseSystemIssueArgs}.
Context `{!Unmarshal DeploySoftwareArgs}.
Context `{!Unmarshal ContainSecurityIncidentArgs}.
Context `{!Unmarshal TroubleshootHardwareArgs}.
Context `{!Unmarshal AssignRolesArgs}.
Context `{!Unmarshal EscalateIncidentArgs}.
Context `{!Unmarshal ApplyPatchesArgs}.
Context `{!Unmarshal SendUserResponseArgs}.

Definition ProvisionUserAccess (args : ProvisionUserAccessArgs)
    : M (string * option error) :=
  let* _ := fmt_Printf ("[TOOL] provision_user_access(user_id="
                        +:+ ProvisionUserAccessArgs_UserID args +:+ ", action="
                        +:+ ProvisionUserAccessArgs_Action args +:+ ")") in
  ret ("user_access_updated", None).

Definition TroubleshootNetwork (args : TroubleshootNetworkArgs)
    : M (string * option error) :=
  let* _ := fmt_Printf ("[TOOL] troubleshoot_network(issue="
                        +:+ TroubleshootNetworkArgs_Issue args +:+ ", location="
                        +:+ TroubleshootNetworkArgs_Location args +:+ ")") in
  ret ("network_issue_diagnosed", None).

Definition DiagnoseSystemIssue (args : DiagnoseSystemIssueArgs)
    : M (string * option error) :=
  let* _ := fmt_Printf ("[TOOL] diagnose_system_issue(system="
                        +:+ DiagnoseSystemIssueArgs_System args +:+ ", issue="
                        +:+ DiagnoseSystemIssueArgs_Issue args +:+ ", service="
                        +:+ DiagnoseSystemIssueArgs_Service args +:+ ")") in
  ret ("system_diagnosis_complete", None).

Definition DeploySoftware (args : DeploySoftwareArgs) : M (string * option error) :=
  let* _ := fmt_Printf ("[TOOL] deploy_software(software="
                        +:+ DeploySoftwareArgs_Software args +:+ ", action="
                        +:+ DeploySoftwareArgs_Action args +:+ ")") in
  ret ("software_deployment_initiated", None).

Definition ContainSecurityIncident (args : ContainSecurityIncidentArgs)
    : M (string * option error) :=
  let* _ := fmt_Printf ("[TOOL] contain_security_incident(type="
                        +:+ ContainSecurityIncidentArgs_IncidentType args
                        +:+ ", system="
                        +:+ ContainSecurityIncidentArgs_AffectedSystem args +:+ ")") in
  ret ("security_incident_contained", None).

Definition TroubleshootHardware (args : TroubleshootHardwareArgs)
    : M (string * option error) :=
  let* _ := fmt_Printf ("[TOOL] troubleshoot_hardware(device="
                        +:+ TroubleshootHardwareArgs_Device args +:+ ", issue="
                        +:+ TroubleshootHardwareArgs_Issue args +:+ ")") in
  ret ("hardware_troubleshooting_initiated", None).

Definition AssignRoles (args : AssignRolesArgs) : M (string * option error) :=
  let* _ := fmt_Printf ("[TOOL] assign_roles(user=" +:+ AssignRolesArgs_UserID args
                        +:+ ", role=" +:+ AssignRolesArgs_NewRole args +:+ ")") in
  ret ("role_assignment_complete", None).

Definition EscalateIncident (args : EscalateIncidentArgs) : M (string * option error) :=
  let* _ := fmt_Printf ("[TOOL] escalate_incident(id="
                        +:+ EscalateIncidentArgs_IncidentID args +:+ ", to="
                        +:+ EscalateIncidentArgs_EscalateTo args +:+ ")") in
  ret ("incident_escalated", None).

Definition ApplyPatches (args : ApplyPatchesArgs) : M (string * option error) :=
  let* _ := fmt_Printf ("[TOOL] apply_patches(target="
                        +:+ ApplyPatchesArgs_TargetSystems args +:+ ", type="
                        +:+ ApplyPatchesArgs_PatchType args +:+ ")") in
  ret ("patch_deployment_scheduled", None).

Definition SendUserResponse (args : SendUserResponseArgs) : M (string * option error) :=
  let* _ := fmt_Printf ("[TOOL] send_user_response -> "
                        +:+ SendUserResponseArgs_Message args) in
  ret ("response_sent", None).

(** Each handler asserts the dynamic type of [args]; a failed assertion panics. *)
Definition toolHandlers : gmap string (@Handler Args) :=
  list_to_map [
    ("provision_user_access", fun args =>
       match args with
       | PtrProvisionUserAccessArgs a => ProvisionUserAccess a
       | _ => panic "interface conversion"
       end);
    ("troubleshoot_network", fun args =>
       match args with
       | PtrTroubleshootNetworkArgs a => TroubleshootNetwork a
       | _ => panic "interface conversion"
       end);
    ("diagnose_system_issue", fun args =>
       match args with
       | PtrDiagnoseSystemIssueArgs a => DiagnoseSystemIssue a
       | _ => panic "interface conversion"
       end);
    ("deploy_software", fun args =>
       match args with
       | PtrDeploySoftwareArgs a => DeploySoftware a
       | _ => panic "interface conversion"
       end);
    ("contain_security_incident", fun args =>
       match args with
       | PtrContainSecurityIncidentArgs a => ContainSecurityIncident a
       | _ => panic "interface conversion"
       end);
    ("troubleshoot_hardware", fun args =>
       match args with
       | PtrTroubleshootHardwareArgs a => TroubleshootHardware a
       | _ => panic "interface conversion"
       end);
    ("assign_roles", fun args =>
       match args with
       | PtrAssignRolesArgs a => AssignRoles a
       | _ => panic "interface conversion"
       end);
    ("escalate_incident", fun args =>
       match args with
       | PtrEscalateIncidentArgs a => EscalateIncident a
       | _ => panic "interface conversion"
       end);
    ("apply_patches", fun args =>
       match args with
       | PtrApplyPatchesArgs a => ApplyPatches a
       | _ => panic "interface conversion"
       end);
    ("send_user_response", fun args =>
       match args with
       | PtrSendUserResponseArgs a => SendUserResponse a
       | _ => panic "interface conversion"
       end)
  ].

(** [var a T]: the zero value of each argument struct. *)
Definition zero_ProvisionUserAccessArgs : ProvisionUserAccessArgs :=
  {| ProvisionUserAccessArgs_UserID := ""; ProvisionUserAccessArgs_Action := "" |}.
Definition zero_TroubleshootNetworkArgs : TroubleshootNetworkArgs :=
  {| TroubleshootNetworkArgs_Issue := ""; TroubleshootNetworkArgs_Location := "" |}.
Definition zero_DiagnoseSystemIssueArgs : DiagnoseSystemIssueArgs :=
  {| DiagnoseSystemIssueArgs_System := "";
     DiagnoseSystemIssueArgs_Issue := "";
     DiagnoseSystemIssueArgs_Service := "" |}.
Definition zero_DeploySoftwareArgs : DeploySoftwareArgs :=
  {| DeploySoftwareArgs_Software := ""; DeploySoftwareArgs_Action := "" |}.
Definition zero_ContainSecurityIncidentArgs : ContainSecurityIncidentArgs :=
  {| ContainSecurityIncidentArgs_IncidentType := "";
     ContainSecurityIncidentArgs_AffectedSystem := "" |}.
Definition zero_TroubleshootHardwareArgs : TroubleshootHardwareArgs :=
  {| TroubleshootHardwareArgs_Device := "";
     TroubleshootHardwareArgs_Location := "";
     TroubleshootHardwareArgs_Issue := "" |}.
Definition zero_AssignRolesArgs : AssignRolesArgs :=
  {| AssignRolesArgs_UserID := ""; AssignRolesArgs_NewRole := "" |}.
Definition zero_EscalateIncidentArgs : EscalateIncidentArgs :=
  {| EscalateIncidentArgs_IncidentID := ""; EscalateIncidentArgs_EscalateTo := "" |}.
Definition zero_ApplyPatchesArgs : ApplyPatchesArgs :=
  {| ApplyPatchesArgs_TargetSystems := ""; ApplyPatchesArgs_PatchType := "" |}.
Definition zero_SendUserResponseArgs : SendUserResponseArgs :=
  {| SendUserResponseArgs_UserID := ""; SendUserResponseArgs_Message := "" |}.

(** The cases of [switch tc.Function.Name]; the error of [json.Unmarshal] is
    assigned to [_]. *)
Definition switch_case (name : string) : option (string -> Args) :=
  if decide (name = "provision_user_access") then
    Some (fun arguments =>
            PtrProvisionUserAccessArgs (fst (json_Unmarshal arguments zero_ProvisionUserAccessArgs)))
  else if decide (name = "troubleshoot_network") then
    Some (fun arguments =>
            PtrTroubleshootNetworkArgs (fst (json_Unmarshal arguments zero_TroubleshootNetworkArgs)))
  else if decide (name = "diagnose_system_issue") then
    Some (fun arguments =>
            PtrDiagnoseSystemIssueArgs (fst (json_Unmarshal arguments zero_DiagnoseSystemIssueArgs)))
  else if decide (name = "deploy_software") then
    Some (fun arguments =>
            PtrDeploySoftwareArgs (fst (json_Unmarshal arguments zero_DeploySoftwareArgs)))
  else if decide (name = "contain_security_incident") then
    Some (fun arguments =>
            PtrContainSecurityIncidentArgs (fst (json_Unmarshal arguments zero_ContainSecurityIncidentArgs)))
  else if decide (name = "troubleshoot_hardware") then
    Some (fun arguments =>
            PtrTroubleshootHardwareArgs (fst (json_Unmarshal arguments zero_TroubleshootHardwareArgs)))
  else if decide (name = "assign_roles") then
    Some (fun arguments =>
            PtrAssignRolesArgs (fst (json_Unmarshal arguments zero_AssignRolesArgs)))
  else if decide (name = "escalate_incident") then
    Some (fun arguments =>
            PtrEscalateIncidentArgs (fst (json_Unmarshal arguments zero_EscalateIncidentArgs)))
  else if decide (name = "apply_patches") then
    Some (fun arguments =>
            PtrApplyPatchesArgs (fst (json_Unmarshal arguments zero_ApplyPatchesArgs)))
  else if decide (name = "send_user_response") then
    Some (fun arguments =>
            PtrSendUserResponseArgs (fst (json_Unmarshal arguments zero_SendUserResponseArgs)))
  else None.

Definition sysPrompt (state : AgentState) : string :=
  let ticketJSON := fst (json_Marshal (AgentState_Ticket state)) in
  "You are an experienced IT Help Desk technician and system administrator." +:+ newline +:+
  "Your expertise covers: User access, Network, System diagnostics, Software, Security, Hardware, Infrastructure." +:+ newline +:+
  "When helping users:" +:+ newline +:+
  "  1) Analyze the technical issue and call the appropriate diagnostic/resolution tool" +:+ newline +:+
  "  2) Follow up with send_user_response to explain what actions were taken" +:+ newline +:+
  "  3) Escalate complex issues when they exceed your support level" +:+ newline +:+ newline +:+
  "TICKET: " +:+ ticketJSON.

Definition assistant (state : AgentState) : M (AgentState + error) :=
  let inputMsgs := SystemMessage (sysPrompt state) :: Messages state in
  let* r := chatModel_Generate inputMsgs in
  match r with
  | inr err => ret (inr err)
  | inl resp =>
      ret (inl {| AgentState_Ticket := AgentState_Ticket state;
                  Messages := (Messages state ++ [resp]) |})
  end.

(** [toolExecutor], over the handler map it closes over. *)
Definition toolExecutorWith (handlers : gmap string (@Handler Args))
    (state : AgentState) : M (AgentState + error) :=
  let* lastMsg := index (Messages state) (len (Messages state) - 1) in
  if decide (len (ToolCalls lastMsg) = 0)%Z then ret (inl state)
  else
    let* msgs := rangeToolCalls handlers switch_case (ToolCalls lastMsg) (Messages state) in
    ret (inl {| AgentState_Ticket := AgentState_Ticket state; Messages := msgs |}).

Definition toolExecutor : AgentState -> M (AgentState + error) :=
  toolExecutorWith toolHandlers.

Definition branch : GraphBranch AgentState :=
  NewGraphBranch
    (fun state =>
       let* lastMsg := index (Messages state) (len (Messages state) - 1) in
       if decide (len (ToolCalls lastMsg) > 0)%Z then ret (inl "tools")
       else ret (inl END))
    {[ "tools"; END ]}.

Definition NewAgent : Graph AgentState :=
  let g := NewGraph in
  let g := AddLambdaNode "assistant" assistant g in
  let g := AddLambdaNode "tools" toolExecutor g in
  let g := AddEdge START "assistant" g in
  let g := AddBranch "assistant" branch g in
  let g := AddEdge "tools" "assistant" g in
  g.

End Agent.
End it_help_desk.

(** ** package soc *)
Module soc.
Import compose.

Record Incident := {
  Incident_IncidentID : string;
  Incident_Severity : string;
  Incident_Type : string;
  Incident_Status : string;
  Incident_Analyst : string
}.

(** [Incident] is a pointer in the source: [None] is nil. *)
Record AgentState := {
  AgentState_Incident : option Incident;
  Messages : list Message
}.

Record LookupThreatIntelArgs := {
  LookupThreatIntelArgs_Indicator : string;
  LookupThreatIntelArgs_Type : string
}.

Record QueryLogsArgs := {
  QueryLogsArgs_Query : string;
  QueryLogsArgs_LogIndex : string
}.

Record TriageIncidentArgs := {
  TriageIncidentArgs_IncidentID : string;
  TriageIncidentArgs_Decision : string;
  TriageIncidentArgs_Reason : string
}.

Record IsolateHostArgs := {
  IsolateHostArgs_HostID : string;
  IsolateHostArgs_Reason : string
}.

Record SendAnalystResponseArgs := {
  SendAnalystResponseArgs_IncidentID : string;
  SendAnalystResponseArgs_Message : string
}.

(** The dynamic types that reach a handler's [args interface{}]. *)
Inductive Args :=
| PtrLookupThreatIntelArgs (a : LookupThreatIntelArgs)
| PtrQueryLogsArgs (a : QueryLogsArgs)
| PtrTriageIncidentArgs (a : TriageIncidentArgs)
| PtrIsolateHostArgs (a : IsolateHostArgs)
| PtrSendAnalystResponseArgs (a : SendAnalystResponseArgs).

Section Agent.
Context `{ChatModel} `{!Marshal Incident}.
Context `{!Unmarshal LookupThreatIntelArgs}.
Context `{!Unmarshal QueryLogsArgs}.
Context `{!Unmarshal TriageIncidentArgs}.
Context `{!Unmarshal IsolateHostArgs}.
Context `{!Unmarshal SendAnalystResponseArgs}.

Definition LookupThreatIntel (args : LookupThreatIntelArgs) : M (string * option error) :=
  let* _ := fmt_Printf ("[TOOL] lookup_threat_intel(ind="
                        +:+ LookupThreatIntelArgs_Indicator args +:+ ", type="
                        +:+ LookupThreatIntelArgs_Type args +:+ ")") in
  ret ("threat_intel_retrieved", None).

Definition QueryLogs (args : QueryLogsArgs) : M (string * option error) :=
  let* _ := fmt_Printf ("[TOOL] query_logs(q=" +:+ QueryLogsArgs_Query args +:+ ", idx="
                        +:+ QueryLogsArgs_LogIndex args +:+ ")") in
  ret ("log_query_executed", None).

Definition TriageIncident (args : TriageIncidentArgs) : M (string * option error) :=
  let* _ := fmt_Printf ("[TOOL] triage_incident(id="
                        +:+ TriageIncidentArgs_IncidentID args +:+ ", decision="
                        +:+ TriageIncidentArgs_Decision args +:+ ")") in
  ret ("incident_triaged", None).

Definition IsolateHost (args : IsolateHostArgs) : M (string * option error) :=
  let* _ := fmt_Printf ("[TOOL] isolate_host(host=" +:+ IsolateHostArgs_HostID args
                        +:+ ")") in
  ret ("host_isolated", None).

Definition SendAnalystResponse (args : SendAnalystResponseArgs)
    : M (string * option error) :=
  let* _ := fmt_Printf ("[TOOL] send_analyst_response -> "
                        +:+ SendAnalystResponseArgs_Message args) in
  ret ("analyst_response_sent", None).

(** Each handler asserts the dynamic type of [args]; a failed assertion panics. *)
Definition toolHandlers : gmap string (@Handler Args) :=
  list_to_map [
    ("lookup_threat_intel", fun args =>
       match args with
       | PtrLookupThreatIntelArgs a => LookupThreatIntel a
       | _ => panic "interface conversion"
       end);
    ("query_logs", fun args =>
       match args with
       | PtrQueryLogsArgs a => QueryLogs a
       | _ => panic "interface conversion"
       end);
    ("triage_incident", fun args =>
       match args with
       | PtrTriageIncidentArgs a => TriageIncident a
       | _ => panic "interface conversion"
       end);
    ("isolate_host", fun args =>
       match args with
       | PtrIsolateHostArgs a => IsolateHost a
       | _ => panic "interface conversion"
       end);
    ("send_analyst_response", fun args =>
       match args with
       | PtrSendAnalystResponseArgs a => SendAnalystResponse a
       | _ => panic "interface conversion"
       end)
  ].

(** [var a T]: the zero value of each argument struct. *)
Definition zero_LookupThreatIntelArgs : LookupThreatIntelArgs :=
  {| LookupThreatIntelArgs_Indicator := ""; LookupThreatIntelArgs_Type := "" |}.
Definition zero_QueryLogsArgs : QueryLogsArgs :=
  {| QueryLogsArgs_Query := ""; QueryLogsArgs_LogIndex := "" |}.
Definition zero_TriageIncidentArgs : TriageIncidentArgs :=
  {| TriageIncidentArgs_IncidentID := "";
     TriageIncidentArgs_Decision := "";
     TriageIncidentArgs_Reason := "" |}.
Definition zero_IsolateHostArgs : IsolateHostArgs :=
  {| IsolateHostArgs_HostID := ""; IsolateHostArgs_Reason := "" |}.
Definition zero_SendAnalystResponseArgs : SendAnalystResponseArgs :=
  {| SendAnalystResponseArgs_IncidentID := ""; SendAnalystResponseArgs_Message := "" |}.

(** The cases of [switch tc.Function.Name]; the error of [json.Unmarshal] is
    assigned to [_]. *)
Definition switch_case (name : string) : option (string -> Args) :=
  if decide (name = "lookup_threat_intel") then
    Some (fun arguments =>
            PtrLookupThreatIntelArgs (fst (json_Unmarshal arguments zero_LookupThreatIntelArgs)))
  else if decide (name = "query_logs") then
    Some (fun arguments =>
            PtrQueryLogsArgs (fst (json_Unmarshal arguments zero_QueryLogsArgs)))
  else if decide (name = "triage_incident") then
    Some (fun arguments =>
            PtrTriageIncidentArgs (fst (json_Unmarshal arguments zero_TriageIncidentArgs)))
  else if decide (name = "isolate_host") then
    Some (fun arguments =>
            PtrIsolateHostArgs (fst (json_Unmarshal arguments zero_IsolateHostArgs)))
  else if decide (name = "send_analyst_response") then
    Some (fun arguments =>
            PtrSendAnalystResponseArgs (fst (json_Unmarshal arguments zero_SendAnalystResponseArgs)))
  else None.

Definition sysPrompt (state : AgentState) : string :=
  let incJSON := fst (json_Marshal (AgentState_Incident state)) in
  "You are a SOC analyst." +:+ newline +:+
  "Roles: Threat Intel, Log Analysis, Triage, Host Isolation." +:+ newline +:+
  "1) Use tools." +:+ newline +:+ "2) send_analyst_response." +:+ newline +:+ newline +:+
  "INCIDENT: " +:+ incJSON.

Definition assistant (state : AgentState) : M (AgentState + error) :=
  let inputMsgs := SystemMessage (sysPrompt state) :: Messages state in
  let* r := chatModel_Generate inputMsgs in
  match r with
  | inr err => ret (inr err)
  | inl resp =>
      ret (inl {| AgentState_Incident := AgentState_Incident state;
                  Messages := (Messages state ++ [resp]) |})
  end.

(** [toolExecutor], over the handler map it closes over. *)
Definition toolExecutorWith (handlers : gmap string (@Handler Args))
    (state : AgentState) : M (AgentState + error) :=
  let* lastMsg := index (Messages state) (len (Messages state) - 1) in
  if decide (len (ToolCalls lastMsg) = 0)%Z then ret (inl state)
  else
    let* msgs := rangeToolCalls handlers switch_case (ToolCalls lastMsg) (Messages state) in
    ret (inl {| AgentState_Incident := AgentState_Incident state; Messages := msgs |}).

Definition toolExecutor : AgentState -> M (AgentState + error) :=
  toolExecutorWith toolHandlers.

Definition branch : GraphBranch AgentState :=
  NewGraphBranch
    (fun state =>
       let* lastMsg := index (Messages state) (len (Messages state) - 1) in
       if decide (len (ToolCalls lastMsg) > 0)%Z then ret (inl "tools")
       else ret (inl END))
    {[ "tools"; END ]}.

Definition NewAgent : Graph AgentState :=
  let g := NewGraph in
  let g := AddLambdaNode "assistant" assistant g in
  let g := AddLambdaNode "tools" toolExecutor g in
  let g := AddEdge START "assistant" g in
  let g := AddBranch "assistant" branch g in
  let g := AddEdge "tools" "assistant" g in
  g.

End Agent.
End soc.

(** ** go/cmd/ecommerce_customer_support: package main *)
Module ecommerce_main.
Import compose ecommerce_customer_support.

Section Main.
Context `{Setup} `{Recover} `{ChatModel} `{Fmt} `{!Marshal Order}.
Context `{!Unmarshal SendCustomerMessageArgs} `{!Unmarshal IssueRefundArgs}.
Context `{!Unmarshal CancelOrderArgs} `{!Unmarshal UpdateAddressArgs}.
Context `{!Unmarshal AgentState} `{!Marshal AgentState}.

(** [ecommerce_customer_support.NewAgent(ctx)] with its error returns: the compiled graph, or the
    error of the model constructor (wrapped), of [BindTools] or of [Compile]. *)
Definition NewAgent_or_error : Graph AgentState + error :=
  match NewChatModel_error with
  | Some err => inr ("failed to init chat model: " +:+ err)
  | None =>
      match BindTools_error with
      | Some err => inr err
      | None =>
          match Compile_error with
          | Some err => inr err
          | None => inl NewAgent
          end
      end
  end.

(** The hardcoded inputs of demo mode; [Total] is the binary64 nearest 19.99. *)
Definition demoState : AgentState :=
  {| AgentState_Order :=
       Some {| Order_OrderID := "A12345";
               Order_Status := "Delivered";
               Order_Total := S754_finite false 5626684784446013 (-48);
               Order_CustomerID := "CUST001" |};
     Messages := [UserMessage "My mug arrived broken. Refund?"] |}.

Fixpoint printToolCalls (calls : list ToolCall) : M unit :=
  match calls with
  | [] => ret tt
  | tc :: rest =>
      let* _ := fmt_Printf ("  (Tool Call: " +:+ Name (Function tc)
                            +:+ " args=" +:+ Arguments (Function tc) +:+ ")") in
      printToolCalls rest
  end.

Fixpoint printMessages (msgs : list Message) : M unit :=
  match msgs with
  | [] => ret tt
  | msg :: rest =>
      let* _ := fmt_Printf ("[" +:+ RoleType_string (Role msg) +:+ "]: " +:+ Content msg) in
      let* _ := printToolCalls (ToolCalls msg) in
      printMessages rest
  end.

(** [main]: [evalMode] is the [--eval] flag, [stdin] what [io.ReadAll] returned
    (the bytes or its error), [fuel] the step budget of the compiled graph. *)
Definition main (evalMode : bool) (stdin : string + error) (fuel : nat) : M unit :=
  if decide (OPENAI_API_KEY = "") then
    let* _ := fmt_Fprintf_stderr "OPENAI_API_KEY is not set" in
    os_Exit 1
  else
    match NewAgent_or_error with
    | inr err =>
        let* _ := fmt_Fprintf_stderr ("Failed to create agent: " +:+ err) in
        os_Exit 1
    | inl agent =>
        let* initialState :=
          if evalMode then
            match stdin with
            | inr err =>
                let* _ := fmt_Fprintf_stderr ("Failed to read stdin: " +:+ err) in
                os_Exit 1
            | inl inputBytes =>
                match json_Unmarshal inputBytes
                        {| AgentState_Order := None; Messages := [] |} with
                | (_, Some err) =>
                    let* _ := fmt_Fprintf_stderr ("Failed to unmarshal input: " +:+ err
                                                  +:+ newline +:+ "Input: " +:+ inputBytes) in
                    os_Exit 1
                | (initialState, None) => ret initialState
                end
            end
          else ret demoState in
        let* r := Invoke agent fuel initialState in
        match r with
        | Failed err =>
            let* _ := fmt_Fprintf_stderr ("Agent error: " +:+ err) in
            os_Exit 1
        | Done finalState =>
            if evalMode then
              match json_Marshal (Some finalState) with
              | (_, Some err) =>
                  let* _ := fmt_Fprintf_stderr ("Failed to marshal output: " +:+ err) in
                  os_Exit 1
              | (outputBytes, None) => fmt_Printf outputBytes
              end
            else
              let* _ := fmt_Printf "Final Messages:" in
              printMessages (Messages finalState)
        end
    end.

End Main.
End ecommerce_main.

(** ** The direct tool-calling loop: package main of the math-tools example *)
Module math_tools.

Record MathArgs := { X : float64; Y : float64 }.

(** [math.Pow] *)
Class MathPow := math_Pow : float64 -> float64 -> float64.

(** [tool.InvokableTool], reduced to the name of its [Info] and [InvokableRun]. *)
(** [tool.InvokableTool], reduced to the name of its [Info] and [InvokableRun]. *)
Record InvokableTool := {
  Info_Name : string;
  InvokableRun : string -> M (string * option error)
}.

Section Main.
Context `{ChatModel} `{Fmt} `{MathPow} `{!Unmarshal (option MathArgs)}.

(** The tool functions take [*MathArgs] ([None] is nil) and read its fields. *)
Definition multiply (args : option MathArgs) : M (string * option error) :=
  match args with
  | None => panic "invalid memory address or nil pointer dereference"
  | Some args => ret (Sprintf_v (float64_mul (X args) (Y args)), None)
  end.

Definition exponentiate (args : option MathArgs) : M (string * option error) :=
  match args with
  | None => panic "invalid memory address or nil pointer dereference"
  | Some args => ret (Sprintf_v (math_Pow (X args) (Y args)), None)
  end.

Definition add (args : option MathArgs) : M (string * option error) :=
  match args with
  | None => panic "invalid memory address or nil pointer dereference"
  | Some args => ret (Sprintf_v (float64_add (X args) (Y args)), None)
  end.

(** [utils.InferTool(name, desc, fn)]: the tool decodes its JSON arguments
    into a pointer to a fresh [MathArgs] (which the decoder may set to nil)
    and runs [fn] on it; a decoding or function error comes back wrapped, with
    an empty output, a string result as it is. *)
Definition InferTool (name desc : string)
    (fn : option MathArgs -> M (string * option error)) : InvokableTool :=
  {| Info_Name := name;
     InvokableRun := fun argumentsInJSON =>
       match json_Unmarshal argumentsInJSON
               (Some {| X := S754_zero false; Y := S754_zero false |}) with
       | (_, Some err) =>
           ret ("", Some ("[LocalFunc] failed to unmarshal arguments in json, toolName="
                          +:+ name +:+ ", err=" +:+ err))
       | (inst, None) =>
           let* '(resp, err) := fn inst in
           match err with
           | Some err =>
               ret ("", Some ("[LocalFunc] failed to invoke tool, toolName="
                              +:+ name +:+ ", err=" +:+ err))
           | None => ret (resp, None)
           end
       end |}.

Definition multiplyTool : InvokableTool :=
  InferTool "multiply" "Multiply x * y (计算 x 乘以 y)" multiply.
Definition expTool : InvokableTool :=
  InferTool "exponentiate" "Raise x to power y (计算 x 的 y 次幂)" exponentiate.
Definition addTool : InvokableTool :=
  InferTool "add" "Add x + y (计算 x 加 y)" add.

Definition tools : list InvokableTool := [multiplyTool; expTool; addTool].

(** [for i, t := range tools { info, _ := t.Info(ctx); toolMap[info.Name] = t }] *)
Definition toolMap : gmap string InvokableTool :=
  foldl (fun m t => <[Info_Name t := t]> m) ∅ tools.

(** The body of [for _, tc := range resp.ToolCalls]. A name missing from
    [toolMap] yields the nil interface, and calling [InvokableRun] on it is a
    nil dereference; the error of [InvokableRun] is assigned to [_]. *)
Definition runToolCall (tc : ToolCall) (msgs : list Message) : M (list Message) :=
  match toolMap !! Name (Function tc) with
  | None => panic "invalid memory address or nil pointer dereference"
  | Some t =>
      let* '(result, _) := InvokableRun t (Arguments (Function tc)) in
      let* _ := fmt_Printf (Name (Function tc) +:+ "(" +:+ Arguments (Function tc)
                            +:+ ") = " +:+ result) in
      ret (msgs ++ [ {| Role := Tool; Content := result;
                        ToolCalls := []; ToolCallID := ID tc |} ])%list
  end.

Fixpoint runToolCalls (calls : list ToolCall) (msgs : list Message) : M (list Message) :=
  match calls with
  | [] => ret msgs
  | tc :: rest =>
      let* msgs' := runToolCall tc msgs in
      runToolCalls rest msgs'
  end.

(** [log.Fatal(err)]: the standard logger writes the line, then [os.Exit(1)]. *)
Definition log_Fatal {A} (err : error) : M A :=
  let* _ := log_Printf err in
  os_Exit 1.

(** [main] from the first call of the model on, the model constructed and
    the tools bound; the value returned is [msgs] as it stands when [main]
    ends. The error of the final [Generate] is assigned to [_], so a failed
    call leaves [final] nil and [final.Content] dereferences it. *)
Definition main : M (list Message) :=
  let msgs := [UserMessage "What is 393 * 12.25? Also, what is 11 + 49?"] in
  let* r := chatModel_Generate msgs in
  match r with
  | inr err => log_Fatal err
  | inl resp =>
      let msgs := (msgs ++ [resp]) in
      let* msgs := runToolCalls (ToolCalls resp) msgs in
      let* final := chatModel_Generate msgs in
      match final with
      | inr _ => panic "invalid memory address or nil pointer dereference"
      | inl final =>
          let* _ := fmt_Printf (Content final) in
          ret msgs
      end
  end.

End Main.
End math_tools.

(** ** package legal *)
Module legal.
Import compose.

Record Matter := {
  Matter_MatterID : string;
  Matter_ClientID : string;
  Matter_MatterType : string;
  Matter_Status : string
}.

(** [Matter] is a pointer in the source: [None] is nil. *)
Record AgentState := {
  AgentState_Matter : option Matter;
  Messages : list Message
}.

Record ReviewContractArgs := {
  ReviewContractArgs_ContractType : string
}.

Record ResearchCaseLawArgs := {
  ResearchCaseLawArgs_CaseType : string;
  ResearchCaseLawArgs_Jurisdiction : string
}.

Record ClientIntakeArgs := {
  ClientIntakeArgs_ClientName : string;
  ClientIntakeArgs_MatterType : string
}.

Record AssessComplianceArgs := {
  AssessComplianceArgs_Regulations : list string;
  AssessComplianceArgs_ClientIndustry : string
}.

Record ManageDiscoveryArgs := {
  ManageDiscoveryArgs_DiscoveryType : string
}.

Record CalculateDamagesArgs := {
  CalculateDamagesArgs_CaseType : string
}.

Record TrackDeadlinesArgs := {
  TrackDeadlinesArgs_CaseName : string;
  TrackDeadlinesArgs_DocumentType : string;
  TrackDeadlinesArgs_FilingDeadline : string
}.

Record SendLegalResponseArgs := {
  SendLegalResponseArgs_ClientID : string;
  SendLegalResponseArgs_Message : string
}.

(** The dynamic types that reach a handler's [args interface{}]. *)
Inductive Args :=
| PtrReviewContractArgs (a : ReviewContractArgs)
| PtrResearchCaseLawArgs (a : ResearchCaseLawArgs)
| PtrClientIntakeArgs (a : ClientIntakeArgs)
| PtrAssessComplianceArgs (a : AssessComplianceArgs)
| PtrManageDiscoveryArgs (a : ManageDiscoveryArgs)
| PtrCalculateDamagesArgs (a : CalculateDamagesArgs)
| PtrTrackDeadlinesArgs (a : TrackDeadlinesArgs)
| PtrSendLegalResponseArgs (a : SendLegalResponseArgs).

Section Agent.
Context `{ChatModel} `{!Marshal Matter}.
Context `{!Unmarshal ReviewContractArgs}.
Context `{!Unmarshal ResearchCaseLawArgs}.
Context `{!Unmarshal ClientIntakeArgs}.
Context `{!Unmarshal AssessComplianceArgs}.
Context `{!Unmarshal ManageDiscoveryArgs}.
Context `{!Unmarshal CalculateDamagesArgs}.
Context `{!Unmarshal TrackDeadlinesArgs}.
Context `{!Unmarshal SendLegalResponseArgs}.

Definition ReviewContract (args : ReviewContractArgs) : M (string * option error) :=
  let* _ := fmt_Printf ("[TOOL] review_contract(type="
                        +:+ ReviewContractArgs_ContractType args +:+ ")") in
  ret ("contract_review_complete", None).

Definition ResearchCaseLaw (args : ResearchCaseLawArgs) : M (string * option error) :=
  let* _ := fmt_Printf ("[TOOL] research_case_law(type="
                        +:+ ResearchCaseLawArgs_CaseType args +:+ ", juris="
                        +:+ ResearchCaseLawArgs_Jurisdiction args +:+ ")") in
  ret ("legal_research_complete", None).

Definition ClientIntake (args : ClientIntakeArgs) : M (string * option error) :=
  let* _ := fmt_Printf ("[TOOL] client_intake(name="
                        +:+ ClientIntakeArgs_ClientName args +:+ ", type="
                        +:+ ClientIntakeArgs_MatterType args +:+ ")") in
  ret ("client_intake_complete", None).

Definition AssessCompliance (args : AssessComplianceArgs) : M (string * option error) :=
  let* _ := fmt_Printf ("[TOOL] assess_compliance(ind="
                        +:+ AssessComplianceArgs_ClientIndustry args +:+ ")") in
  ret ("compliance_assessment_complete", None).

Definition ManageDiscovery (args : ManageDiscoveryArgs) : M (string * option error) :=
  let* _ := fmt_Printf ("[TOOL] manage_discovery(type="
                        +:+ ManageDiscoveryArgs_DiscoveryType args +:+ ")") in
  ret ("discovery_management_initiated", None).

Definition CalculateDamages (args : CalculateDamagesArgs) : M (string * option error) :=
  let* _ := fmt_Printf ("[TOOL] calculate_damages(type="
                        +:+ CalculateDamagesArgs_CaseType args +:+ ")") in
  ret ("damages_calculation_complete", None).

Definition TrackDeadlines (args : TrackDeadlinesArgs) : M (string * option error) :=
  let* _ := fmt_Printf ("[TOOL] track_deadlines(case="
                        +:+ TrackDeadlinesArgs_CaseName args +:+ ", dead="
                        +:+ TrackDeadlinesArgs_FilingDeadline args +:+ ")") in
  ret ("deadline_tracking_updated", None).

Definition SendLegalResponse (args : SendLegalResponseArgs) : M (string * option error) :=
  let* _ := fmt_Printf ("[TOOL] send_legal_response -> "
                        +:+ SendLegalResponseArgs_Message args) in
  ret ("legal_response_sent", None).

(** Each handler asserts the dynamic type of [args]; a failed assertion panics. *)
Definition toolHandlers : gmap string (@Handler Args) :=
  list_to_map [
    ("review_contract", fun args =>
       match args with
       | PtrReviewContractArgs a => ReviewContract a
       | _ => panic "interface conversion"
       end);
    ("research_case_law", fun args =>
       match args with
       | PtrResearchCaseLawArgs a => ResearchCaseLaw a
       | _ => panic "interface conversion"
       end);
    ("client_intake", fun args =>
       match args with
       | PtrClientIntakeArgs a => ClientIntake a
       | _ => panic "interface conversion"
       end);
    ("assess_compliance", fun args =>
       match args with
       | PtrAssessComplianceArgs a => AssessCompliance a
       | _ => panic "interface conversion"
       end);
    ("manage_discovery", fun args =>
       match args with
       | PtrManageDiscoveryArgs a => ManageDiscovery a
       | _ => panic "interface conversion"
       end);
    ("calculate_damages", fun args =>
       match args with
       | PtrCalculateDamagesArgs a => CalculateDamages a
       | _ => panic "interface conversion"
       end);
    ("track_deadlines", fun args =>
       match args with
       | PtrTrackDeadlinesArgs a => TrackDeadlines a
       | _ => panic "interface conversion"
       end);
    ("send_legal_response", fun args =>
       match args with
       | PtrSendLegalResponseArgs a => SendLegalResponse a
       | _ => panic "interface conversion"
       end)
  ].

(** [var a T]: the zero value of each argument struct. *)
Definition zero_ReviewContractArgs : ReviewContractArgs :=
  {| ReviewContractArgs_ContractType := "" |}.
Definition zero_ResearchCaseLawArgs : ResearchCaseLawArgs :=
  {| ResearchCaseLawArgs_CaseType := "";
     ResearchCaseLawArgs_Jurisdiction := "" |}.
Definition zero_ClientIntakeArgs : ClientIntakeArgs :=
  {| ClientIntakeArgs_ClientName := "";
     ClientIntakeArgs_MatterType := "" |}.
Definition zero_AssessComplianceArgs : AssessComplianceArgs :=
  {| AssessComplianceArgs_Regulations := [];
     AssessComplianceArgs_ClientIndustry := "" |}.
Definition zero_ManageDiscoveryArgs : ManageDiscoveryArgs :=
  {| ManageDiscoveryArgs_DiscoveryType := "" |}.
Definition zero_CalculateDamagesArgs : CalculateDamagesArgs :=
  {| CalculateDamagesArgs_CaseType := "" |}.
Definition zero_TrackDeadlinesArgs : TrackDeadlinesArgs :=
  {| TrackDeadlinesArgs_CaseName := "";
     TrackDeadlinesArgs_DocumentType := "";
     TrackDeadlinesArgs_FilingDeadline := "" |}.
Definition zero_SendLegalResponseArgs : SendLegalResponseArgs :=
  {| SendLegalResponseArgs_ClientID := "";
     SendLegalResponseArgs_Message := "" |}.

(** The cases of [switch tc.Function.Name]; the error of [json.Unmarshal] is
    assigned to [_]. *)
Definition switch_case (name : string) : option (string -> Args) :=
  if decide (name = "review_contract") then
    Some (fun arguments =>
            PtrReviewContractArgs (fst (json_Unmarshal arguments zero_ReviewContractArgs)))
  else if decide (name = "research_case_law") then
    Some (fun arguments =>
            PtrResearchCaseLawArgs (fst (json_Unmarshal arguments zero_ResearchCaseLawArgs)))
  else if decide (name = "client_intake") then
    Some (fun arguments =>
            PtrClientIntakeArgs (fst (json_Unmarshal arguments zero_ClientIntakeArgs)))
  else if decide (name = "assess_compliance") then
    Some (fun arguments =>
            PtrAssessComplianceArgs (fst (json_Unmarshal arguments zero_AssessComplianceArgs)))
  else if decide (name = "manage_discovery") then
    Some (fun arguments =>
            PtrManageDiscoveryArgs (fst (json_Unmarshal arguments zero_ManageDiscoveryArgs)))
  else if decide (name = "calculate_damages") then
    Some (fun arguments =>
            PtrCalculateDamagesArgs (fst (json_Unmarshal arguments zero_CalculateDamagesArgs)))
  else if decide (name = "track_deadlines") then
    Some (fun arguments =>
            PtrTrackDeadlinesArgs (fst (json_Unmarshal arguments zero_TrackDeadlinesArgs)))
  else if decide (name = "send_legal_response") then
    Some (fun arguments =>
            PtrSendLegalResponseArgs (fst (json_Unmarshal arguments zero_SendLegalResponseArgs)))
  else None.

Definition sysPrompt (state : AgentState) : string :=
  let matterJSON := fst (json_Marshal (AgentState_Matter state)) in
  "You are an experienced legal professional." +:+ newline +:+
  "Roles: Contract Review, Research, Intake, Compliance, Discovery, Damages, Deadlines." +:+ newline +:+
  "1) Call appropriate tool." +:+ newline +:+ "2) send_legal_response." +:+ newline +:+ newline +:+
  "MATTER: " +:+ matterJSON.

Definition assistant (state : AgentState) : M (AgentState + error) :=
  let inputMsgs := SystemMessage (sysPrompt state) :: Messages state in
  let* r := chatModel_Generate inputMsgs in
  match r with
  | inr err => ret (inr err)
  | inl resp =>
      ret (inl {| AgentState_Matter := AgentState_Matter state;
                  Messages := (Messages state ++ [resp]) |})
  end.

(** [toolExecutor], over the handler map it closes over. *)
Definition toolExecutorWith (handlers : gmap string (@Handler Args))
    (state : AgentState) : M (AgentState + error) :=
  let* lastMsg := index (Messages state) (len (Messages state) - 1) in
  if decide (len (ToolCalls lastMsg) = 0)%Z then ret (inl state)
  else
    let* msgs := rangeToolCalls handlers switch_case (ToolCalls lastMsg) (Messages state) in
    ret (inl {| AgentState_Matter := AgentState_Matter state; Messages := msgs |}).

Definition toolExecutor : AgentState -> M (AgentState + error) :=
  toolExecutorWith toolHandlers.

Definition branch : GraphBranch AgentState :=
  NewGraphBranch
    (fun state =>
       let* lastMsg := index (Messages state) (len (Messages state) - 1) in
       if decide (len (ToolCalls lastMsg) > 0)%Z then ret (inl "tools")
       else ret (inl END))
    {[ "tools"; END ]}.

Definition NewAgent : Graph AgentState :=
  let g := NewGraph in
  let g := AddLambdaNode "assistant" assistant g in
  let g := AddLambdaNode "tools" toolExecutor g in
  let g := AddEdge START "assistant" g in
  let g := AddBranch "assistant" branch g in
  let g := AddEdge "tools" "assistant" g in
  g.

End Agent.
End legal.

(** ** go/cmd/soc: package main *)
Module soc_main.
Import compose soc.

Section Main.
Context `{Setup} `{Recover} `{ChatModel} `{!Marshal Incident}.
Context `{!Unmarshal LookupThreatIntelArgs} `{!Unmarshal QueryLogsArgs}.
Context `{!Unmarshal TriageIncidentArgs} `{!Unmarshal IsolateHostArgs}.
Context `{!Unmarshal SendAnalystResponseArgs}.
Context `{!Unmarshal AgentState} `{!Marshal AgentState}.

(** [soc.NewAgent(ctx)] with its error returns: the compiled graph, or the
    error of the model constructor (wrapped), of [BindTools] or of [Compile]. *)
Definition NewAgent_or_error : Graph AgentState + error :=
  match NewChatModel_error with
  | Some err => inr ("failed to init chat model: " +:+ err)
  | None =>
      match BindTools_error with
      | Some err => inr err
      | None =>
          match Compile_error with
          | Some err => inr err
          | None => inl NewAgent
          end
      end
  end.

(** The hardcoded inputs of demo mode. *)
Definition demoState : AgentState :=
  {| AgentState_Incident :=
       Some {| Incident_IncidentID := "INC-888";
               Incident_Severity := "high";
               Incident_Type := "Malware";
               Incident_Status := "";
               Incident_Analyst := "" |};
     Messages := [UserMessage "Analyze this file hash: abc123def456"] |}.

Fixpoint printToolCalls (calls : list ToolCall) : M unit :=
  match calls with
  | [] => ret tt
  | tc :: rest =>
      let* _ := fmt_Printf ("  (Tool Call: " +:+ Name (Function tc)
                            +:+ " args=" +:+ Arguments (Function tc) +:+ ")") in
      printToolCalls rest
  end.

Fixpoint printMessages (msgs : list Message) : M unit :=
  match msgs with
  | [] => ret tt
  | msg :: rest =>
      let* _ := fmt_Printf ("[" +:+ RoleType_string (Role msg) +:+ "]: " +:+ Content msg) in
      let* _ := printToolCalls (ToolCalls msg) in
      printMessages rest
  end.

(** [main]: [evalMode] is the [--eval] flag, [stdin] what [io.ReadAll] returned
    (the bytes or its error), [fuel] the step budget of the compiled graph. *)
Definition main (evalMode : bool) (stdin : string + error) (fuel : nat) : M unit :=
  if decide (OPENAI_API_KEY = "") then
    let* _ := fmt_Fprintf_stderr "OPENAI_API_KEY is not set" in
    os_Exit 1
  else
    match NewAgent_or_error with
    | inr err =>
        let* _ := fmt_Fprintf_stderr ("Failed to create agent: " +:+ err) in
        os_Exit 1
    | inl agent =>
        let* initialState :=
          if evalMode then
            match stdin with
            | inr err =>
                let* _ := fmt_Fprintf_stderr ("Failed to read stdin: " +:+ err) in
                os_Exit 1
            | inl inputBytes =>
                match json_Unmarshal inputBytes
                        {| AgentState_Incident := None; Messages := [] |} with
                | (_, Some err) =>
                    let* _ := fmt_Fprintf_stderr ("Failed to unmarshal input: " +:+ err
                                                  +:+ newline +:+ "Input: " +:+ inputBytes) in
                    os_Exit 1
                | (initialState, None) => ret initialState
                end
            end
          else ret demoState in
        let* r := Invoke agent fuel initialState in
        match r with
        | Failed err =>
            let* _ := fmt_Fprintf_stderr ("Agent error: " +:+ err) in
            os_Exit 1
        | Done finalState =>
            if evalMode then
              match json_Marshal (Some finalState) with
              | (_, Some err) =>
                  let* _ := fmt_Fprintf_stderr ("Failed to marshal output: " +:+ err) in
                  os_Exit 1
              | (outputBytes, None) => fmt_Printf outputBytes
              end
            else
              let* _ := fmt_Printf "Final Messages:" in
              printMessages (Messages finalState)
        end
    end.

End Main.
End soc_main.

(** ** What the proofs speak of *)

(** A Tool-role message. *)
Definition ToolMessage (content toolCallID : string) : Message :=
  {| Role := Tool; Content := content; ToolCalls := []; ToolCallID := toolCallID |}.

(** The line the standard logger writes for a tool that has no handler. *)
Definition not_found (name : string) : StderrLine :=
  Logged ("Tool " +:+ name +:+ " not found").

(** The world after the standard logger wrote a line for each tool of [names]
    and [printed] went to stdout. *)
Definition with_output (names printed : list string) (w : World) : World :=
  {| generate_calls := generate_calls w;
     stdout := stdout w ++ printed;
     stderr := stderr w ++ (not_found <$> names) |}.

Section ToolLoopVocabulary.
Context {Args : Type}.
Variable handlers : gmap string (@Handler Args).
Variable switch_case : string -> option (string -> Args).

(** No registered handler panics or exits on what the switch hands it. *)
Definition handlers_return : Prop :=
  forall tc handler w,
    handlers !! Name (Function tc) = Some handler ->
    exists r w', switch_arm switch_case handler tc w = Ret r w'.

(** Every registered handler, on what the switch hands it, prints the line
    [line tc] and returns the string [result] has for its tool, with a nil
    error. *)
Definition handlers_canned (result : string -> string) (line : ToolCall -> string) : Prop :=
  forall tc handler w,
    handlers !! Name (Function tc) = Some handler ->
    switch_arm switch_case handler tc w
    = Ret (result (Name (Function tc)), None) (add_stdout (line tc) w).

(** The names of the calls that have no handler, in the order of the calls. *)
Definition not_found_names (calls : list ToolCall) : list string :=
  (fun tc => Name (Function tc)) <$> filter (fun tc => ~ registered handlers tc) calls.

(** The Tool messages a pass over [calls] appends when every tool returns the
    string [result] has for it. *)
Definition answers (result : string -> string) (calls : list ToolCall) : list Message :=
  (fun tc => ToolMessage (result (Name (Function tc))) (ID tc))
    <$> filter (registered handlers) calls.

(** The lines a pass over [calls] prints when the tool of [tc] prints
    [line tc]. *)
Definition tool_lines (line : ToolCall -> string) (calls : list ToolCall) : list string :=
  line <$> filter (registered handlers) calls.

(** Handlers that answer by the name of their tool alone: every handler is
    that of a tool of [names], and whatever it is handed, and whenever, it
    returns the pair [outcome] has for the name. *)
Definition handlers_answer (names : list string)
    (outcome : string -> string * option error) : Prop :=
  forall name handler,
    handlers !! name = Some handler ->
    name ∈ names /\ forall a w, exists w', handler a w = Ret (outcome name) w'.

(** The Tool messages a pass over [calls] is to append for such handlers: the
    result string, or Error: and the text of the error. *)
Definition outcome_messages (outcome : string -> string * option error)
    (calls : list ToolCall) : list Message :=
  (fun tc =>
     ToolMessage match outcome (Name (Function tc)) with
                 | (_, Some e) => "Error: " +:+ e
                 | (resultStr, None) => resultStr
                 end
                 (ID tc))
    <$> filter (registered handlers) calls.

End ToolLoopVocabulary.

(** The graph every [NewAgent] builds, over its three closures. *)
Section ReactGraphVocabulary.
Import compose.
Context {S : Type} `{Recover}.
Variables (assistant tools : Lambda S) (branch : GraphBranch S).

Definition react_graph : Graph S :=
  AddEdge "tools" "assistant"
    (AddBranch "assistant" branch
       (AddEdge START "assistant"
          (AddLambdaNode "tools" tools
             (AddLambdaNode "assistant" assistant NewGraph)))).

(** What a run does once the assistant node is due and a step is left. *)
Definition after_assistant (fuel : nat) (state : S) : M (Result S) :=
  let* r := recovered (assistant state) in
  match r with
  | inr e => ret (Failed (wrapGraphNodeError "assistant" e))
  | inl state' => run react_graph fuel "assistant" state'
  end.

(** What a run does once the tools node is due and a step is left. *)
Definition after_tools (fuel : nat) (state : S) : M (Result S) :=
  let* r := recovered (tools state) in
  match r with
  | inr e => ret (Failed (wrapGraphNodeError "tools" e))
  | inl state' => run react_graph fuel "tools" state'
  end.

End ReactGraphVocabulary.

(** The error of a run that used up its step budget. *)
Definition budget_error : error := compose.newGraphRunError compose.ErrExceedMaxSteps.

(** The error of a run whose model call failed with [cause]. *)
Definition model_error (cause : error) : error :=
  compose.wrapGraphNodeError "assistant" cause.

(** ** The tools of the packages *)

(** *** E-commerce tools *)

(** The string each tool returns. *)
Definition ecommerce_result (name : string) : string :=
  if decide (name = "send_customer_message") then "sent"
  else if decide (name = "issue_refund") then "refund_queued"
  else if decide (name = "cancel_order") then "cancelled"
  else if decide (name = "update_address_for_order") then "address_updated"
  else "".

(** The tool names, in the order of the handler map. *)
Definition ecommerce_tool_names : list string :=
  ["send_customer_message"; "issue_refund"; "cancel_order"; "update_address_for_order"].

Section EcommerceVocabulary.
Import ecommerce_customer_support.
Context `{Fmt} `{!Unmarshal SendCustomerMessageArgs} `{!Unmarshal IssueRefundArgs}.
Context `{!Unmarshal CancelOrderArgs} `{!Unmarshal UpdateAddressArgs}.

(** The error [json.Unmarshal] reports in the case of the switch that [tc]
    selects: the value the executor assigns to [_]. *)
Definition ecommerce_decode_error (tc : ToolCall) : option error :=
  let name := Name (Function tc) in
  let arguments := Arguments (Function tc) in
  if decide (name = "send_customer_message") then
    snd (json_Unmarshal arguments zero_SendCustomerMessageArgs)
  else if decide (name = "issue_refund") then
    snd (json_Unmarshal arguments zero_IssueRefundArgs)
  else if decide (name = "cancel_order") then
    snd (json_Unmarshal arguments zero_CancelOrderArgs)
  else if decide (name = "update_address_for_order") then
    snd (json_Unmarshal arguments zero_UpdateAddressArgs)
  else None.

(** The line the tool of [tc] prints: the fields are those of its argument
    struct, decoded from the arguments of [tc] into the zero value. *)
Definition ecommerce_tool_line (tc : ToolCall) : string :=
  let name := Name (Function tc) in
  let arguments := Arguments (Function tc) in
  if decide (name = "send_customer_message") then
    let args := fst (json_Unmarshal arguments zero_SendCustomerMessageArgs) in
    "[TOOL] send_customer_message -> " +:+ SendCustomerMessageArgs_Text args +:+ " (Order: "
    +:+ SendCustomerMessageArgs_OrderID args +:+ ")"
  else if decide (name = "issue_refund") then
    let args := fst (json_Unmarshal arguments zero_IssueRefundArgs) in
    "[TOOL] issue_refund(order_id=" +:+ IssueRefundArgs_OrderID args +:+ ", amount="
    +:+ Sprintf_2f (IssueRefundArgs_Amount args) +:+ ")"
  else if decide (name = "cancel_order") then
    let args := fst (json_Unmarshal arguments zero_CancelOrderArgs) in
    "[TOOL] cancel_order(order_id=" +:+ CancelOrderArgs_OrderID args +:+ ")"
  else if decide (name = "update_address_for_order") then
    let args := fst (json_Unmarshal arguments zero_UpdateAddressArgs) in
    "[TOOL] update_address_for_order(order_id=" +:+ UpdateAddressArgs_OrderID args
    +:+ ", address=" +:+ UpdateAddressArgs_ShippingAddress args +:+ ")"
  else "".

(** Where a run can stand: at [START], after the tools node, or after the
    assistant node with its answer in the log. *)
Definition ecommerce_standing (from : string) (state : AgentState) : Prop :=
  from = compose.START \/ from = "tools"
  \/ (from = "assistant" /\ Messages state <> []).

Section Report.
Import compose ecommerce_main.
Context `{!Marshal AgentState}.

(** What [main] does with the result of the run. *)
Definition ecommerce_report (evalMode : bool) (r : Result AgentState) : M unit :=
  match r with
  | Failed err =>
      let* _ := fmt_Fprintf_stderr ("Agent error: " +:+ err) in os_Exit 1
  | Done finalState =>
      if evalMode then
        match json_Marshal (Some finalState) with
        | (_, Some err) =>
            let* _ := fmt_Fprintf_stderr ("Failed to marshal output: " +:+ err) in
            os_Exit 1
        | (outputBytes, None) => fmt_Printf outputBytes
        end
      else
        let* _ := fmt_Printf "Final Messages:" in
        printMessages (Messages finalState)
  end.

End Report.

End EcommerceVocabulary.

(** *** Help desk tools *)

(** The string each tool returns. *)
Definition helpdesk_result (name : string) : string :=
  if decide (name = "provision_user_access") then "user_access_updated"
  else if decide (name = "troubleshoot_network") then "network_issue_diagnosed"
  else if decide (name = "diagnose_system_issue") then "system_diagnosis_complete"
  else if decide (name = "deploy_software") then "software_deployment_initiated"
  else if decide (name = "contain_security_incident") then "security_incident_contained"
  else if decide (name = "troubleshoot_hardware") then "hardware_troubleshooting_initiated"
  else if decide (name = "assign_roles") then "role_assignment_complete"
  else if decide (name = "escalate_incident") then "incident_escalated"
  else if decide (name = "apply_patches") then "patch_deployment_scheduled"
  else if decide (name = "send_user_response") then "response_sent"
  else "".

(** The tool names, in the order of the handler map. *)
Definition helpdesk_tool_names : list string :=
  ["provision_user_access"; "troubleshoot_network"; "diagnose_system_issue";
   "deploy_software"; "contain_security_incident"; "troubleshoot_hardware";
   "assign_roles"; "escalate_incident"; "apply_patches"; "send_user_response"].

Section HelpdeskVocabulary.
Import it_help_desk.
Context `{!Unmarshal ProvisionUserAccessArgs} `{!Unmarshal TroubleshootNetworkArgs}.
Context `{!Unmarshal DiagnoseSystemIssueArgs} `{!Unmarshal DeploySoftwareArgs}.
Context `{!Unmarshal ContainSecurityIncidentArgs} `{!Unmarshal TroubleshootHardwareArgs}.
Context `{!Unmarshal AssignRolesArgs} `{!Unmarshal EscalateIncidentArgs}.
Context `{!Unmarshal ApplyPatchesArgs} `{!Unmarshal SendUserResponseArgs}.

(** The line the tool of [tc] prints: the fields are those of its argument
    struct, decoded from the arguments of [tc] into the zero value. *)
Definition helpdesk_tool_line (tc : ToolCall) : string :=
  let name := Name (Function tc) in
  let arguments := Arguments (Function tc) in
  if decide (name = "provision_user_access") then
    let args := fst (json_Unmarshal arguments zero_ProvisionUserAccessArgs) in
    "[TOOL] provision_user_access(user_id=" +:+ ProvisionUserAccessArgs_UserID args
    +:+ ", action=" +:+ ProvisionUserAccessArgs_Action args +:+ ")"
  else if decide (name = "troubleshoot_network") then
    let args := fst (json_Unmarshal arguments zero_TroubleshootNetworkArgs) in
    "[TOOL] troubleshoot_network(issue=" +:+ TroubleshootNetworkArgs_Issue args
    +:+ ", location=" +:+ TroubleshootNetworkArgs_Location args +:+ ")"
  else if decide (name = "diagnose_system_issue") then
    let args := fst (json_Unmarshal arguments zero_DiagnoseSystemIssueArgs) in
    "[TOOL] diagnose_system_issue(system=" +:+ DiagnoseSystemIssueArgs_System args
    +:+ ", issue=" +:+ DiagnoseSystemIssueArgs_Issue args +:+ ", service="
    +:+ DiagnoseSystemIssueArgs_Service args +:+ ")"
  else if decide (name = "deploy_software") then
    let args := fst (json_Unmarshal arguments zero_DeploySoftwareArgs) in
    "[TOOL] deploy_software(software=" +:+ DeploySoftwareArgs_Software args +:+ ", action="
    +:+ DeploySoftwareArgs_Action args +:+ ")"
  else if decide (name = "contain_security_incident") then
    let args := fst (json_Unmarshal arguments zero_ContainSecurityIncidentArgs) in
    "[TOOL] contain_security_incident(type="
    +:+ ContainSecurityIncidentArgs_IncidentType args +:+ ", system="
    +:+ ContainSecurityIncidentArgs_AffectedSystem args +:+ ")"
  else if decide (name = "troubleshoot_hardware") then
    let args := fst (json_Unmarshal arguments zero_TroubleshootHardwareArgs) in
    "[TOOL] troubleshoot_hardware(device=" +:+ TroubleshootHardwareArgs_Device args
    +:+ ", issue=" +:+ TroubleshootHardwareArgs_Issue args +:+ ")"
  else if decide (name = "assign_roles") then
    let args := fst (json_Unmarshal arguments zero_AssignRolesArgs) in
    "[TOOL] assign_roles(user=" +:+ AssignRolesArgs_UserID args +:+ ", role="
    +:+ AssignRolesArgs_NewRole args +:+ ")"
  else if decide (name = "escalate_incident") then
    let args := fst (json_Unmarshal arguments zero_EscalateIncidentArgs) in
    "[TOOL] escalate_incident(id=" +:+ EscalateIncidentArgs_IncidentID args +:+ ", to="
    +:+ EscalateIncidentArgs_EscalateTo args +:+ ")"
  else if decide (name = "apply_patches") then
    let args := fst (json_Unmarshal arguments zero_ApplyPatchesArgs) in
    "[TOOL] apply_patches(target=" +:+ ApplyPatchesArgs_TargetSystems args +:+ ", type="
    +:+ ApplyPatchesArgs_PatchType args +:+ ")"
  else if decide (name = "send_user_response") then
    let args := fst (json_Unmarshal arguments zero_SendUserResponseArgs) in
    "[TOOL] send_user_response -> " +:+ SendUserResponseArgs_Message args
  else "".

(** Where a run can stand: at [START], after the tools node, or after the
    assistant node with its answer in the log. *)
Definition helpdesk_standing (from : string) (state : AgentState) : Prop :=
  from = compose.START \/ from = "tools"
  \/ (from = "assistant" /\ Messages state <> []).

End HelpdeskVocabulary.

(** *** SOC tools *)

(** The string each tool returns. *)
Definition soc_result (name : string) : string :=
  if decide (name = "lookup_threat_intel") then "threat_intel_retrieved"
  else if decide (name = "query_logs") then "log_query_executed"
  else if decide (name = "triage_incident") then "incident_triaged"
  else if decide (name = "isolate_host") then "host_isolated"
  else if decide (name = "send_analyst_response") then "analyst_response_sent"
  else "".

(** The tool names, in the order of the handler map. *)
Definition soc_tool_names : list string :=
  ["lookup_threat_intel"; "query_logs"; "triage_incident"; "isolate_host";
   "send_analyst_response"].

Section SocVocabulary.
Import soc.
Context `{!Unmarshal LookupThreatIntelArgs} `{!Unmarshal QueryLogsArgs}.
Context `{!Unmarshal TriageIncidentArgs} `{!Unmarshal IsolateHostArgs}.
Context `{!Unmarshal SendAnalystResponseArgs}.

(** The error [json.Unmarshal] reports in the case of the switch that [tc]
    selects: the value the executor assigns to [_]. *)
Definition soc_decode_error (tc : ToolCall) : option error :=
  let name := Name (Function tc) in
  let arguments := Arguments (Function tc) in
  if decide (name = "lookup_threat_intel") then
    snd (json_Unmarshal arguments zero_LookupThreatIntelArgs)
  else if decide (name = "query_logs") then
    snd (json_Unmarshal arguments zero_QueryLogsArgs)
  else if decide (name = "triage_incident") then
    snd (json_Unmarshal arguments zero_TriageIncidentArgs)
  else if decide (name = "isolate_host") then
    snd (json_Unmarshal arguments zero_IsolateHostArgs)
  else if decide (name = "send_analyst_response") then
    snd (json_Unmarshal arguments zero_SendAnalystResponseArgs)
  else None.

(** The line the tool of [tc] prints: the fields are those of its argument
    struct, decoded from the arguments of [tc] into the zero value. *)
Definition soc_tool_line (tc : ToolCall) : string :=
  let name := Name (Function tc) in
  let arguments := Arguments (Function tc) in
  if decide (name = "lookup_threat_intel") then
    let args := fst (json_Unmarshal arguments zero_LookupThreatIntelArgs) in
    "[TOOL] lookup_threat_intel(ind=" +:+ LookupThreatIntelArgs_Indicator args +:+ ", type="
    +:+ LookupThreatIntelArgs_Type args +:+ ")"
  else if decide (name = "query_logs") then
    let args := fst (json_Unmarshal arguments zero_QueryLogsArgs) in
    "[TOOL] query_logs(q=" +:+ QueryLogsArgs_Query args +:+ ", idx="
    +:+ QueryLogsArgs_LogIndex args +:+ ")"
  else if decide (name = "triage_incident") then
    let args := fst (json_Unmarshal arguments zero_TriageIncidentArgs) in
    "[TOOL] triage_incident(id=" +:+ TriageIncidentArgs_IncidentID args +:+ ", decision="
    +:+ TriageIncidentArgs_Decision args +:+ ")"
  else if decide (name = "isolate_host") then
    let args := fst (json_Unmarshal arguments zero_IsolateHostArgs) in
    "[TOOL] isolate_host(host=" +:+ IsolateHostArgs_HostID args +:+ ")"
  else if decide (name = "send_analyst_response") then
    let args := fst (json_Unmarshal arguments zero_SendAnalystResponseArgs) in
    "[TOOL] send_analyst_response -> " +:+ SendAnalystResponseArgs_Message args
  else "".

(** Where a run can stand: at [START], after the tools node, or after the
    assistant node with its answer in the log. *)
Definition soc_standing (from : string) (state : AgentState) : Prop :=
  from = compose.START \/ from = "tools"
  \/ (from = "assistant" /\ Messages state <> []).

Section Report.
Import compose soc_main.
Context `{!Marshal AgentState}.

(** What [main] does with the result of the run. *)
Definition soc_report (evalMode : bool) (r : Result AgentState) : M unit :=
  match r with
  | Failed err =>
      let* _ := fmt_Fprintf_stderr ("Agent error: " +:+ err) in os_Exit 1
  | Done finalState =>
      if evalMode then
        match json_Marshal (Some finalState) with
        | (_, Some err) =>
            let* _ := fmt_Fprintf_stderr ("Failed to marshal output: " +:+ err) in
            os_Exit 1
        | (outputBytes, None) => fmt_Printf outputBytes
        end
      else
        let* _ := fmt_Printf "Final Messages:" in
        printMessages (Messages finalState)
  end.

End Report.

End SocVocabulary.

(** *** Legal tools *)

(** The string each tool returns. *)
Definition legal_result (name : string) : string :=
  if decide (name = "review_contract") then "contract_review_complete"
  else if decide (name = "research_case_law") then "legal_research_complete"
  else if decide (name = "client_intake") then "client_intake_complete"
  else if decide (name = "assess_compliance") then "compliance_assessment_complete"
  else if decide (name = "manage_discovery") then "discovery_management_initiated"
  else if decide (name = "calculate_damages") then "damages_calculation_complete"
  else if decide (name = "track_deadlines") then "deadline_tracking_updated"
  else if decide (name = "send_legal_response") then "legal_response_sent"
  else "".

(** The tool names, in the order of the handler map. *)
Definition legal_tool_names : list string :=
  ["review_contract"; "research_case_law"; "client_intake"; "assess_compliance";
   "manage_discovery"; "calculate_damages"; "track_deadlines"; "send_legal_response"].

Section LegalVocabulary.
Import legal.
Context `{!Unmarshal ReviewContractArgs} `{!Unmarshal ResearchCaseLawArgs}.
Context `{!Unmarshal ClientIntakeArgs} `{!Unmarshal AssessComplianceArgs}.
Context `{!Unmarshal ManageDiscoveryArgs} `{!Unmarshal CalculateDamagesArgs}.
Context `{!Unmarshal TrackDeadlinesArgs} `{!Unmarshal SendLegalResponseArgs}.

(** The line the tool of [tc] prints: the fields are those of its argument
    struct, decoded from the arguments of [tc] into the zero value. *)
Definition legal_tool_line (tc : ToolCall) : string :=
  let name := Name (Function tc) in
  let arguments := Arguments (Function tc) in
  if decide (name = "review_contract") then
    let args := fst (json_Unmarshal arguments zero_ReviewContractArgs) in
    "[TOOL] review_contract(type=" +:+ ReviewContractArgs_ContractType args +:+ ")"
  else if decide (name = "research_case_law") then
    let args := fst (json_Unmarshal arguments zero_ResearchCaseLawArgs) in
    "[TOOL] research_case_law(type=" +:+ ResearchCaseLawArgs_CaseType args +:+ ", juris="
    +:+ ResearchCaseLawArgs_Jurisdiction args +:+ ")"
  else if decide (name = "client_intake") then
    let args := fst (json_Unmarshal arguments zero_ClientIntakeArgs) in
    "[TOOL] client_intake(name=" +:+ ClientIntakeArgs_ClientName args +:+ ", type="
    +:+ ClientIntakeArgs_MatterType args +:+ ")"
  else if decide (name = "assess_compliance") then
    let args := fst (json_Unmarshal arguments zero_AssessComplianceArgs) in
    "[TOOL] assess_compliance(ind=" +:+ AssessComplianceArgs_ClientIndustry args +:+ ")"
  else if decide (name = "manage_discovery") then
    let args := fst (json_Unmarshal arguments zero_ManageDiscoveryArgs) in
    "[TOOL] manage_discovery(type=" +:+ ManageDiscoveryArgs_DiscoveryType args +:+ ")"
  else if decide (name = "calculate_damages") then
    let args := fst (json_Unmarshal arguments zero_CalculateDamagesArgs) in
    "[TOOL] calculate_damages(type=" +:+ CalculateDamagesArgs_CaseType args +:+ ")"
  else if decide (name = "track_deadlines") then
    let args := fst (json_Unmarshal arguments zero_TrackDeadlinesArgs) in
    "[TOOL] track_deadlines(case=" +:+ TrackDeadlinesArgs_CaseName args +:+ ", dead="
    +:+ TrackDeadlinesArgs_FilingDeadline args +:+ ")"
  else if decide (name = "send_legal_response") then
    let args := fst (json_Unmarshal arguments zero_SendLegalResponseArgs) in
    "[TOOL] send_legal_response -> " +:+ SendLegalResponseArgs_Message args
  else "".

(** Where a run can stand: at [START], after the tools node, or after the
    assistant node with its answer in the log. *)
Definition legal_standing (from : string) (state : AgentState) : Prop :=
  from = compose.START \/ from = "tools"
  \/ (from = "assistant" /\ Messages state <> []).

End LegalVocabulary.

(** *** The direct loop *)

(** The names the direct loop puts into [toolMap]. *)
Definition math_tool_names : list string := ["multiply"; "exponentiate"; "add"].

(** The question the direct loop asks. *)
Definition math_question : Message :=
  UserMessage "What is 393 * 12.25? Also, what is 11 + 49?".

Section MathVocabulary.
Import math_tools.
Context `{Fmt} `{MathPow} `{!Unmarshal (option MathArgs)}.

(** What the decoder makes of the arguments of [tc]: the pointer it leaves
    (nil when [None]) and its error. *)
Definition math_decoded (tc : ToolCall) : option MathArgs * option error :=
  json_Unmarshal (Arguments (Function tc))
    (Some {| X := S754_zero false; Y := S754_zero false |}).

(** The decoder left a nil pointer and reported no error, as for the JSON
    value null. *)
Definition decodes_to_nil (tc : ToolCall) : Prop :=
  math_decoded tc = (None, None).

(** What the tool named [name] computes of [args]. *)
Definition math_value (name : string) (args : MathArgs) : float64 :=
  if decide (name = "add") then float64_add (X args) (Y args)
  else if decide (name = "multiply") then float64_mul (X args) (Y args)
  else math_Pow (X args) (Y args).

(** The content of the Tool message for [tc]: the [%v] form of the value when
    the arguments decode, the empty string when the decoder reports an
    error. *)
Definition math_tool_output (tc : ToolCall) : string :=
  match math_decoded tc with
  | (Some args, None) => Sprintf_v (math_value (Name (Function tc)) args)
  | _ => ""
  end.

(** The Tool messages the direct loop appends for [calls]. *)
Definition math_tool_messages (calls : list ToolCall) : list Message :=
  (fun tc => ToolMessage (math_tool_output tc) (ID tc)) <$> calls.

(** The line the direct loop prints for [tc]. *)
Definition math_tool_line (tc : ToolCall) : string :=
  Name (Function tc) +:+ "(" +:+ Arguments (Function tc) +:+ ") = " +:+ math_tool_output tc.

End MathVocabulary.

(** ** What a run of a graph agent leaves behind

    [record] and [log] read the scenario record and the message log off a
    state; [initial] and [w] are the state and the world the run started
    from. *)
Section RunContract.
Context {S R : Type} `{ChatModel}.
Variables (record : S -> R) (log : S -> list Message).

(** A run that ends with a final state. *)
Definition done_keeps (initial : S) (w : World) (o : Outcome (compose.Result S)) : Prop :=
  match o with
  | Ret (compose.Done finalState) w' =>
      record finalState = record initial
      /\ log initial `prefix_of` log finalState
      /\ (exists init resp, log finalState = init ++ [resp] /\ ToolCalls resp = [])
      /\ generate_calls w < generate_calls w'
  | _ => True
  end.

(** A run that ends with an error: the error of the step budget, or the error
    of the last model call of the run, wrapped for the assistant node. *)
Definition failed_by_budget_or_last_call (w : World) (o : Outcome (compose.Result S))
    : Prop :=
  match o with
  | Ret (compose.Failed err) w' =>
      err = budget_error
      \/ (generate_calls w < generate_calls w'
          /\ exists input cause,
               Generate (pred (generate_calls w')) input = inr cause
               /\ err = model_error cause)
  | _ => True
  end.

(** A run returns, and what it adds to stderr are the logger's lines for
    tools without a handler. *)
Definition returns_with_logger_lines (w : World) (o : Outcome (compose.Result S)) : Prop :=
  match o with
  | Ret _ w' => exists names, stderr w' = stderr w ++ (not_found <$> names)
  | Panic _ _ | Exit _ _ => False
  end.

End RunContract.

(** The process has the key, and [NewAgent] returns the compiled graph. *)
Definition setup_succeeds `{Setup} : Prop :=
  OPENAI_API_KEY <> "" /\ NewChatModel_error = None
  /\ BindTools_error = None /\ Compile_error = None.

(** A model that asks for tools in every answer. *)
Definition always_asks_for_tools `{ChatModel} : Prop :=
  forall (k : nat) (input : list Message),
    exists resp, Generate k input = inl resp /\ ToolCalls resp <> [].


(** ** Scripted collaborators for the closed examples

    Stand-ins for the chat model, [encoding/json], [fmt] and [math.Pow] on the
    inputs of the examples below; each says what it answers outside them. *)
Module scripted.
Import math_tools.

(** A chat model that reads its answers off a script, one per call; calls past
    the end of the script fail. *)
Definition model (script : list (Message + error)) : ChatModel :=
  fun k _ => default (inr "script exhausted") (script !! k).

(** A chat model whose every call fails with [cause]. *)
Definition model_down (cause : error) : ChatModel :=
  fun _ _ => inr cause.

Definition assistantMessage (content : string) (calls : list ToolCall) : Message :=
  {| Role := Assistant; Content := content; ToolCalls := calls; ToolCallID := "" |}.

Definition toolCallOf (id name arguments : string) : ToolCall :=
  {| ID := id; Function := {| Name := name; Arguments := arguments |} |}.

(** The JSON object with members [x] and [y], as the model would send it. *)
Definition xy_payload (x y : string) : string :=
  "{" +:+ dquote +:+ "x" +:+ dquote +:+ ":" +:+ x +:+ ","
      +:+ dquote +:+ "y" +:+ dquote +:+ ":" +:+ y +:+ "}".

Definition saw_tool_result (content : string) (input : list Message) : bool :=
  existsb (fun m => bool_decide (Role m = Tool /\ Content m = content)) input.

(** The scripted Model Invoker of the round trip: it asks for [add(x=2,y=3)]
    and answers 5 once a Tool message with content 5 is in its input. *)
Definition model_add_2_3 : ChatModel :=
  fun _ input =>
    if saw_tool_result "5" input
    then inl (assistantMessage "5" [])
    else inl (assistantMessage "" [toolCallOf "call_1" "add" (xy_payload "2" "3")]).

(** The syntax error [encoding/json] reports for a payload that does not even
    start like a JSON value. *)
Definition syntax_error (data : string) : error :=
  match data with
  | EmptyString => "unexpected end of JSON input"
  | String c _ =>
      "invalid character '" +:+ String c EmptyString +:+ "' looking for beginning of value"
  end.

(** A decoder that knows the payloads of [table] and rejects every other
    payload as a syntax error, leaving the target as it was. *)
Definition json_table {T} (table : list (string * T)) : Unmarshal T :=
  fun data v =>
    match list_find (fun entry => fst entry = data) table with
    | Some (_, (_, decoded)) => (decoded, None)
    | None => (v, Some (syntax_error data))
    end.

(** A decoder that reads off [table] what it leaves in the target and what it
    reports for the payloads it knows, and rejects every other payload as a
    syntax error, leaving the target as it was. *)
Definition json_cases {T} (table : list (string * (T * option error))) : Unmarshal T :=
  fun data v =>
    match list_find (fun entry => fst entry = data) table with
    | Some (_, (_, answer)) => answer
    | None => (v, Some (syntax_error data))
    end.

(** An encoder that answers [text] for every value. *)
Definition json_fixed {T} (text : string) : Marshal T :=
  fun _ => (text, None).

(** The integer a finite binary64 value stands for, when it is one. *)
Definition float64_to_Z (x : float64) : option Z :=
  match x with
  | S754_zero _ => Some 0%Z
  | S754_finite s m e =>
      let n := if s then Z.neg m else Z.pos m in
      if decide (0 <= e)%Z then Some (n * 2 ^ e)%Z
      else if decide (Z.pos m mod 2 ^ (- e) = 0)%Z then Some (n / 2 ^ (- e))%Z
      else None
  | _ => None
  end.

(** [fmt] on integral values below a million in magnitude, where both verbs
    print the decimal digits ([%.2f] with two zero decimals); other values are
    outside the examples and print as a question mark. *)
Definition fmt_small_integers : Fmt :=
  {| Sprintf_2f := fun x =>
       match float64_to_Z x with
       | Some n => if decide (Z.abs n < 1000000)%Z then pretty n +:+ ".00" else "?"
       | None => "?"
       end;
     Sprintf_v := fun x =>
       match float64_to_Z x with
       | Some n => if decide (Z.abs n < 1000000)%Z then pretty n else "?"
       | None => "?"
       end |}.

(** A recovered panic, without the stack trace. *)
Definition recover : Recover := fun info => "panic error: " +:+ info.

(** A process with the key set, in which [NewAgent] succeeds. *)
Definition setup_ok : Setup :=
  {| OPENAI_API_KEY := "sk-test";
     NewChatModel_error := None;
     BindTools_error := None;
     Compile_error := None |}.

(** No example raises to a power. *)
Definition pow_unused : MathPow := fun _ _ => S754_nan.

(** 2.0 and 3.0 *)
Definition two : float64 := S754_finite false 4503599627370496 (-51).
Definition three : float64 := S754_finite false 6755399441055744 (-51).

End scripted.

(** ** Closed runs of the e-commerce agent

    The agent with the scripted collaborators: decoders that know the empty
    object, which leaves every field at its zero value. *)
Module ecommerce_script.
Import ecommerce_customer_support scripted.

Definition fmt : Fmt := fmt_small_integers.
Definition json_order : Marshal Order := json_fixed "null".
Definition json_send : Unmarshal SendCustomerMessageArgs :=
  json_table [("{}", zero_SendCustomerMessageArgs)].
Definition json_refund : Unmarshal IssueRefundArgs :=
  json_table [("{}", zero_IssueRefundArgs)].
Definition json_cancel : Unmarshal CancelOrderArgs :=
  json_table [("{}", zero_CancelOrderArgs)].
Definition json_address : Unmarshal UpdateAddressArgs :=
  json_table [("{}", zero_UpdateAddressArgs)].

Definition switch_case : string -> option (string -> Args) :=
  @ecommerce_customer_support.switch_case json_send json_refund json_cancel json_address.

Definition toolHandlers : gmap string (@Handler Args) :=
  @ecommerce_customer_support.toolHandlers fmt.

Definition toolExecutorWith (handlers : gmap string (@Handler Args))
    : AgentState -> M (AgentState + error) :=
  @ecommerce_customer_support.toolExecutorWith
    json_send json_refund json_cancel json_address handlers.

Definition toolExecutor : AgentState -> M (AgentState + error) :=
  @ecommerce_customer_support.toolExecutor fmt json_send json_refund json_cancel json_address.

(** The example of the specification: a request for [add] and for [mul]. *)
Definition asks_add_mul : Message :=
  assistantMessage "" [toolCallOf "a" "add" "{}"; toolCallOf "b" "mul" "{}"].

Definition state_add_mul : AgentState :=
  {| AgentState_Order := None;
     Messages := [UserMessage "What is 2 + 3?"; asks_add_mul] |}.

Definition decode_error : ToolCall -> option error :=
  @ecommerce_decode_error json_send json_refund json_cancel json_address.

(** A refund and a message to the customer, requested in one answer. *)
Definition asks_refund_then_message : Message :=
  assistantMessage "" [toolCallOf "a" "issue_refund" "{}";
                       toolCallOf "b" "send_customer_message" "{}"].

Definition state_refund_then_message : AgentState :=
  {| AgentState_Order := None;
     Messages := [UserMessage "My mug arrived broken. Refund?"; asks_refund_then_message] |}.

(** A refund request whose arguments are not JSON. *)
Definition asks_refund_garbled : ToolCall := toolCallOf "call_7" "issue_refund" "oops".

Definition state_refund_garbled : AgentState :=
  {| AgentState_Order := None;
     Messages := [UserMessage "My mug arrived broken. Refund?";
                  assistantMessage "" [asks_refund_garbled]] |}.

(** A handler map whose refund tool fails and whose message tool works. *)
Definition refund_declined : @Handler Args :=
  fun _ => ret ("", Some "card declined").

Definition message_sent : @Handler Args :=
  fun _ => ret ("sent", None).

Definition failing_handlers : gmap string (@Handler Args) :=
  {[ "issue_refund" := refund_declined; "send_customer_message" := message_sent ]}.

Definition failing_outcome (name : string) : string * option error :=
  if decide (name = "issue_refund") then ("", Some "card declined") else ("sent", None).

Definition asks_refund : ToolCall := toolCallOf "call_3" "issue_refund" "{}".

Definition asks_message : ToolCall := toolCallOf "call_4" "send_customer_message" "{}".

(** A refund request whose amount is a string: the decoder fills in the order
    and reports the amount. *)
Definition refund_all_payload : string :=
  "{" +:+ dquote +:+ "order_id" +:+ dquote +:+ ":" +:+ dquote +:+ "A12345" +:+ dquote +:+ ","
      +:+ dquote +:+ "amount" +:+ dquote +:+ ":" +:+ dquote +:+ "all" +:+ dquote +:+ "}".

Definition asks_refund_all : ToolCall := toolCallOf "call_8" "issue_refund" refund_all_payload.

Definition refund_all_error : error :=
  "json: cannot unmarshal string into Go struct field IssueRefundArgs.amount of type float64".

Definition json_refund_partial : Unmarshal IssueRefundArgs :=
  json_cases [(refund_all_payload,
               ({| IssueRefundArgs_OrderID := "A12345";
                   IssueRefundArgs_Amount := S754_zero false |},
                Some refund_all_error))].

(** An answer with text and a tool request at once. *)
Definition says_and_asks : Message :=
  assistantMessage "Refunding now." [toolCallOf "call_9" "cancel_order" "{}"].

Definition state_says_and_asks : AgentState :=
  {| AgentState_Order := None;
     Messages := [UserMessage "Cancel my order."; says_and_asks] |}.

(** The whole program against a model whose calls fail. *)
Definition main_model_down (cause : error) : bool -> string + error -> nat -> M unit :=
  @ecommerce_main.main setup_ok recover (model_down cause) fmt json_order
    json_send json_refund json_cancel json_address
    (json_table []) (json_fixed "{}").

(** A model that asks for the order to be cancelled, then answers. *)
Definition asks_cancel : Message :=
  assistantMessage "" [toolCallOf "call_1" "cancel_order" "{}"].

Definition answers_cancelled : Message :=
  assistantMessage "Your order is cancelled." [].

Definition model_cancel : ChatModel :=
  model [inl asks_cancel; inl answers_cancelled].

Definition state_cancel : AgentState :=
  {| AgentState_Order := None; Messages := [UserMessage "Cancel my order."] |}.

Definition NewAgent_cancel : compose.Graph AgentState :=
  @NewAgent model_cancel fmt json_order json_send json_refund json_cancel json_address.

End ecommerce_script.

(** ** Closed runs of the SOC agent *)
Module soc_script.
Import soc scripted.

Definition json_lookup : Unmarshal LookupThreatIntelArgs := json_table [].
Definition json_query : Unmarshal QueryLogsArgs := json_table [].
Definition json_triage : Unmarshal TriageIncidentArgs := json_table [].
Definition json_isolate : Unmarshal IsolateHostArgs := json_table [].
Definition json_respond : Unmarshal SendAnalystResponseArgs := json_table [].

Definition toolHandlers : gmap string (@Handler Args) := soc.toolHandlers.

Definition switch_case : string -> option (string -> Args) :=
  @soc.switch_case json_lookup json_query json_triage json_isolate json_respond.

Definition toolExecutor : AgentState -> M (AgentState + error) :=
  @soc.toolExecutor json_lookup json_query json_triage json_isolate json_respond.

(** The model asks for a tool the agent never registered. *)
Definition asks_add : ToolCall := toolCallOf "call_1" "add" (xy_payload "2" "3").

Definition state_add : AgentState :=
  {| AgentState_Incident := None;
     Messages := [UserMessage "What is 2 + 3?"; assistantMessage "" [asks_add]] |}.

End soc_script.

(** ** The round trip of the specification, through the direct loop *)
Module math_script.
Import math_tools scripted.

Definition question : string := "What is 393 * 12.25? Also, what is 11 + 49?".

(** The decoder knows the payload of [add(x=2,y=3)], and the value null,
    which sets the pointer to nil. *)
Definition json_args : Unmarshal (option MathArgs) :=
  json_table [(xy_payload "2" "3", Some {| X := two; Y := three |}); ("null", None)].

Definition main : M (list Message) :=
  @math_tools.main model_add_2_3 fmt_small_integers pow_unused json_args.

Definition runToolCalls : list ToolCall -> list Message -> M (list Message) :=
  @math_tools.runToolCalls fmt_small_integers pow_unused json_args.

Definition asks_add : ToolCall := toolCallOf "call_1" "add" (xy_payload "2" "3").

Definition asks_divide : ToolCall := toolCallOf "call_2" "divide" (xy_payload "2" "3").

(** [msgs] when the round trip is over. *)
Definition round_trip_log : list Message :=
  [UserMessage question; assistantMessage "" [asks_add]; ToolMessage "5" "call_1"].

End math_script.


(** ** More scripted collaborators *)
Module more_scripts.
Import scripted.

(** A decoder that knows only the empty object, which leaves the target as it
    is; every other payload is rejected as a syntax error. *)
Definition json_empty_object (T : Type) : Unmarshal T :=
  fun data v =>
    if decide (data = "{}") then (v, None) else (v, Some (syntax_error data)).

(** An encoder that answers null, as for a nil pointer. *)
Definition json_null (T : Type) : Marshal T := json_fixed "null".

(** A model that asks for the order to be cancelled in every answer. *)
Definition model_always_cancel : ChatModel :=
  fun _ _ => inl (assistantMessage "" [toolCallOf "call_1" "cancel_order" "{}"]).

(** A model that answers 401 to every call. *)
Definition model_unauthorized : ChatModel := model_down "401 Unauthorized".

(** A model that asks for a contract review, then answers. *)
Definition asks_review : ToolCall := toolCallOf "call_1" "review_contract" "{}".

Definition model_review : ChatModel :=
  model [inl (assistantMessage "" [asks_review]);
         inl (assistantMessage "The contract is fine." [])].

(** A handler map for the legal executor whose review tool fails. *)
Definition review_unavailable : @Handler legal.Args :=
  fun _ => ret ("", Some "archive offline").

Definition failing_legal_handlers : gmap string (@Handler legal.Args) :=
  {[ "review_contract" := review_unavailable ]}.

(** A help desk handler map whose escalation tool fails. *)
Definition pager_down : @Handler it_help_desk.Args :=
  fun _ => ret ("", Some "pager down").

Definition failing_helpdesk_handlers : gmap string (@Handler it_help_desk.Args) :=
  {[ "escalate_incident" := pager_down ]}.

Definition asks_escalation : ToolCall := toolCallOf "call_5" "escalate_incident" "{}".

(** A SOC handler map whose isolation tool fails. *)
Definition host_unreachable : @Handler soc.Args :=
  fun _ => ret ("", Some "host unreachable").

Definition failing_soc_handlers : gmap string (@Handler soc.Args) :=
  {[ "isolate_host" := host_unreachable ]}.

Definition asks_isolation : ToolCall := toolCallOf "call_6" "isolate_host" "{}".

(** A process without the API key. *)
Definition setup_without_key : Setup :=
  {| OPENAI_API_KEY := "";
     NewChatModel_error := None;
     BindTools_error := None;
     Compile_error := None |}.

(** Requests of the direct loop. *)
Definition asks_multiply : ToolCall := toolCallOf "call_2" "multiply" (xy_payload "2" "3").

Definition asks_add_garbled : ToolCall := toolCallOf "call_3" "add" "oops".

Definition asks_add_null : ToolCall := toolCallOf "call_4" "add" "null".

(** A model that asks for [add] and whose next call fails. *)
Definition model_add_then_down : ChatModel :=
  model [inl (assistantMessage "" [math_script.asks_add]); inr "503 Service Unavailable"].

End more_scripts.

(** * Properties *)

(** ** The monad and slices *)

Lemma bind_Ret {A B} (m : M A) (k : A -> M B) (w w' : World) (a : A) :
  m w = Ret a w' -> bind m k w = k a w'.
Proof. intros Hm. unfold bind. now rewrite Hm. Qed.

Lemma bind_Ret_inv {A B} (m : M A) (k : A -> M B) (w w2 : World) (b : B) :
  bind m k w = Ret b w2 -> exists a w1, m w = Ret a w1 /\ k a w1 = Ret b w2.
Proof.
  unfold bind. destruct (m w) as [a w1|r w1|c w1]; intros Hk; try discriminate.
  exists a, w1. split; [reflexivity | exact Hk].
Qed.

Lemma index_last {A} (s : list A) (x : A) :
  last s = Some x -> index s (len s - 1) = ret x.
Proof.
  intros Hlast. unfold index, len.
  assert (Hlen : (0 < length s)%nat).
  { destruct s; [discriminate | simpl; lia]. }
  destruct (decide _) as [_|Hn]; [|lia].
  replace (Z.to_nat (Z.of_nat (length s) - 1)) with (pred (length s)) by lia.
  rewrite <- last_lookup, Hlast. reflexivity.
Qed.

Lemma index_empty {A} (w : World) :
  index (@nil A) (len (@nil A) - 1) w = Panic "index out of range" w.
Proof. reflexivity. Qed.

Lemma last_snoc_Some {A} (s : list A) (x : A) : last (s ++ [x]) = Some x.
Proof. apply last_snoc. Qed.

(** ** The tool-dispatch loop *)
Section ToolLoopFacts.
Context {Args : Type}.
Variable handlers : gmap string (@Handler Args).
Variable switch_case : string -> option (string -> Args).

Lemma toolCall_unregistered (tc : ToolCall) (msgs : list Message) (w : World) :
  handlers !! Name (Function tc) = None ->
  toolCall handlers switch_case tc msgs w
  = Ret msgs (add_logged ("Tool " +:+ Name (Function tc) +:+ " not found") w).
Proof. intros Hnone. unfold toolCall. rewrite Hnone. reflexivity. Qed.

Lemma toolCall_registered (tc : ToolCall) (msgs : list Message) (w w' : World)
    (handler : Handler) (resultStr : string) (err : option error) :
  handlers !! Name (Function tc) = Some handler ->
  switch_arm switch_case handler tc w = Ret (resultStr, err) w' ->
  toolCall handlers switch_case tc msgs w
  = Ret (msgs ++ [toolMessage tc resultStr err]) w'.
Proof.
  intros Hsome Harm. unfold toolCall. rewrite Hsome.
  erewrite bind_Ret by exact Harm. reflexivity.
Qed.

Lemma rangeToolCalls_appends (calls : list ToolCall) :
  handlers_return handlers switch_case ->
  forall (msgs : list Message) (w : World),
  exists appended w',
    rangeToolCalls handlers switch_case calls msgs w = Ret (msgs ++ appended) w'
    /\ ToolCallID <$> appended = ID <$> filter (registered handlers) calls
    /\ Forall (fun m => Role m = Tool) appended.
Proof.
  intros Hret. induction calls as [|tc rest IH]; intros msgs w.
  - exists [], w. simpl. rewrite app_nil_r. repeat split; constructor.
  - simpl. destruct (handlers !! Name (Function tc)) as [handler|] eqn:Hlook.
    + destruct (Hret tc handler w Hlook) as ([resultStr err] & w1 & Harm).
      erewrite bind_Ret by (eapply toolCall_registered; eassumption).
      destruct (IH (msgs ++ [toolMessage tc resultStr err]) w1)
        as (appended & w2 & Hrun & Hids & Hroles).
      exists (toolMessage tc resultStr err :: appended), w2.
      rewrite Hrun, <- app_assoc. split; [reflexivity|].
      rewrite filter_cons_True by (unfold registered; rewrite Hlook; eauto).
      split; [rewrite !fmap_cons, Hids; reflexivity | now constructor].
    + erewrite bind_Ret by (apply toolCall_unregistered; exact Hlook).
      destruct (IH msgs (add_logged ("Tool " +:+ Name (Function tc) +:+ " not found") w))
        as (appended & w2 & Hrun & Hids & Hroles).
      exists appended, w2. split; [exact Hrun|].
      rewrite filter_cons_False by (unfold registered; rewrite Hlook; intros [? ?]; discriminate).
      split; assumption.
Qed.

Lemma rangeToolCalls_extends (calls : list ToolCall) :
  forall (msgs : list Message) (w : World),
    match rangeToolCalls handlers switch_case calls msgs w with
    | Ret msgs' _ => exists appended, msgs' = msgs ++ appended
    | Panic _ _ | Exit _ _ => True
    end.
Proof.
  induction calls as [|tc rest IH]; intros msgs w.
  - exists []. now rewrite app_nil_r.
  - cbn [rangeToolCalls]. unfold bind at 1.
    assert (Hstep : match toolCall handlers switch_case tc msgs w with
                    | Ret msgs1 _ => exists appended, msgs1 = msgs ++ appended
                    | Panic _ _ | Exit _ _ => True
                    end).
    { unfold toolCall. destruct (handlers !! Name (Function tc)) as [handler|].
      - unfold bind. destruct (switch_arm switch_case handler tc w) as [[r e] w1| |];
          [|exact I..].
        cbn. eauto.
      - cbn. exists []. now rewrite app_nil_r. }
    destruct (toolCall handlers switch_case tc msgs w) as [msgs1 w1| |]; [|exact I..].
    destruct Hstep as (first & ->).
    specialize (IH (msgs ++ first) w1).
    destruct (rangeToolCalls handlers switch_case rest (msgs ++ first) w1)
      as [msgs2 w2| |]; [|exact I..].
    destruct IH as (more & ->). exists (first ++ more). now rewrite app_assoc.
Qed.

End ToolLoopFacts.

Lemma nonempty_snoc {A} (s : list A) :
  s <> [] -> exists init x, s = init ++ [x].
Proof.
  destruct s as [|x s] using rev_ind; [congruence|]. intros _. eauto.
Qed.

(** ** The handler maps of the packages *)

(** Case analysis on a lookup in a map literal: one goal per key that can
    answer, with the key substituted. *)
Ltac map_literal_cases Hlook :=
  cbn [list_to_map foldr uncurry fst snd] in Hlook;
  repeat (rewrite lookup_insert in Hlook;
          let Heq := fresh "Heq" in
          destruct (decide _) as [Heq|_] in Hlook;
          [ symmetry in Heq; injection Hlook as <- | ]);
  [ .. | rewrite lookup_empty in Hlook; discriminate Hlook ].

(** [handlers_return] for a map literal [Hlook] looks into. *)
Ltac solve_handlers_return tc Hlook :=
  unfold switch_arm;
  map_literal_cases Hlook;
  match goal with Heq : Name (Function tc) = _ |- _ => rewrite Heq end;
  eexists _, _; reflexivity.

(** ** The complete effect of the tool-dispatch loop *)

Lemma with_output_nil (w : World) : with_output [] [] w = w.
Proof. destruct w. unfold with_output. cbn. now rewrite !app_nil_r. Qed.

Lemma with_output_add_stdout (names printed : list string) (line : string) (w : World) :
  with_output names printed (add_stdout line w) = with_output names (line :: printed) w.
Proof. unfold with_output, add_stdout. cbn. now rewrite <- app_assoc. Qed.

Lemma with_output_add_logged (names printed : list string) (name : string) (w : World) :
  with_output names printed (add_logged ("Tool " +:+ name +:+ " not found") w)
  = with_output (name :: names) printed w.
Proof. unfold with_output, add_logged. cbn. now rewrite <- app_assoc. Qed.

Lemma with_output_stdout_stderr (names printed : list string) (w : World) :
  generate_calls (with_output names printed w) = generate_calls w
  /\ stderr (with_output names printed w) = stderr w ++ (not_found <$> names).
Proof. split; reflexivity. Qed.

Section ToolLoopEffectFacts.
Context {Args : Type}.
Variable handlers : gmap string (@Handler Args).
Variable switch_case : string -> option (string -> Args).

Lemma rangeToolCalls_effect (result : string -> string) (line : ToolCall -> string)
    (calls : list ToolCall) :
  handlers_canned handlers switch_case result line ->
  forall (msgs : list Message) (w : World),
    rangeToolCalls handlers switch_case calls msgs w
    = Ret (msgs ++ answers handlers result calls)
          (with_output (not_found_names handlers calls) (tool_lines handlers line calls) w).
Proof.
  intros Hcanned. induction calls as [|tc rest IH]; intros msgs w.
  - cbn. now rewrite app_nil_r, with_output_nil.
  - cbn [rangeToolCalls]. unfold answers, not_found_names, tool_lines.
    destruct (handlers !! Name (Function tc)) as [handler|] eqn:Hlook.
    + erewrite bind_Ret
        by (eapply toolCall_registered; [exact Hlook | apply Hcanned; exact Hlook]).
      rewrite IH.
      rewrite !filter_cons_True by (unfold registered; rewrite Hlook; eauto).
      rewrite filter_cons_False
        by (intros Hnot; apply Hnot; unfold registered; rewrite Hlook; eauto).
      rewrite with_output_add_stdout, !fmap_cons, <- app_assoc. reflexivity.
    + erewrite bind_Ret by (apply toolCall_unregistered; exact Hlook).
      rewrite IH.
      rewrite !filter_cons_False
        by (unfold registered; rewrite Hlook; intros [? ?]; discriminate).
      rewrite filter_cons_True
        by (unfold registered; rewrite Hlook; intros [? ?]; discriminate).
      rewrite with_output_add_logged, fmap_cons. reflexivity.
Qed.

(** Handlers that answer by name: the messages of a pass. *)
Lemma rangeToolCalls_outcomes (names : list string)
    (outcome : string -> string * option error) (calls : list ToolCall) :
  (forall name, name ∈ names -> is_Some (switch_case name)) ->
  handlers_answer handlers names outcome ->
  forall (msgs : list Message) (w : World),
  exists w',
    rangeToolCalls handlers switch_case calls msgs w
    = Ret (msgs ++ outcome_messages handlers outcome calls) w'.
Proof.
  intros Hswitch Hanswer. induction calls as [|tc rest IH]; intros msgs w.
  - exists w. cbn. now rewrite app_nil_r.
  - cbn [rangeToolCalls]. unfold outcome_messages.
    destruct (handlers !! Name (Function tc)) as [handler|] eqn:Hlook.
    + destruct (Hanswer _ _ Hlook) as (Hin & Hruns).
      destruct (Hswitch _ Hin) as (decode & Hcase).
      destruct (Hruns (decode (Arguments (Function tc))) w) as (w1 & Hrun).
      assert (Harm : switch_arm switch_case handler tc w
                     = Ret (outcome (Name (Function tc))) w1).
      { unfold switch_arm. rewrite Hcase. exact Hrun. }
      destruct (outcome (Name (Function tc))) as [resultStr err] eqn:Hout.
      erewrite bind_Ret by (eapply toolCall_registered; eassumption).
      destruct (IH (msgs ++ [toolMessage tc resultStr err]) w1) as (w2 & ->).
      exists w2.
      rewrite filter_cons_True by (unfold registered; rewrite Hlook; eauto).
      rewrite fmap_cons, Hout, <- app_assoc.
      destruct err; reflexivity.
    + erewrite bind_Ret by (apply toolCall_unregistered; exact Hlook).
      destruct (IH msgs (add_logged ("Tool " +:+ Name (Function tc) +:+ " not found") w))
        as (w2 & ->).
      exists w2.
      rewrite filter_cons_False
        by (unfold registered; rewrite Hlook; intros [? ?]; discriminate).
      reflexivity.
Qed.

End ToolLoopEffectFacts.

(** Membership in a list literal of names. *)
Ltac name_in_literal :=
  repeat first [apply list_elem_of_here | apply list_elem_of_further].

Ltac names_of_literal Hin :=
  repeat (apply elem_of_cons in Hin as [->|Hin]);
  [ .. | apply elem_of_nil in Hin; destruct Hin ].

(** ** The graph every agent builds: assistant, tools, one branch *)

Lemma recovered_Ret {A} `{Recover} (m : M (A + error)) (w w' : World) (r : A + error) :
  m w = Ret r w' -> compose.recovered m w = Ret r w'.
Proof. intros Hm. unfold compose.recovered. now rewrite Hm. Qed.

Section ReactGraph.
Import compose.
Context {S : Type} `{Recover}.
Variables (assistant tools : Lambda S) (branch : GraphBranch S).

Local Abbreviation graph := (react_graph assistant tools branch).

Lemma successor_START (state : S) :
  successor graph START state = ret (inl "assistant").
Proof. reflexivity. Qed.

Lemma successor_tools (state : S) :
  successor graph "tools" state = ret (inl "assistant").
Proof. reflexivity. Qed.

Lemma run_from_START (fuel : nat) (state : S) (w : World) :
  run graph (Datatypes.S fuel) START state w
  = after_assistant assistant tools branch fuel state w.
Proof. reflexivity. Qed.

Lemma run_from_tools (fuel : nat) (state : S) (w : World) :
  run graph (Datatypes.S fuel) "tools" state w
  = after_assistant assistant tools branch fuel state w.
Proof. reflexivity. Qed.

Lemma run_from_START_spent (state : S) (w : World) :
  run graph 0 START state w = Ret (Failed budget_error) w.
Proof. reflexivity. Qed.

Lemma run_from_tools_spent (state : S) (w : World) :
  run graph 0 "tools" state w = Ret (Failed budget_error) w.
Proof. reflexivity. Qed.

Lemma successor_assistant (state : S) (w w' : World) (next : string) :
  condition branch state w = Ret (inl next) w' ->
  next ∈ endNodes branch ->
  successor graph "assistant" state w = Ret (inl next) w'.
Proof.
  intros Hcond Hend. unfold successor.
  change (branches graph !! "assistant") with (Some branch).
  cbv beta iota. erewrite bind_Ret by exact Hcond.
  cbv beta iota. rewrite decide_True by exact Hend. reflexivity.
Qed.

Lemma run_from_assistant_END (fuel : nat) (state : S) (w w' : World) :
  condition branch state w = Ret (inl END) w' ->
  END ∈ endNodes branch ->
  run graph fuel "assistant" state w = Ret (Done state) w'.
Proof.
  intros Hcond Hend. destruct fuel; cbn [run];
    (erewrite bind_Ret by (apply successor_assistant; eassumption));
    reflexivity.
Qed.

Lemma run_from_assistant_tools (fuel : nat) (state : S) (w w' : World) :
  condition branch state w = Ret (inl "tools") w' ->
  "tools" ∈ endNodes branch ->
  run graph (Datatypes.S fuel) "assistant" state w
  = after_tools assistant tools branch fuel state w'.
Proof.
  intros Hcond Hend. cbn [run].
  erewrite bind_Ret by (apply successor_assistant; eassumption).
  reflexivity.
Qed.

Lemma run_from_assistant_tools_spent (state : S) (w w' : World) :
  condition branch state w = Ret (inl "tools") w' ->
  "tools" ∈ endNodes branch ->
  run graph 0 "assistant" state w = Ret (Failed budget_error) w'.
Proof.
  intros Hcond Hend. cbn [run].
  erewrite bind_Ret by (apply successor_assistant; eassumption).
  reflexivity.
Qed.

(** A node that returns is run as if there were no [recover]. *)
Lemma after_assistant_Ret (fuel : nat) (state : S) (w w' : World) (r : S + error) :
  assistant state w = Ret r w' ->
  after_assistant assistant tools branch fuel state w
  = match r with
    | inr e => Ret (Failed (model_error e)) w'
    | inl state' => run graph fuel "assistant" state' w'
    end.
Proof.
  intros Hrun. unfold after_assistant.
  erewrite bind_Ret by (apply recovered_Ret; exact Hrun).
  destruct r; reflexivity.
Qed.

Lemma after_tools_Ret (fuel : nat) (state state' : S) (w w' : World) :
  tools state w = Ret (inl state') w' ->
  after_tools assistant tools branch fuel state w = run graph fuel "tools" state' w'.
Proof.
  intros Hrun. unfold after_tools.
  erewrite bind_Ret by (apply recovered_Ret; exact Hrun).
  reflexivity.
Qed.

End ReactGraph.

(** ** package ecommerce_customer_support *)
Section EcommerceFacts.
Import compose ecommerce_customer_support.
Context `{Recover} `{ChatModel} `{Fmt} `{!Marshal Order}.
Context `{!Unmarshal SendCustomerMessageArgs} `{!Unmarshal IssueRefundArgs}.
Context `{!Unmarshal CancelOrderArgs} `{!Unmarshal UpdateAddressArgs}.

Lemma ecommerce_handlers_return : handlers_return toolHandlers switch_case.
Proof.
  intros tc handler w Hlook. unfold toolHandlers in Hlook.
  solve_handlers_return tc Hlook.
Qed.

Lemma ecommerce_switch_send_customer_message (handler : Handler) (tc : ToolCall) :
  Name (Function tc) = "send_customer_message" ->
  switch_arm switch_case handler tc
  = handler (PtrSendCustomerMessageArgs (fst (json_Unmarshal (Arguments (Function tc)) zero_SendCustomerMessageArgs))).
Proof. intros Hname. unfold switch_arm, switch_case. rewrite Hname. reflexivity. Qed.

Lemma ecommerce_switch_issue_refund (handler : Handler) (tc : ToolCall) :
  Name (Function tc) = "issue_refund" ->
  switch_arm switch_case handler tc
  = handler (PtrIssueRefundArgs (fst (json_Unmarshal (Arguments (Function tc)) zero_IssueRefundArgs))).
Proof. intros Hname. unfold switch_arm, switch_case. rewrite Hname. reflexivity. Qed.

Lemma ecommerce_switch_cancel_order (handler : Handler) (tc : ToolCall) :
  Name (Function tc) = "cancel_order" ->
  switch_arm switch_case handler tc
  = handler (PtrCancelOrderArgs (fst (json_Unmarshal (Arguments (Function tc)) zero_CancelOrderArgs))).
Proof. intros Hname. unfold switch_arm, switch_case. rewrite Hname. reflexivity. Qed.

Lemma ecommerce_switch_update_address_for_order (handler : Handler) (tc : ToolCall) :
  Name (Function tc) = "update_address_for_order" ->
  switch_arm switch_case handler tc
  = handler (PtrUpdateAddressArgs (fst (json_Unmarshal (Arguments (Function tc)) zero_UpdateAddressArgs))).
Proof. intros Hname. unfold switch_arm, switch_case. rewrite Hname. reflexivity. Qed.

Lemma ecommerce_handlers_canned :
  handlers_canned toolHandlers switch_case ecommerce_result ecommerce_tool_line.
Proof.
  intros tc handler w Hlook. unfold toolHandlers in Hlook.
  unfold switch_arm, ecommerce_result, ecommerce_tool_line.
  map_literal_cases Hlook;
    match goal with Heq : Name (Function tc) = _ |- _ => rewrite Heq end;
    reflexivity.
Qed.

Lemma ecommerce_registered_names (name : string) :
  is_Some (toolHandlers !! name) <-> name ∈ ecommerce_tool_names.
Proof.
  unfold ecommerce_tool_names. split.
  - intros [handler Hlook]. unfold toolHandlers in Hlook.
    cbn [list_to_map foldr uncurry fst snd] in Hlook.
    repeat (rewrite lookup_insert in Hlook;
            destruct (decide _) as [<-|_] in Hlook; [name_in_literal|]).
    rewrite lookup_empty in Hlook. discriminate Hlook.
  - intros Hin. names_of_literal Hin; eexists; reflexivity.
Qed.

Lemma ecommerce_switch_names (name : string) :
  is_Some (switch_case name) <-> name ∈ ecommerce_tool_names.
Proof.
  unfold ecommerce_tool_names, switch_case. split.
  - intros Hsome.
    repeat (destruct (decide _) as [->|_] in Hsome; [name_in_literal|]).
    destruct Hsome as [? Hnone]. discriminate Hnone.
  - intros Hin. names_of_literal Hin; eexists; reflexivity.
Qed.

Lemma ecommerce_NewAgent_shape : NewAgent = react_graph assistant toolExecutor branch.
Proof. reflexivity. Qed.

Lemma ecommerce_endNodes : "tools" ∈ endNodes branch /\ END ∈ endNodes branch.
Proof. split; vm_compute; reflexivity. Qed.

Lemma ecommerce_assistant_step (state : AgentState) (w : World) :
  assistant state w
  = Ret match Generate (generate_calls w) (SystemMessage (sysPrompt state) :: Messages state) with
        | inl resp => inl {| AgentState_Order := AgentState_Order state; Messages := Messages state ++ [resp] |}
        | inr err => inr err
        end
        (model_called w).
Proof.
  unfold assistant, bind, chatModel_Generate.
  destruct (Generate _ _); reflexivity.
Qed.

Lemma ecommerce_branch_condition (order : option Order) (init : list Message)
    (resp : Message) (w : World) :
  condition branch {| AgentState_Order := order; Messages := init ++ [resp] |} w
  = Ret (inl match ToolCalls resp with [] => END | _ :: _ => "tools" end) w.
Proof.
  cbn [branch condition Messages].
  rewrite index_last with (x := resp) by apply last_snoc.
  unfold bind, ret, len.
  destruct (ToolCalls resp) as [|tc rest]; [reflexivity|].
  rewrite decide_True by (cbn [length]; lia). reflexivity.
Qed.

Lemma ecommerce_toolCall_result (tc : ToolCall) (msgs : list Message) (w : World) :
  is_Some (toolHandlers !! Name (Function tc)) ->
  toolCall toolHandlers switch_case tc msgs w
  = Ret (msgs ++ [ToolMessage (ecommerce_result (Name (Function tc))) (ID tc)])
        (add_stdout (ecommerce_tool_line tc) w).
Proof.
  intros [handler Hlook].
  exact (toolCall_registered _ _ _ _ _ _ _ _ None Hlook (ecommerce_handlers_canned _ _ _ Hlook)).
Qed.

Lemma ecommerce_toolExecutorWith_appends (handlers : gmap string (@Handler Args))
    (order : option Order) (init : list Message) (lastMsg : Message) (w : World) :
  handlers_return handlers switch_case ->
  exists appended w',
    toolExecutorWith handlers {| AgentState_Order := order; Messages := init ++ [lastMsg] |} w
    = Ret (inl {| AgentState_Order := order; Messages := (init ++ [lastMsg]) ++ appended |}) w'
    /\ ToolCallID <$> appended = ID <$> filter (registered handlers) (ToolCalls lastMsg)
    /\ Forall (fun m => Role m = Tool) appended.
Proof.
  intros Hret. unfold toolExecutorWith. cbn [Messages AgentState_Order].
  rewrite index_last with (x := lastMsg) by apply last_snoc.
  unfold bind at 1. unfold ret at 1.
  destruct (decide (len (ToolCalls lastMsg) = 0)%Z) as [Hzero|Hpos].
  - exists [], w. rewrite app_nil_r.
    destruct (ToolCalls lastMsg); [|discriminate Hzero].
    repeat split; constructor.
  - destruct (rangeToolCalls_appends handlers switch_case (ToolCalls lastMsg) Hret
                (init ++ [lastMsg]) w) as (appended & w' & Hrun & Hids & Hroles).
    exists appended, w'. erewrite bind_Ret by exact Hrun.
    repeat split; assumption.
Qed.

(** The executor on a log that ends with a message: the loop over its calls. *)
Lemma ecommerce_toolExecutorWith_loop (handlers : gmap string (@Handler Args))
    (order : option Order) (init : list Message) (lastMsg : Message)
    (msgs : list Message) (w w' : World) :
  rangeToolCalls handlers switch_case (ToolCalls lastMsg) (init ++ [lastMsg]) w
  = Ret msgs w' ->
  toolExecutorWith handlers {| AgentState_Order := order; Messages := init ++ [lastMsg] |} w
  = Ret (inl {| AgentState_Order := order; Messages := msgs |}) w'.
Proof.
  intros Hrun. unfold toolExecutorWith. cbn [Messages AgentState_Order].
  rewrite index_last with (x := lastMsg) by apply last_snoc.
  unfold bind at 1. unfold ret at 1.
  destruct (decide (len (ToolCalls lastMsg) = 0)%Z) as [Hzero|Hpos].
  - destruct (ToolCalls lastMsg); [|discriminate Hzero].
    cbn in Hrun. injection Hrun as <- <-. reflexivity.
  - erewrite bind_Ret by exact Hrun. reflexivity.
Qed.

Lemma ecommerce_toolExecutorWith_frame (handlers : gmap string (@Handler Args))
    (state : AgentState) (w : World) :
  match toolExecutorWith handlers state w with
  | Ret (inl state') _ =>
      AgentState_Order state' = AgentState_Order state
      /\ exists appended, Messages state' = Messages state ++ appended
  | Ret (inr _) _ => False
  | Panic _ _ | Exit _ _ => True
  end.
Proof.
  unfold toolExecutorWith, bind.
  destruct (index (Messages state) (len (Messages state) - 1) w) as [lastMsg w1| |]; [|exact I..].
  destruct (decide (len (ToolCalls lastMsg) = 0)%Z) as [Hzero|Hpos].
  - cbn. split; [reflexivity|]. exists []. now rewrite app_nil_r.
  - pose proof (rangeToolCalls_extends handlers switch_case (ToolCalls lastMsg)
                  (Messages state) w1) as Hext.
    destruct (rangeToolCalls handlers switch_case (ToolCalls lastMsg) (Messages state) w1)
      as [msgs w2| |]; [|exact I..].
    cbn. split; [reflexivity | exact Hext].
Qed.

(** Handlers that answer by name: one message per registered call. *)
Lemma ecommerce_toolExecutorWith_outcomes (handlers : gmap string (@Handler Args))
    (outcome : string -> string * option error) :
  handlers_answer handlers ecommerce_tool_names outcome ->
  forall (order : option Order) (init : list Message) (lastMsg : Message) (w : World),
  exists w',
    toolExecutorWith handlers {| AgentState_Order := order; Messages := init ++ [lastMsg] |} w
    = Ret (inl {| AgentState_Order := order;
                  Messages := (init ++ [lastMsg])
                              ++ outcome_messages handlers outcome (ToolCalls lastMsg) |}) w'.
Proof.
  intros Hanswer order init lastMsg w.
  destruct (rangeToolCalls_outcomes handlers switch_case ecommerce_tool_names outcome
              (ToolCalls lastMsg) (fun name => proj2 (ecommerce_switch_names name)) Hanswer
              (init ++ [lastMsg]) w) as (w' & Hrun).
  exists w'. now apply ecommerce_toolExecutorWith_loop.
Qed.

(** The complete effect of the executor of the package. *)
Lemma ecommerce_toolExecutor_effect (order : option Order) (init : list Message)
    (lastMsg : Message) (w : World) :
  toolExecutor {| AgentState_Order := order; Messages := init ++ [lastMsg] |} w
  = Ret (inl {| AgentState_Order := order;
                Messages := (init ++ [lastMsg])
                            ++ answers toolHandlers ecommerce_result (ToolCalls lastMsg) |})
        (with_output (not_found_names toolHandlers (ToolCalls lastMsg))
           (tool_lines toolHandlers ecommerce_tool_line (ToolCalls lastMsg)) w).
Proof.
  apply ecommerce_toolExecutorWith_loop, rangeToolCalls_effect, ecommerce_handlers_canned.
Qed.

Lemma ecommerce_run_from_assistant (fuel : nat) (order : option Order)
    (init : list Message) (resp : Message) (w : World) :
  run NewAgent (Datatypes.S fuel) "assistant"
      {| AgentState_Order := order; Messages := init ++ [resp] |} w
  = match ToolCalls resp with
    | [] => Ret (Done {| AgentState_Order := order; Messages := init ++ [resp] |}) w
    | _ :: _ =>
        (let* r := toolExecutor {| AgentState_Order := order; Messages := init ++ [resp] |} in
         match r with
         | inr e => ret (Failed e)
         | inl state' => run NewAgent fuel "tools" state'
         end) w
    end.
Proof.
  rewrite ecommerce_NewAgent_shape.
  pose proof (ecommerce_branch_condition order init resp w) as Hcond.
  destruct (ToolCalls resp) as [|tc rest] eqn:Hcalls.
  - erewrite run_from_assistant_END by (first [exact Hcond | apply ecommerce_endNodes]).
    reflexivity.
  - erewrite run_from_assistant_tools by (first [exact Hcond | apply ecommerce_endNodes]).
    erewrite after_tools_Ret by apply ecommerce_toolExecutor_effect.
    erewrite bind_Ret by apply ecommerce_toolExecutor_effect.
    reflexivity.
Qed.

(** The assistant node, entered with a step left. *)
Lemma ecommerce_after_assistant (fuel : nat) (state : AgentState) (w : World) :
  after_assistant assistant toolExecutor branch fuel state w
  = match Generate (generate_calls w) (SystemMessage (sysPrompt state) :: Messages state) with
    | inl resp =>
        run NewAgent fuel "assistant"
          {| AgentState_Order := AgentState_Order state; Messages := Messages state ++ [resp] |} (model_called w)
    | inr cause => Ret (Failed (model_error cause)) (model_called w)
    end.
Proof.
  erewrite after_assistant_Ret by apply ecommerce_assistant_step.
  destruct (Generate _ _); reflexivity.
Qed.

(** One round with a single registered tool, then the final answer. *)
Lemma ecommerce_round_trip (fuel : nat) (order : option Order) (init : list Message)
    (resp1 resp2 : Message) (tc : ToolCall) (w : World) :
  let state0 := {| AgentState_Order := order; Messages := init |} in
  let toolMsg := ToolMessage (ecommerce_result (Name (Function tc))) (ID tc) in
  Generate (generate_calls w) (SystemMessage (sysPrompt state0) :: init) = inl resp1 ->
  ToolCalls resp1 = [tc] ->
  is_Some (toolHandlers !! Name (Function tc)) ->
  Generate (Datatypes.S (generate_calls w))
           (SystemMessage (sysPrompt state0) :: (init ++ [resp1]) ++ [toolMsg])
  = inl resp2 ->
  ToolCalls resp2 = [] ->
  exists w',
    Invoke NewAgent (4 + fuel) state0 w
    = Ret (Done {| AgentState_Order := order;
                   Messages := ((init ++ [resp1]) ++ [toolMsg]) ++ [resp2] |}) w'
    /\ generate_calls w' = 2 + generate_calls w.
Proof.
  intros state0 toolMsg Hgen1 Hcalls1 Hreg Hgen2 Hcalls2.
  exists (model_called (add_stdout (ecommerce_tool_line tc) (model_called w))).
  split; [|reflexivity].
  unfold Invoke.
  change (4 + fuel) with (Datatypes.S (Datatypes.S (Datatypes.S (Datatypes.S fuel)))).
  rewrite ecommerce_NewAgent_shape, run_from_START, ecommerce_after_assistant.
  cbn [Messages AgentState_Order state0]. rewrite Hgen1.
  rewrite ecommerce_run_from_assistant, Hcalls1.
  assert (Hexec : toolExecutor {| AgentState_Order := order; Messages := init ++ [resp1] |} (model_called w)
                  = Ret (inl {| AgentState_Order := order; Messages := (init ++ [resp1]) ++ [toolMsg] |})
                        (add_stdout (ecommerce_tool_line tc) (model_called w))).
  { apply ecommerce_toolExecutorWith_loop. rewrite Hcalls1. cbn [rangeToolCalls].
    erewrite bind_Ret by (apply ecommerce_toolCall_result; exact Hreg). reflexivity. }
  erewrite bind_Ret by exact Hexec.
  rewrite ecommerce_NewAgent_shape, run_from_tools, ecommerce_after_assistant.
  cbn [Messages AgentState_Order generate_calls add_stdout model_called].
  change (sysPrompt {| AgentState_Order := order; Messages := (init ++ [resp1]) ++ [toolMsg] |})
    with (sysPrompt state0).
  rewrite Hgen2.
  rewrite ecommerce_run_from_assistant, Hcalls2.
  reflexivity.
Qed.

Lemma ecommerce_run_returns (fuel : nat) :
  forall (from : string) (state : AgentState) (w : World),
    ecommerce_standing from state ->
    exists r w', run NewAgent fuel from state w = Ret r w'.
Proof.
  rewrite ecommerce_NewAgent_shape.
  induction fuel as [|fuel IH]; intros from state w Hfrom.
  - destruct Hfrom as [->|[->|[-> Hnonempty]]].
    + eexists _, _. apply run_from_START_spent.
    + eexists _, _. apply run_from_tools_spent.
    + destruct state as [order msgs]. cbn [Messages] in Hnonempty.
      destruct (nonempty_snoc msgs Hnonempty) as (init & resp & ->).
      pose proof (ecommerce_branch_condition order init resp w) as Hcond.
      destruct (ToolCalls resp) as [|tc rest] eqn:Hcalls.
      * erewrite run_from_assistant_END by (first [exact Hcond | apply ecommerce_endNodes]).
        eexists _, _; reflexivity.
      * erewrite run_from_assistant_tools_spent
          by (first [exact Hcond | apply ecommerce_endNodes]).
        eexists _, _; reflexivity.
  - assert (Hassistant : exists r w',
              after_assistant assistant toolExecutor branch fuel state w = Ret r w').
    { rewrite ecommerce_after_assistant.
      destruct (Generate _ _) as [resp|err]; [|eexists _, _; reflexivity].
      rewrite ecommerce_NewAgent_shape.
      apply IH. right; right. split; [reflexivity|].
      cbn [Messages]. intros Hnil. now apply app_eq_nil in Hnil as [_ ?]. }
    destruct Hfrom as [->|[->|[-> Hnonempty]]].
    + rewrite run_from_START. exact Hassistant.
    + rewrite run_from_tools. exact Hassistant.
    + destruct state as [order msgs]. cbn [Messages] in Hnonempty.
      destruct (nonempty_snoc msgs Hnonempty) as (init & resp & ->).
      pose proof (ecommerce_branch_condition order init resp w) as Hcond.
      destruct (ToolCalls resp) as [|tc rest] eqn:Hcalls.
      * erewrite run_from_assistant_END by (first [exact Hcond | apply ecommerce_endNodes]).
        eexists _, _; reflexivity.
      * erewrite run_from_assistant_tools by (first [exact Hcond | apply ecommerce_endNodes]).
        erewrite after_tools_Ret by apply ecommerce_toolExecutor_effect.
        apply IH. right; left. reflexivity.
Qed.

(** What every run keeps. *)
Lemma ecommerce_run_invariant (fuel : nat) :
  forall (from : string) (state : AgentState) (w : World) (r : Result AgentState)
         (w' : World),
    ecommerce_standing from state ->
    run NewAgent fuel from state w = Ret r w' ->
    (exists names, stderr w' = stderr w ++ (not_found <$> names))
    /\ generate_calls w <= generate_calls w'
    /\ match r with
       | Done finalState =>
           AgentState_Order finalState = AgentState_Order state
           /\ (exists appended, Messages finalState = Messages state ++ appended)
           /\ (exists init resp, Messages finalState = init ++ [resp] /\ ToolCalls resp = [])
           /\ (from <> "assistant" -> generate_calls w < generate_calls w')
       | Failed err =>
           err = budget_error
           \/ (generate_calls w < generate_calls w'
               /\ exists input cause,
                    Generate (pred (generate_calls w')) input = inr cause
                    /\ err = model_error cause)
       end.
Proof.
  rewrite ecommerce_NewAgent_shape.
  assert (Hquiet : forall w0 : World, exists names, stderr w0 = stderr w0 ++ (not_found <$> names)).
  { intros w0. exists []. cbn. now rewrite app_nil_r. }
  induction fuel as [|fuel IH]; intros from state w r w' Hfrom Hrun.
  - destruct Hfrom as [->|[->|[-> Hnonempty]]].
    + rewrite run_from_START_spent in Hrun. injection Hrun as <- <-.
      split; [apply Hquiet|]. split; [lia|]. left. reflexivity.
    + rewrite run_from_tools_spent in Hrun. injection Hrun as <- <-.
      split; [apply Hquiet|]. split; [lia|]. left. reflexivity.
    + destruct state as [order msgs]. cbn [Messages] in Hnonempty.
      destruct (nonempty_snoc msgs Hnonempty) as (init & resp & ->).
      pose proof (ecommerce_branch_condition order init resp w) as Hcond.
      destruct (ToolCalls resp) as [|tc rest] eqn:Hcalls.
      * erewrite run_from_assistant_END in Hrun
          by (first [exact Hcond | apply ecommerce_endNodes]).
        injection Hrun as <- <-. cbn [Messages AgentState_Order].
        split; [apply Hquiet|]. split; [lia|].
        split; [reflexivity|]. split; [exists []; now rewrite app_nil_r|].
        split; [eauto | congruence].
      * erewrite run_from_assistant_tools_spent in Hrun
          by (first [exact Hcond | apply ecommerce_endNodes]).
        injection Hrun as <- <-.
        split; [apply Hquiet|]. split; [lia|]. left. reflexivity.
  - assert (Hassistant :
              after_assistant assistant toolExecutor branch fuel state w = Ret r w' ->
              (exists names, stderr w' = stderr w ++ (not_found <$> names))
              /\ generate_calls w < generate_calls w'
              /\ match r with
                 | Done finalState =>
                     AgentState_Order finalState = AgentState_Order state
                     /\ (exists appended, Messages finalState = Messages state ++ appended)
                     /\ (exists init resp,
                           Messages finalState = init ++ [resp] /\ ToolCalls resp = [])
                 | Failed err =>
                     err = budget_error
                     \/ (exists input cause,
                           Generate (pred (generate_calls w')) input = inr cause
                           /\ err = model_error cause)
                 end).
    { rewrite ecommerce_after_assistant.
      destruct (Generate (generate_calls w) _) as [resp|err] eqn:Hgen.
      - rewrite ecommerce_NewAgent_shape. intros Hrest.
        apply IH in Hrest as (Herr & Hcalls & Hres).
        2: { right; right. split; [reflexivity|].
             cbn [Messages]. intros Hnil. now apply app_eq_nil in Hnil as [_ ?]. }
        cbn [model_called stderr generate_calls] in Herr, Hcalls.
        split; [exact Herr|]. split; [lia|].
        destruct r as [finalState|cause].
        + destruct Hres as (Hrecord & (appended & Happ) & Hlast & _).
          cbn [Messages AgentState_Order] in Hrecord, Happ.
          split; [exact Hrecord|]. split; [|exact Hlast].
          exists ([resp] ++ appended). now rewrite app_assoc.
        + destruct Hres as [Hbudget|(_ & Hinput)]; [left; exact Hbudget | right; exact Hinput].
      - intros [= <- <-]. cbn [model_called stderr generate_calls Nat.pred].
        split; [apply (Hquiet (model_called w))|]. split; [lia|]. right. eauto. }
    destruct Hfrom as [->|[->|[-> Hnonempty]]].
    + rewrite run_from_START in Hrun.
      destruct (Hassistant Hrun) as (Herr & Hcalls & Hres).
      split; [exact Herr|]. split; [lia|].
      destruct r as [finalState|cause].
      * destruct Hres as (? & ? & ?). repeat split; try assumption. intros _; lia.
      * destruct Hres as [Hbudget|Hinput]; [left; exact Hbudget | right; split; [lia | exact Hinput]].
    + rewrite run_from_tools in Hrun.
      destruct (Hassistant Hrun) as (Herr & Hcalls & Hres).
      split; [exact Herr|]. split; [lia|].
      destruct r as [finalState|cause].
      * destruct Hres as (? & ? & ?). repeat split; try assumption. intros _; lia.
      * destruct Hres as [Hbudget|Hinput]; [left; exact Hbudget | right; split; [lia | exact Hinput]].
    + clear Hassistant.
      destruct state as [order msgs]. cbn [Messages] in Hnonempty.
      destruct (nonempty_snoc msgs Hnonempty) as (init & resp & ->).
      pose proof (ecommerce_branch_condition order init resp w) as Hcond.
      destruct (ToolCalls resp) as [|tc rest] eqn:Hcalls.
      * erewrite run_from_assistant_END in Hrun
          by (first [exact Hcond | apply ecommerce_endNodes]).
        injection Hrun as <- <-. cbn [Messages AgentState_Order].
        split; [apply Hquiet|]. split; [lia|].
        split; [reflexivity|]. split; [exists []; now rewrite app_nil_r|].
        split; [eauto | congruence].
      * erewrite run_from_assistant_tools in Hrun
          by (first [exact Hcond | apply ecommerce_endNodes]).
        erewrite after_tools_Ret in Hrun by apply ecommerce_toolExecutor_effect.
        apply IH in Hrun as ((names & Herr) & Hcount & Hres); [|right; left; reflexivity].
        cbn [with_output stderr generate_calls] in Herr, Hcount.
        split.
        { exists (not_found_names toolHandlers (ToolCalls resp) ++ names).
          rewrite Herr, fmap_app, app_assoc. reflexivity. }
        split; [exact Hcount|].
        destruct r as [finalState|cause].
        -- destruct Hres as (Hrecord & (appended & Happ) & Hlast & Hstrict).
           cbn [Messages AgentState_Order] in Hrecord, Happ.
           split; [exact Hrecord|]. split; [|split; [exact Hlast | congruence]].
           cbn [Messages]. eexists. rewrite Happ, <- app_assoc. reflexivity.
        -- exact Hres.
Qed.

(** While the model keeps asking for tools, a run ends only when the budget
    does, after the model calls the budget allows. *)
Lemma ecommerce_run_keeps_asking (fuel : nat) :
  always_asks_for_tools ->
  forall (from : string) (state : AgentState) (w : World),
    (from = START \/ from = "tools" ->
     exists w', run NewAgent fuel from state w = Ret (Failed budget_error) w'
                /\ generate_calls w' = generate_calls w + Nat.div2 (Datatypes.S fuel))
    /\ (from = "assistant" ->
        (exists init resp, Messages state = init ++ [resp] /\ ToolCalls resp <> []) ->
        exists w', run NewAgent fuel from state w = Ret (Failed budget_error) w'
                   /\ generate_calls w' = generate_calls w + Nat.div2 fuel).
Proof.
  intros Hasks. rewrite ecommerce_NewAgent_shape.
  induction fuel as [|fuel IH]; intros from state w.
  - split.
    + intros [-> | ->]; exists w; (split; [reflexivity | cbn; lia]).
    + intros -> (init & resp & Hmsgs & Hcalls).
      destruct state as [order msgs]. cbn [Messages] in Hmsgs. subst msgs.
      pose proof (ecommerce_branch_condition order init resp w) as Hcond.
      destruct (ToolCalls resp) as [|tc rest] eqn:Htcs; [congruence|].
      exists w. split; [|cbn; lia].
      apply run_from_assistant_tools_spent; [exact Hcond | apply ecommerce_endNodes].
  - split.
    + assert (Hassistant : exists w',
                after_assistant assistant toolExecutor branch fuel state w
                = Ret (Failed budget_error) w'
                /\ generate_calls w' = generate_calls w + Nat.div2 (Datatypes.S (Datatypes.S fuel))).
      { rewrite ecommerce_after_assistant.
        destruct (Hasks (generate_calls w) (SystemMessage (sysPrompt state) :: Messages state))
          as (resp & -> & Hcalls).
        rewrite ecommerce_NewAgent_shape.
        destruct (proj2 (IH "assistant"
                           {| AgentState_Order := AgentState_Order state; Messages := Messages state ++ [resp] |}
                           (model_called w)) eq_refl) as (w' & Hrun & Hcount).
        { cbn [Messages]. eauto. }
        exists w'. split; [exact Hrun|].
        rewrite Hcount. cbn [generate_calls model_called Nat.div2]. lia. }
      intros [-> | ->]; [rewrite run_from_START | rewrite run_from_tools]; exact Hassistant.
    + intros -> (init & resp & Hmsgs & Hcalls).
      destruct state as [order msgs]. cbn [Messages] in Hmsgs. subst msgs.
      pose proof (ecommerce_branch_condition order init resp w) as Hcond.
      destruct (ToolCalls resp) as [|tc rest] eqn:Htcs; [congruence|].
      erewrite run_from_assistant_tools by (first [exact Hcond | apply ecommerce_endNodes]).
      erewrite after_tools_Ret by apply ecommerce_toolExecutor_effect.
      destruct (proj1 (IH "tools"
                         {| AgentState_Order := order;
                            Messages := (init ++ [resp])
                                        ++ answers toolHandlers ecommerce_result (ToolCalls resp) |}
                         (with_output (not_found_names toolHandlers (ToolCalls resp))
                            (tool_lines toolHandlers ecommerce_tool_line (ToolCalls resp)) w))
                  (or_intror eq_refl)) as (w' & Hrun & Hcount).
      exists w'. split; [exact Hrun|].
      rewrite Hcount. reflexivity.
Qed.

(** The three readings of a run from START. *)
Lemma ecommerce_Invoke_contract (fuel : nat) (initialState : AgentState) (w : World) :
  done_keeps AgentState_Order Messages initialState w (Invoke NewAgent fuel initialState w)
  /\ failed_by_budget_or_last_call w (Invoke NewAgent fuel initialState w)
  /\ returns_with_logger_lines w (Invoke NewAgent fuel initialState w).
Proof.
  unfold Invoke.
  destruct (ecommerce_run_returns fuel START initialState w) as (r & w' & Hrun);
    [left; reflexivity|].
  destruct (ecommerce_run_invariant fuel START initialState w r w') as (Herr & Hcount & Hres);
    [left; reflexivity | exact Hrun |].
  rewrite Hrun. unfold done_keeps, failed_by_budget_or_last_call, returns_with_logger_lines.
  destruct r as [finalState|cause]; cbn.
  - destruct Hres as (Hrecord & (appended & Happ) & Hlast & Hstrict).
    repeat split; try assumption; try exact I.
    + exists appended. exact Happ.
    + apply Hstrict. discriminate.
  - repeat split; try assumption; exact I.
Qed.

End EcommerceFacts.

(** ** package it_help_desk *)
Section HelpdeskFacts.
Import compose it_help_desk.
Context `{Recover} `{ChatModel} `{!Marshal Ticket}.
Context `{!Unmarshal ProvisionUserAccessArgs} `{!Unmarshal TroubleshootNetworkArgs}.
Context `{!Unmarshal DiagnoseSystemIssueArgs} `{!Unmarshal DeploySoftwareArgs}.
Context `{!Unmarshal ContainSecurityIncidentArgs} `{!Unmarshal TroubleshootHardwareArgs}.
Context `{!Unmarshal AssignRolesArgs} `{!Unmarshal EscalateIncidentArgs}.
Context `{!Unmarshal ApplyPatchesArgs} `{!Unmarshal SendUserResponseArgs}.

Lemma helpdesk_handlers_return : handlers_return toolHandlers switch_case.
Proof.
  intros tc handler w Hlook. unfold toolHandlers in Hlook.
  solve_handlers_return tc Hlook.
Qed.

Lemma helpdesk_switch_provision_user_access (handler : Handler) (tc : ToolCall) :
  Name (Function tc) = "provision_user_access" ->
  switch_arm switch_case handler tc
  = handler (PtrProvisionUserAccessArgs (fst (json_Unmarshal (Arguments (Function tc)) zero_ProvisionUserAccessArgs))).
Proof. intros Hname. unfold switch_arm, switch_case. rewrite Hname. reflexivity. Qed.

Lemma helpdesk_switch_troubleshoot_network (handler : Handler) (tc : ToolCall) :
  Name (Function tc) = "troubleshoot_network" ->
  switch_arm switch_case handler tc
  = handler (PtrTroubleshootNetworkArgs (fst (json_Unmarshal (Arguments (Function tc)) zero_TroubleshootNetworkArgs))).
Proof. intros Hname. unfold switch_arm, switch_case. rewrite Hname. reflexivity. Qed.

Lemma helpdesk_switch_diagnose_system_issue (handler : Handler) (tc : ToolCall) :
  Name (Function tc) = "diagnose_system_issue" ->
  switch_arm switch_case handler tc
  = handler (PtrDiagnoseSystemIssueArgs (fst (json_Unmarshal (Arguments (Function tc)) zero_DiagnoseSystemIssueArgs))).
Proof. intros Hname. unfold switch_arm, switch_case. rewrite Hname. reflexivity. Qed.

Lemma helpdesk_switch_deploy_software (handler : Handler) (tc : ToolCall) :
  Name (Function tc) = "deploy_software" ->
  switch_arm switch_case handler tc
  = handler (PtrDeploySoftwareArgs (fst (json_Unmarshal (Arguments (Function tc)) zero_DeploySoftwareArgs))).
Proof. intros Hname. unfold switch_arm, switch_case. rewrite Hname. reflexivity. Qed.

Lemma helpdesk_switch_contain_security_incident (handler : Handler) (tc : ToolCall) :
  Name (Function tc) = "contain_security_incident" ->
  switch_arm switch_case handler tc
  = handler (PtrContainSecurityIncidentArgs (fst (json_Unmarshal (Arguments (Function tc)) zero_ContainSecurityIncidentArgs))).
Proof. intros Hname. unfold switch_arm, switch_case. rewrite Hname. reflexivity. Qed.

Lemma helpdesk_switch_troubleshoot_hardware (handler : Handler) (tc : ToolCall) :
  Name (Function tc) = "troubleshoot_hardware" ->
  switch_arm switch_case handler tc
  = handler (PtrTroubleshootHardwareArgs (fst (json_Unmarshal (Arguments (Function tc)) zero_TroubleshootHardwareArgs))).
Proof. intros Hname. unfold switch_arm, switch_case. rewrite Hname. reflexivity. Qed.

Lemma helpdesk_switch_assign_roles (handler : Handler) (tc : ToolCall) :
  Name (Function tc) = "assign_roles" ->
  switch_arm switch_case handler tc
  = handler (PtrAssignRolesArgs (fst (json_Unmarshal (Arguments (Function tc)) zero_AssignRolesArgs))).
Proof. intros Hname. unfold switch_arm, switch_case. rewrite Hname. reflexivity. Qed.

Lemma helpdesk_switch_escalate_incident (handler : Handler) (tc : ToolCall) :
  Name (Function tc) = "escalate_incident" ->
  switch_arm switch_case handler tc
  = handler (PtrEscalateIncidentArgs (fst (json_Unmarshal (Arguments (Function tc)) zero_EscalateIncidentArgs))).
Proof. intros Hname. unfold switch_arm, switch_case. rewrite Hname. reflexivity. Qed.

Lemma helpdesk_switch_apply_patches (handler : Handler) (tc : ToolCall) :
  Name (Function tc) = "apply_patches" ->
  switch_arm switch_case handler tc
  = handler (PtrApplyPatchesArgs (fst (json_Unmarshal (Arguments (Function tc)) zero_ApplyPatchesArgs))).
Proof. intros Hname. unfold switch_arm, switch_case. rewrite Hname. reflexivity. Qed.

Lemma helpdesk_switch_send_user_response (handler : Handler) (tc : ToolCall) :
  Name (Function tc) = "send_user_response" ->
  switch_arm switch_case handler tc
  = handler (PtrSendUserResponseArgs (fst (json_Unmarshal (Arguments (Function tc)) zero_SendUserResponseArgs))).
Proof. intros Hname. unfold switch_arm, switch_case. rewrite Hname. reflexivity. Qed.

Lemma helpdesk_handlers_canned :
  handlers_canned toolHandlers switch_case helpdesk_result helpdesk_tool_line.
Proof.
  intros tc handler w Hlook. unfold toolHandlers in Hlook.
  unfold switch_arm, helpdesk_result, helpdesk_tool_line.
  map_literal_cases Hlook;
    match goal with Heq : Name (Function tc) = _ |- _ => rewrite Heq end;
    reflexivity.
Qed.

Lemma helpdesk_registered_names (name : string) :
  is_Some (toolHandlers !! name) <-> name ∈ helpdesk_tool_names.
Proof.
  unfold helpdesk_tool_names. split.
  - intros [handler Hlook]. unfold toolHandlers in Hlook.
    cbn [list_to_map foldr uncurry fst snd] in Hlook.
    repeat (rewrite lookup_insert in Hlook;
            destruct (decide _) as [<-|_] in Hlook; [name_in_literal|]).
    rewrite lookup_empty in Hlook. discriminate Hlook.
  - intros Hin. names_of_literal Hin; eexists; reflexivity.
Qed.

Lemma helpdesk_switch_names (name : string) :
  is_Some (switch_case name) <-> name ∈ helpdesk_tool_names.
Proof.
  unfold helpdesk_tool_names, switch_case. split.
  - intros Hsome.
    repeat (destruct (decide _) as [->|_] in Hsome; [name_in_literal|]).
    destruct Hsome as [? Hnone]. discriminate Hnone.
  - intros Hin. names_of_literal Hin; eexists; reflexivity.
Qed.

Lemma helpdesk_NewAgent_shape : NewAgent = react_graph assistant toolExecutor branch.
Proof. reflexivity. Qed.

Lemma helpdesk_endNodes : "tools" ∈ endNodes branch /\ END ∈ endNodes branch.
Proof. split; vm_compute; reflexivity. Qed.

Lemma helpdesk_assistant_step (state : AgentState) (w : World) :
  assistant state w
  = Ret match Generate (generate_calls w) (SystemMessage (sysPrompt state) :: Messages state) with
        | inl resp => inl {| AgentState_Ticket := AgentState_Ticket state; Messages := Messages state ++ [resp] |}
        | inr err => inr err
        end
        (model_called w).
Proof.
  unfold assistant, bind, chatModel_Generate.
  destruct (Generate _ _); reflexivity.
Qed.

Lemma helpdesk_branch_condition (order : option Ticket) (init : list Message)
    (resp : Message) (w : World) :
  condition branch {| AgentState_Ticket := order; Messages := init ++ [resp] |} w
  = Ret (inl match ToolCalls resp with [] => END | _ :: _ => "tools" end) w.
Proof.
  cbn [branch condition Messages].
  rewrite index_last with (x := resp) by apply last_snoc.
  unfold bind, ret, len.
  destruct (ToolCalls resp) as [|tc rest]; [reflexivity|].
  rewrite decide_True by (cbn [length]; lia). reflexivity.
Qed.

Lemma helpdesk_toolCall_result (tc : ToolCall) (msgs : list Message) (w : World) :
  is_Some (toolHandlers !! Name (Function tc)) ->
  toolCall toolHandlers switch_case tc msgs w
  = Ret (msgs ++ [ToolMessage (helpdesk_result (Name (Function tc))) (ID tc)])
        (add_stdout (helpdesk_tool_line tc) w).
Proof.
  intros [handler Hlook].
  exact (toolCall_registered _ _ _ _ _ _ _ _ None Hlook (helpdesk_handlers_canned _ _ _ Hlook)).
Qed.

Lemma helpdesk_toolExecutorWith_appends (handlers : gmap string (@Handler Args))
    (order : option Ticket) (init : list Message) (lastMsg : Message) (w : World) :
  handlers_return handlers switch_case ->
  exists appended w',
    toolExecutorWith handlers {| AgentState_Ticket := order; Messages := init ++ [lastMsg] |} w
    = Ret (inl {| AgentState_Ticket := order; Messages := (init ++ [lastMsg]) ++ appended |}) w'
    /\ ToolCallID <$> appended = ID <$> filter (registered handlers) (ToolCalls lastMsg)
    /\ Forall (fun m => Role m = Tool) appended.
Proof.
  intros Hret. unfold toolExecutorWith. cbn [Messages AgentState_Ticket].
  rewrite index_last with (x := lastMsg) by apply last_snoc.
  unfold bind at 1. unfold ret at 1.
  destruct (decide (len (ToolCalls lastMsg) = 0)%Z) as [Hzero|Hpos].
  - exists [], w. rewrite app_nil_r.
    destruct (ToolCalls lastMsg); [|discriminate Hzero].
    repeat split; constructor.
  - destruct (rangeToolCalls_appends handlers switch_case (ToolCalls lastMsg) Hret
                (init ++ [lastMsg]) w) as (appended & w' & Hrun & Hids & Hroles).
    exists appended, w'. erewrite bind_Ret by exact Hrun.
    repeat split; assumption.
Qed.

(** The executor on a log that ends with a message: the loop over its calls. *)
Lemma helpdesk_toolExecutorWith_loop (handlers : gmap string (@Handler Args))
    (order : option Ticket) (init : list Message) (lastMsg : Message)
    (msgs : list Message) (w w' : World) :
  rangeToolCalls handlers switch_case (ToolCalls lastMsg) (init ++ [lastMsg]) w
  = Ret msgs w' ->
  toolExecutorWith handlers {| AgentState_Ticket := order; Messages := init ++ [lastMsg] |} w
  = Ret (inl {| AgentState_Ticket := order; Messages := msgs |}) w'.
Proof.
  intros Hrun. unfold toolExecutorWith. cbn [Messages AgentState_Ticket].
  rewrite index_last with (x := lastMsg) by apply last_snoc.
  unfold bind at 1. unfold ret at 1.
  destruct (decide (len (ToolCalls lastMsg) = 0)%Z) as [Hzero|Hpos].
  - destruct (ToolCalls lastMsg); [|discriminate Hzero].
    cbn in Hrun. injection Hrun as <- <-. reflexivity.
  - erewrite bind_Ret by exact Hrun. reflexivity.
Qed.

Lemma helpdesk_toolExecutorWith_frame (handlers : gmap string (@Handler Args))
    (state : AgentState) (w : World) :
  match toolExecutorWith handlers state w with
  | Ret (inl state') _ =>
      AgentState_Ticket state' = AgentState_Ticket state
      /\ exists appended, Messages state' = Messages state ++ appended
  | Ret (inr _) _ => False
  | Panic _ _ | Exit _ _ => True
  end.
Proof.
  unfold toolExecutorWith, bind.
  destruct (index (Messages state) (len (Messages state) - 1) w) as [lastMsg w1| |]; [|exact I..].
  destruct (decide (len (ToolCalls lastMsg) = 0)%Z) as [Hzero|Hpos].
  - cbn. split; [reflexivity|]. exists []. now rewrite app_nil_r.
  - pose proof (rangeToolCalls_extends handlers switch_case (ToolCalls lastMsg)
                  (Messages state) w1) as Hext.
    destruct (rangeToolCalls handlers switch_case (ToolCalls lastMsg) (Messages state) w1)
      as [msgs w2| |]; [|exact I..].
    cbn. split; [reflexivity | exact Hext].
Qed.

(** Handlers that answer by name: one message per registered call. *)
Lemma helpdesk_toolExecutorWith_outcomes (handlers : gmap string (@Handler Args))
    (outcome : string -> string * option error) :
  handlers_answer handlers helpdesk_tool_names outcome ->
  forall (order : option Ticket) (init : list Message) (lastMsg : Message) (w : World),
  exists w',
    toolExecutorWith handlers {| AgentState_Ticket := order; Messages := init ++ [lastMsg] |} w
    = Ret (inl {| AgentState_Ticket := order;
                  Messages := (init ++ [lastMsg])
                              ++ outcome_messages handlers outcome (ToolCalls lastMsg) |}) w'.
Proof.
  intros Hanswer order init lastMsg w.
  destruct (rangeToolCalls_outcomes handlers switch_case helpdesk_tool_names outcome
              (ToolCalls lastMsg) (fun name => proj2 (helpdesk_switch_names name)) Hanswer
              (init ++ [lastMsg]) w) as (w' & Hrun).
  exists w'. now apply helpdesk_toolExecutorWith_loop.
Qed.

(** The complete effect of the executor of the package. *)
Lemma helpdesk_toolExecutor_effect (order : option Ticket) (init : list Message)
    (lastMsg : Message) (w : World) :
  toolExecutor {| AgentState_Ticket := order; Messages := init ++ [lastMsg] |} w
  = Ret (inl {| AgentState_Ticket := order;
                Messages := (init ++ [lastMsg])
                            ++ answers toolHandlers helpdesk_result (ToolCalls lastMsg) |})
        (with_output (not_found_names toolHandlers (ToolCalls lastMsg))
           (tool_lines toolHandlers helpdesk_tool_line (ToolCalls lastMsg)) w).
Proof.
  apply helpdesk_toolExecutorWith_loop, rangeToolCalls_effect, helpdesk_handlers_canned.
Qed.

Lemma helpdesk_run_from_assistant (fuel : nat) (order : option Ticket)
    (init : list Message) (resp : Message) (w : World) :
  run NewAgent (Datatypes.S fuel) "assistant"
      {| AgentState_Ticket := order; Messages := init ++ [resp] |} w
  = match ToolCalls resp with
    | [] => Ret (Done {| AgentState_Ticket := order; Messages := init ++ [resp] |}) w
    | _ :: _ =>
        (let* r := toolExecutor {| AgentState_Ticket := order; Messages := init ++ [resp] |} in
         match r with
         | inr e => ret (Failed e)
         | inl state' => run NewAgent fuel "tools" state'
         end) w
    end.
Proof.
  rewrite helpdesk_NewAgent_shape.
  pose proof (helpdesk_branch_condition order init resp w) as Hcond.
  destruct (ToolCalls resp) as [|tc rest] eqn:Hcalls.
  - erewrite run_from_assistant_END by (first [exact Hcond | apply helpdesk_endNodes]).
    reflexivity.
  - erewrite run_from_assistant_tools by (first [exact Hcond | apply helpdesk_endNodes]).
    erewrite after_tools_Ret by apply helpdesk_toolExecutor_effect.
    erewrite bind_Ret by apply helpdesk_toolExecutor_effect.
    reflexivity.
Qed.

(** The assistant node, entered with a step left. *)
Lemma helpdesk_after_assistant (fuel : nat) (state : AgentState) (w : World) :
  after_assistant assistant toolExecutor branch fuel state w
  = match Generate (generate_calls w) (SystemMessage (sysPrompt state) :: Messages state) with
    | inl resp =>
        run NewAgent fuel "assistant"
          {| AgentState_Ticket := AgentState_Ticket state; Messages := Messages state ++ [resp] |} (model_called w)
    | inr cause => Ret (Failed (model_error cause)) (model_called w)
    end.
Proof.
  erewrite after_assistant_Ret by apply helpdesk_assistant_step.
  destruct (Generate _ _); reflexivity.
Qed.

(** One round with a single registered tool, then the final answer. *)
Lemma helpdesk_round_trip (fuel : nat) (order : option Ticket) (init : list Message)
    (resp1 resp2 : Message) (tc : ToolCall) (w : World) :
  let state0 := {| AgentState_Ticket := order; Messages := init |} in
  let toolMsg := ToolMessage (helpdesk_result (Name (Function tc))) (ID tc) in
  Generate (generate_calls w) (SystemMessage (sysPrompt state0) :: init) = inl resp1 ->
  ToolCalls resp1 = [tc] ->
  is_Some (toolHandlers !! Name (Function tc)) ->
  Generate (Datatypes.S (generate_calls w))
           (SystemMessage (sysPrompt state0) :: (init ++ [resp1]) ++ [toolMsg])
  = inl resp2 ->
  ToolCalls resp2 = [] ->
  exists w',
    Invoke NewAgent (4 + fuel) state0 w
    = Ret (Done {| AgentState_Ticket := order;
                   Messages := ((init ++ [resp1]) ++ [toolMsg]) ++ [resp2] |}) w'
    /\ generate_calls w' = 2 + generate_calls w.
Proof.
  intros state0 toolMsg Hgen1 Hcalls1 Hreg Hgen2 Hcalls2.
  exists (model_called (add_stdout (helpdesk_tool_line tc) (model_called w))).
  split; [|reflexivity].
  unfold Invoke.
  change (4 + fuel) with (Datatypes.S (Datatypes.S (Datatypes.S (Datatypes.S fuel)))).
  rewrite helpdesk_NewAgent_shape, run_from_START, helpdesk_after_assistant.
  cbn [Messages AgentState_Ticket state0]. rewrite Hgen1.
  rewrite helpdesk_run_from_assistant, Hcalls1.
  assert (Hexec : toolExecutor {| AgentState_Ticket := order; Messages := init ++ [resp1] |} (model_called w)
                  = Ret (inl {| AgentState_Ticket := order; Messages := (init ++ [resp1]) ++ [toolMsg] |})
                        (add_stdout (helpdesk_tool_line tc) (model_called w))).
  { apply helpdesk_toolExecutorWith_loop. rewrite Hcalls1. cbn [rangeToolCalls].
    erewrite bind_Ret by (apply helpdesk_toolCall_result; exact Hreg). reflexivity. }
  erewrite bind_Ret by exact Hexec.
  rewrite helpdesk_NewAgent_shape, run_from_tools, helpdesk_after_assistant.
  cbn [Messages AgentState_Ticket generate_calls add_stdout model_called].
  change (sysPrompt {| AgentState_Ticket := order; Messages := (init ++ [resp1]) ++ [toolMsg] |})
    with (sysPrompt state0).
  rewrite Hgen2.
  rewrite helpdesk_run_from_assistant, Hcalls2.
  reflexivity.
Qed.

Lemma helpdesk_run_returns (fuel : nat) :
  forall (from : string) (state : AgentState) (w : World),
    helpdesk_standing from state ->
    exists r w', run NewAgent fuel from state w = Ret r w'.
Proof.
  rewrite helpdesk_NewAgent_shape.
  induction fuel as [|fuel IH]; intros from state w Hfrom.
  - destruct Hfrom as [->|[->|[-> Hnonempty]]].
    + eexists _, _. apply run_from_START_spent.
    + eexists _, _. apply run_from_tools_spent.
    + destruct state as [order msgs]. cbn [Messages] in Hnonempty.
      destruct (nonempty_snoc msgs Hnonempty) as (init & resp & ->).
      pose proof (helpdesk_branch_condition order init resp w) as Hcond.
      destruct (ToolCalls resp) as [|tc rest] eqn:Hcalls.
      * erewrite run_from_assistant_END by (first [exact Hcond | apply helpdesk_endNodes]).
        eexists _, _; reflexivity.
      * erewrite run_from_assistant_tools_spent
          by (first [exact Hcond | apply helpdesk_endNodes]).
        eexists _, _; reflexivity.
  - assert (Hassistant : exists r w',
              after_assistant assistant toolExecutor branch fuel state w = Ret r w').
    { rewrite helpdesk_after_assistant.
      destruct (Generate _ _) as [resp|err]; [|eexists _, _; reflexivity].
      rewrite helpdesk_NewAgent_shape.
      apply IH. right; right. split; [reflexivity|].
      cbn [Messages]. intros Hnil. now apply app_eq_nil in Hnil as [_ ?]. }
    destruct Hfrom as [->|[->|[-> Hnonempty]]].
    + rewrite run_from_START. exact Hassistant.
    + rewrite run_from_tools. exact Hassistant.
    + destruct state as [order msgs]. cbn [Messages] in Hnonempty.
      destruct (nonempty_snoc msgs Hnonempty) as (init & resp & ->).
      pose proof (helpdesk_branch_condition order init resp w) as Hcond.
      destruct (ToolCalls resp) as [|tc rest] eqn:Hcalls.
      * erewrite run_from_assistant_END by (first [exact Hcond | apply helpdesk_endNodes]).
        eexists _, _; reflexivity.
      * erewrite run_from_assistant_tools by (first [exact Hcond | apply helpdesk_endNodes]).
        erewrite after_tools_Ret by apply helpdesk_toolExecutor_effect.
        apply IH. right; left. reflexivity.
Qed.

(** What every run keeps. *)
Lemma helpdesk_run_invariant (fuel : nat) :
  forall (from : string) (state : AgentState) (w : World) (r : Result AgentState)
         (w' : World),
    helpdesk_standing from state ->
    run NewAgent fuel from state w = Ret r w' ->
    (exists names, stderr w' = stderr w ++ (not_found <$> names))
    /\ generate_calls w <= generate_calls w'
    /\ match r with
       | Done finalState =>
           AgentState_Ticket finalState = AgentState_Ticket state
           /\ (exists appended, Messages finalState = Messages state ++ appended)
           /\ (exists init resp, Messages finalState = init ++ [resp] /\ ToolCalls resp = [])
           /\ (from <> "assistant" -> generate_calls w < generate_calls w')
       | Failed err =>
           err = budget_error
           \/ (generate_calls w < generate_calls w'
               /\ exists input cause,
                    Generate (pred (generate_calls w')) input = inr cause
                    /\ err = model_error cause)
       end.
Proof.
  rewrite helpdesk_NewAgent_shape.
  assert (Hquiet : forall w0 : World, exists names, stderr w0 = stderr w0 ++ (not_found <$> names)).
  { intros w0. exists []. cbn. now rewrite app_nil_r. }
  induction fuel as [|fuel IH]; intros from state w r w' Hfrom Hrun.
  - destruct Hfrom as [->|[->|[-> Hnonempty]]].
    + rewrite run_from_START_spent in Hrun. injection Hrun as <- <-.
      split; [apply Hquiet|]. split; [lia|]. left. reflexivity.
    + rewrite run_from_tools_spent in Hrun. injection Hrun as <- <-.
      split; [apply Hquiet|]. split; [lia|]. left. reflexivity.
    + destruct state as [order msgs]. cbn [Messages] in Hnonempty.
      destruct (nonempty_snoc msgs Hnonempty) as (init & resp & ->).
      pose proof (helpdesk_branch_condition order init resp w) as Hcond.
      destruct (ToolCalls resp) as [|tc rest] eqn:Hcalls.
      * erewrite run_from_assistant_END in Hrun
          by (first [exact Hcond | apply helpdesk_endNodes]).
        injection Hrun as <- <-. cbn [Messages AgentState_Ticket].
        split; [apply Hquiet|]. split; [lia|].
        split; [reflexivity|]. split; [exists []; now rewrite app_nil_r|].
        split; [eauto | congruence].
      * erewrite run_from_assistant_tools_spent in Hrun
          by (first [exact Hcond | apply helpdesk_endNodes]).
        injection Hrun as <- <-.
        split; [apply Hquiet|]. split; [lia|]. left. reflexivity.
  - assert (Hassistant :
              after_assistant assistant toolExecutor branch fuel state w = Ret r w' ->
              (exists names, stderr w' = stderr w ++ (not_found <$> names))
              /\ generate_calls w < generate_calls w'
              /\ match r with
                 | Done finalState =>
                     AgentState_Ticket finalState = AgentState_Ticket state
                     /\ (exists appended, Messages finalState = Messages state ++ appended)
                     /\ (exists init resp,
                           Messages finalState = init ++ [resp] /\ ToolCalls resp = [])
                 | Failed err =>
                     err = budget_error
                     \/ (exists input cause,
                           Generate (pred (generate_calls w')) input = inr cause
                           /\ err = model_error cause)
                 end).
    { rewrite helpdesk_after_assistant.
      destruct (Generate (generate_calls w) _) as [resp|err] eqn:Hgen.
      - rewrite helpdesk_NewAgent_shape. intros Hrest.
        apply IH in Hrest as (Herr & Hcalls & Hres).
        2: { right; right. split; [reflexivity|].
             cbn [Messages]. intros Hnil. now apply app_eq_nil in Hnil as [_ ?]. }
        cbn [model_called stderr generate_calls] in Herr, Hcalls.
        split; [exact Herr|]. split; [lia|].
        destruct r as [finalState|cause].
        + destruct Hres as (Hrecord & (appended & Happ) & Hlast & _).
          cbn [Messages AgentState_Ticket] in Hrecord, Happ.
          split; [exact Hrecord|]. split; [|exact Hlast].
          exists ([resp] ++ appended). now rewrite app_assoc.
        + destruct Hres as [Hbudget|(_ & Hinput)]; [left; exact Hbudget | right; exact Hinput].
      - intros [= <- <-]. cbn [model_called stderr generate_calls Nat.pred].
        split; [apply (Hquiet (model_called w))|]. split; [lia|]. right. eauto. }
    destruct Hfrom as [->|[->|[-> Hnonempty]]].
    + rewrite run_from_START in Hrun.
      destruct (Hassistant Hrun) as (Herr & Hcalls & Hres).
      split; [exact Herr|]. split; [lia|].
      destruct r as [finalState|cause].
      * destruct Hres as (? & ? & ?). repeat split; try assumption. intros _; lia.
      * destruct Hres as [Hbudget|Hinput]; [left; exact Hbudget | right; split; [lia | exact Hinput]].
    + rewrite run_from_tools in Hrun.
      destruct (Hassistant Hrun) as (Herr & Hcalls & Hres).
      split; [exact Herr|]. split; [lia|].
      destruct r as [finalState|cause].
      * destruct Hres as (? & ? & ?). repeat split; try assumption. intros _; lia.
      * destruct Hres as [Hbudget|Hinput]; [left; exact Hbudget | right; split; [lia | exact Hinput]].
    + clear Hassistant.
      destruct state as [order msgs]. cbn [Messages] in Hnonempty.
      destruct (nonempty_snoc msgs Hnonempty) as (init & resp & ->).
      pose proof (helpdesk_branch_condition order init resp w) as Hcond.
      destruct (ToolCalls resp) as [|tc rest] eqn:Hcalls.
      * erewrite run_from_assistant_END in Hrun
          by (first [exact Hcond | apply helpdesk_endNodes]).
        injection Hrun as <- <-. cbn [Messages AgentState_Ticket].
        split; [apply Hquiet|]. split; [lia|].
        split; [reflexivity|]. split; [exists []; now rewrite app_nil_r|].
        split; [eauto | congruence].
      * erewrite run_from_assistant_tools in Hrun
          by (first [exact Hcond | apply helpdesk_endNodes]).
        erewrite after_tools_Ret in Hrun by apply helpdesk_toolExecutor_effect.
        apply IH in Hrun as ((names & Herr) & Hcount & Hres); [|right; left; reflexivity].
        cbn [with_output stderr generate_calls] in Herr, Hcount.
        split.
        { exists (not_found_names toolHandlers (ToolCalls resp) ++ names).
          rewrite Herr, fmap_app, app_assoc. reflexivity. }
        split; [exact Hcount|].
        destruct r as [finalState|cause].
        -- destruct Hres as (Hrecord & (appended & Happ) & Hlast & Hstrict).
           cbn [Messages AgentState_Ticket] in Hrecord, Happ.
           split; [exact Hrecord|]. split; [|split; [exact Hlast | congruence]].
           cbn [Messages]. eexists. rewrite Happ, <- app_assoc. reflexivity.
        -- exact Hres.
Qed.

(** While the model keeps asking for tools, a run ends only when the budget
    does, after the model calls the budget allows. *)
Lemma helpdesk_run_keeps_asking (fuel : nat) :
  always_asks_for_tools ->
  forall (from : string) (state : AgentState) (w : World),
    (from = START \/ from = "tools" ->
     exists w', run NewAgent fuel from state w = Ret (Failed budget_error) w'
                /\ generate_calls w' = generate_calls w + Nat.div2 (Datatypes.S fuel))
    /\ (from = "assistant" ->
        (exists init resp, Messages state = init ++ [resp] /\ ToolCalls resp <> []) ->
        exists w', run NewAgent fuel from state w = Ret (Failed budget_error) w'
                   /\ generate_calls w' = generate_calls w + Nat.div2 fuel).
Proof.
  intros Hasks. rewrite helpdesk_NewAgent_shape.
  induction fuel as [|fuel IH]; intros from state w.
  - split.
    + intros [-> | ->]; exists w; (split; [reflexivity | cbn; lia]).
    + intros -> (init & resp & Hmsgs & Hcalls).
      destruct state as [order msgs]. cbn [Messages] in Hmsgs. subst msgs.
      pose proof (helpdesk_branch_condition order init resp w) as Hcond.
      destruct (ToolCalls resp) as [|tc rest] eqn:Htcs; [congruence|].
      exists w. split; [|cbn; lia].
      apply run_from_assistant_tools_spent; [exact Hcond | apply helpdesk_endNodes].
  - split.
    + assert (Hassistant : exists w',
                after_assistant assistant toolExecutor branch fuel state w
                = Ret (Failed budget_error) w'
                /\ generate_calls w' = generate_calls w + Nat.div2 (Datatypes.S (Datatypes.S fuel))).
      { rewrite helpdesk_after_assistant.
        destruct (Hasks (generate_calls w) (SystemMessage (sysPrompt state) :: Messages state))
          as (resp & -> & Hcalls).
        rewrite helpdesk_NewAgent_shape.
        destruct (proj2 (IH "assistant"
                           {| AgentState_Ticket := AgentState_Ticket state; Messages := Messages state ++ [resp] |}
                           (model_called w)) eq_refl) as (w' & Hrun & Hcount).
        { cbn [Messages]. eauto. }
        exists w'. split; [exact Hrun|].
        rewrite Hcount. cbn [generate_calls model_called Nat.div2]. lia. }
      intros [-> | ->]; [rewrite run_from_START | rewrite run_from_tools]; exact Hassistant.
    + intros -> (init & resp & Hmsgs & Hcalls).
      destruct state as [order msgs]. cbn [Messages] in Hmsgs. subst msgs.
      pose proof (helpdesk_branch_condition order init resp w) as Hcond.
      destruct (ToolCalls resp) as [|tc rest] eqn:Htcs; [congruence|].
      erewrite run_from_assistant_tools by (first [exact Hcond | apply helpdesk_endNodes]).
      erewrite after_tools_Ret by apply helpdesk_toolExecutor_effect.
      destruct (proj1 (IH "tools"
                         {| AgentState_Ticket := order;
                            Messages := (init ++ [resp])
                                        ++ answers toolHandlers helpdesk_result (ToolCalls resp) |}
                         (with_output (not_found_names toolHandlers (ToolCalls resp))
                            (tool_lines toolHandlers helpdesk_tool_line (ToolCalls resp)) w))
                  (or_intror eq_refl)) as (w' & Hrun & Hcount).
      exists w'. split; [exact Hrun|].
      rewrite Hcount. reflexivity.
Qed.

(** The three readings of a run from START. *)
Lemma helpdesk_Invoke_contract (fuel : nat) (initialState : AgentState) (w : World) :
  done_keeps AgentState_Ticket Messages initialState w (Invoke NewAgent fuel initialState w)
  /\ failed_by_budget_or_last_call w (Invoke NewAgent fuel initialState w)
  /\ returns_with_logger_lines w (Invoke NewAgent fuel initialState w).
Proof.
  unfold Invoke.
  destruct (helpdesk_run_returns fuel START initialState w) as (r & w' & Hrun);
    [left; reflexivity|].
  destruct (helpdesk_run_invariant fuel START initialState w r w') as (Herr & Hcount & Hres);
    [left; reflexivity | exact Hrun |].
  rewrite Hrun. unfold done_keeps, failed_by_budget_or_last_call, returns_with_logger_lines.
  destruct r as [finalState|cause]; cbn.
  - destruct Hres as (Hrecord & (appended & Happ) & Hlast & Hstrict).
    repeat split; try assumption; try exact I.
    + exists appended. exact Happ.
    + apply Hstrict. discriminate.
  - repeat split; try assumption; exact I.
Qed.

End HelpdeskFacts.

(** ** package soc *)
Section SocFacts.
Import compose soc.
Context `{Recover} `{ChatModel} `{!Marshal Incident}.
Context `{!Unmarshal LookupThreatIntelArgs} `{!Unmarshal QueryLogsArgs}.
Context `{!Unmarshal TriageIncidentArgs} `{!Unmarshal IsolateHostArgs}.
Context `{!Unmarshal SendAnalystResponseArgs}.

Lemma soc_handlers_return : handlers_return toolHandlers switch_case.
Proof.
  intros tc handler w Hlook. unfold toolHandlers in Hlook.
  solve_handlers_return tc Hlook.
Qed.

Lemma soc_switch_lookup_threat_intel (handler : Handler) (tc : ToolCall) :
  Name (Function tc) = "lookup_threat_intel" ->
  switch_arm switch_case handler tc
  = handler (PtrLookupThreatIntelArgs (fst (json_Unmarshal (Arguments (Function tc)) zero_LookupThreatIntelArgs))).
Proof. intros Hname. unfold switch_arm, switch_case. rewrite Hname. reflexivity. Qed.

Lemma soc_switch_query_logs (handler : Handler) (tc : ToolCall) :
  Name (Function tc) = "query_logs" ->
  switch_arm switch_case handler tc
  = handler (PtrQueryLogsArgs (fst (json_Unmarshal (Arguments (Function tc)) zero_QueryLogsArgs))).
Proof. intros Hname. unfold switch_arm, switch_case. rewrite Hname. reflexivity. Qed.

Lemma soc_switch_triage_incident (handler : Handler) (tc : ToolCall) :
  Name (Function tc) = "triage_incident" ->
  switch_arm switch_case handler tc
  = handler (PtrTriageIncidentArgs (fst (json_Unmarshal (Arguments (Function tc)) zero_TriageIncidentArgs))).
Proof. intros Hname. unfold switch_arm, switch_case. rewrite Hname. reflexivity. Qed.

Lemma soc_switch_isolate_host (handler : Handler) (tc : ToolCall) :
  Name (Function tc) = "isolate_host" ->
  switch_arm switch_case handler tc
  = handler (PtrIsolateHostArgs (fst (json_Unmarshal (Arguments (Function tc)) zero_IsolateHostArgs))).
Proof. intros Hname. unfold switch_arm, switch_case. rewrite Hname. reflexivity. Qed.

Lemma soc_switch_send_analyst_response (handler : Handler) (tc : ToolCall) :
  Name (Function tc) = "send_analyst_response" ->
  switch_arm switch_case handler tc
  = handler (PtrSendAnalystResponseArgs (fst (json_Unmarshal (Arguments (Function tc)) zero_SendAnalystResponseArgs))).
Proof. intros Hname. unfold switch_arm, switch_case. rewrite Hname. reflexivity. Qed.

Lemma soc_handlers_canned :
  handlers_canned toolHandlers switch_case soc_result soc_tool_line.
Proof.
  intros tc handler w Hlook. unfold toolHandlers in Hlook.
  unfold switch_arm, soc_result, soc_tool_line.
  map_literal_cases Hlook;
    match goal with Heq : Name (Function tc) = _ |- _ => rewrite Heq end;
    reflexivity.
Qed.

Lemma soc_registered_names (name : string) :
  is_Some (toolHandlers !! name) <-> name ∈ soc_tool_names.
Proof.
  unfold soc_tool_names. split.
  - intros [handler Hlook]. unfold toolHandlers in Hlook.
    cbn [list_to_map foldr uncurry fst snd] in Hlook.
    repeat (rewrite lookup_insert in Hlook;
            destruct (decide _) as [<-|_] in Hlook; [name_in_literal|]).
    rewrite lookup_empty in Hlook. discriminate Hlook.
  - intros Hin. names_of_literal Hin; eexists; reflexivity.
Qed.

Lemma soc_switch_names (name : string) :
  is_Some (switch_case name) <-> name ∈ soc_tool_names.
Proof.
  unfold soc_tool_names, switch_case. split.
  - intros Hsome.
    repeat (destruct (decide _) as [->|_] in Hsome; [name_in_literal|]).
    destruct Hsome as [? Hnone]. discriminate Hnone.
  - intros Hin. names_of_literal Hin; eexists; reflexivity.
Qed.

Lemma soc_NewAgent_shape : NewAgent = react_graph assistant toolExecutor branch.
Proof. reflexivity. Qed.

Lemma soc_endNodes : "tools" ∈ endNodes branch /\ END ∈ endNodes branch.
Proof. split; vm_compute; reflexivity. Qed.

Lemma soc_assistant_step (state : AgentState) (w : World) :
  assistant state w
  = Ret match Generate (generate_calls w) (SystemMessage (sysPrompt state) :: Messages state) with
        | inl resp => inl {| AgentState_Incident := AgentState_Incident state; Messages := Messages state ++ [resp] |}
        | inr err => inr err
        end
        (model_called w).
Proof.
  unfold assistant, bind, chatModel_Generate.
  destruct (Generate _ _); reflexivity.
Qed.

Lemma soc_branch_condition (order : option Incident) (init : list Message)
    (resp : Message) (w : World) :
  condition branch {| AgentState_Incident := order; Messages := init ++ [resp] |} w
  = Ret (inl match ToolCalls resp with [] => END | _ :: _ => "tools" end) w.
Proof.
  cbn [branch condition Messages].
  rewrite index_last with (x := resp) by apply last_snoc.
  unfold bind, ret, len.
  destruct (ToolCalls resp) as [|tc rest]; [reflexivity|].
  rewrite decide_True by (cbn [length]; lia). reflexivity.
Qed.

Lemma soc_toolCall_result (tc : ToolCall) (msgs : list Message) (w : World) :
  is_Some (toolHandlers !! Name (Function tc)) ->
  toolCall toolHandlers switch_case tc msgs w
  = Ret (msgs ++ [ToolMessage (soc_result (Name (Function tc))) (ID tc)])
        (add_stdout (soc_tool_line tc) w).
Proof.
  intros [handler Hlook].
  exact (toolCall_registered _ _ _ _ _ _ _ _ None Hlook (soc_handlers_canned _ _ _ Hlook)).
Qed.

Lemma soc_toolExecutorWith_appends (handlers : gmap string (@Handler Args))
    (order : option Incident) (init : list Message) (lastMsg : Message) (w : World) :
  handlers_return handlers switch_case ->
  exists appended w',
    toolExecutorWith handlers {| AgentState_Incident := order; Messages := init ++ [lastMsg] |} w
    = Ret (inl {| AgentState_Incident := order; Messages := (init ++ [lastMsg]) ++ appended |}) w'
    /\ ToolCallID <$> appended = ID <$> filter (registered handlers) (ToolCalls lastMsg)
    /\ Forall (fun m => Role m = Tool) appended.
Proof.
  intros Hret. unfold toolExecutorWith. cbn [Messages AgentState_Incident].
  rewrite index_last with (x := lastMsg) by apply last_snoc.
  unfold bind at 1. unfold ret at 1.
  destruct (decide (len (ToolCalls lastMsg) = 0)%Z) as [Hzero|Hpos].
  - exists [], w. rewrite app_nil_r.
    destruct (ToolCalls lastMsg); [|discriminate Hzero].
    repeat split; constructor.
  - destruct (rangeToolCalls_appends handlers switch_case (ToolCalls lastMsg) Hret
                (init ++ [lastMsg]) w) as (appended & w' & Hrun & Hids & Hroles).
    exists appended, w'. erewrite bind_Ret by exact Hrun.
    repeat split; assumption.
Qed.

(** The executor on a log that ends with a message: the loop over its calls. *)
Lemma soc_toolExecutorWith_loop (handlers : gmap string (@Handler Args))
    (order : option Incident) (init : list Message) (lastMsg : Message)
    (msgs : list Message) (w w' : World) :
  rangeToolCalls handlers switch_case (ToolCalls lastMsg) (init ++ [lastMsg]) w
  = Ret msgs w' ->
  toolExecutorWith handlers {| AgentState_Incident := order; Messages := init ++ [lastMsg] |} w
  = Ret (inl {| AgentState_Incident := order; Messages := msgs |}) w'.
Proof.
  intros Hrun. unfold toolExecutorWith. cbn [Messages AgentState_Incident].
  rewrite index_last with (x := lastMsg) by apply last_snoc.
  unfold bind at 1. unfold ret at 1.
  destruct (decide (len (ToolCalls lastMsg) = 0)%Z) as [Hzero|Hpos].
  - destruct (ToolCalls lastMsg); [|discriminate Hzero].
    cbn in Hrun. injection Hrun as <- <-. reflexivity.
  - erewrite bind_Ret by exact Hrun. reflexivity.
Qed.

Lemma soc_toolExecutorWith_frame (handlers : gmap string (@Handler Args))
    (state : AgentState) (w : World) :
  match toolExecutorWith handlers state w with
  | Ret (inl state') _ =>
      AgentState_Incident state' = AgentState_Incident state
      /\ exists appended, Messages state' = Messages state ++ appended
  | Ret (inr _) _ => False
  | Panic _ _ | Exit _ _ => True
  end.
Proof.
  unfold toolExecutorWith, bind.
  destruct (index (Messages state) (len (Messages state) - 1) w) as [lastMsg w1| |]; [|exact I..].
  destruct (decide (len (ToolCalls lastMsg) = 0)%Z) as [Hzero|Hpos].
  - cbn. split; [reflexivity|]. exists []. now rewrite app_nil_r.
  - pose proof (rangeToolCalls_extends handlers switch_case (ToolCalls lastMsg)
                  (Messages state) w1) as Hext.
    destruct (rangeToolCalls handlers switch_case (ToolCalls lastMsg) (Messages state) w1)
      as [msgs w2| |]; [|exact I..].
    cbn. split; [reflexivity | exact Hext].
Qed.

(** Handlers that answer by name: one message per registered call. *)
Lemma soc_toolExecutorWith_outcomes (handlers : gmap string (@Handler Args))
    (outcome : string -> string * option error) :
  handlers_answer handlers soc_tool_names outcome ->
  forall (order : option Incident) (init : list Message) (lastMsg : Message) (w : World),
  exists w',
    toolExecutorWith handlers {| AgentState_Incident := order; Messages := init ++ [lastMsg] |} w
    = Ret (inl {| AgentState_Incident := order;
                  Messages := (init ++ [lastMsg])
                              ++ outcome_messages handlers outcome (ToolCalls lastMsg) |}) w'.
Proof.
  intros Hanswer order init lastMsg w.
  destruct (rangeToolCalls_outcomes handlers switch_case soc_tool_names outcome
              (ToolCalls lastMsg) (fun name => proj2 (soc_switch_names name)) Hanswer
              (init ++ [lastMsg]) w) as (w' & Hrun).
  exists w'. now apply soc_toolExecutorWith_loop.
Qed.

(** The complete effect of the executor of the package. *)
Lemma soc_toolExecutor_effect (order : option Incident) (init : list Message)
    (lastMsg : Message) (w : World) :
  toolExecutor {| AgentState_Incident := order; Messages := init ++ [lastMsg] |} w
  = Ret (inl {| AgentState_Incident := order;
                Messages := (init ++ [lastMsg])
                            ++ answers toolHandlers soc_result (ToolCalls lastMsg) |})
        (with_output (not_found_names toolHandlers (ToolCalls lastMsg))
           (tool_lines toolHandlers soc_tool_line (ToolCalls lastMsg)) w).
Proof.
  apply soc_toolExecutorWith_loop, rangeToolCalls_effect, soc_handlers_canned.
Qed.

Lemma soc_run_from_assistant (fuel : nat) (order : option Incident)
    (init : list Message) (resp : Message) (w : World) :
  run NewAgent (Datatypes.S fuel) "assistant"
      {| AgentState_Incident := order; Messages := init ++ [resp] |} w
  = match ToolCalls resp with
    | [] => Ret (Done {| AgentState_Incident := order; Messages := init ++ [resp] |}) w
    | _ :: _ =>
        (let* r := toolExecutor {| AgentState_Incident := order; Messages := init ++ [resp] |} in
         match r with
         | inr e => ret (Failed e)
         | inl state' => run NewAgent fuel "tools" state'
         end) w
    end.
Proof.
  rewrite soc_NewAgent_shape.
  pose proof (soc_branch_condition order init resp w) as Hcond.
  destruct (ToolCalls resp) as [|tc rest] eqn:Hcalls.
  - erewrite run_from_assistant_END by (first [exact Hcond | apply soc_endNodes]).
    reflexivity.
  - erewrite run_from_assistant_tools by (first [exact Hcond | apply soc_endNodes]).
    erewrite after_tools_Ret by apply soc_toolExecutor_effect.
    erewrite bind_Ret by apply soc_toolExecutor_effect.
    reflexivity.
Qed.

(** The assistant node, entered with a step left. *)
Lemma soc_after_assistant (fuel : nat) (state : AgentState) (w : World) :
  after_assistant assistant toolExecutor branch fuel state w
  = match Generate (generate_calls w) (SystemMessage (sysPrompt state) :: Messages state) with
    | inl resp =>
        run NewAgent fuel "assistant"
          {| AgentState_Incident := AgentState_Incident state; Messages := Messages state ++ [resp] |} (model_called w)
    | inr cause => Ret (Failed (model_error cause)) (model_called w)
    end.
Proof.
  erewrite after_assistant_Ret by apply soc_assistant_step.
  destruct (Generate _ _); reflexivity.
Qed.

(** One round with a single registered tool, then the final answer. *)
Lemma soc_round_trip (fuel : nat) (order : option Incident) (init : list Message)
    (resp1 resp2 : Message) (tc : ToolCall) (w : World) :
  let state0 := {| AgentState_Incident := order; Messages := init |} in
  let toolMsg := ToolMessage (soc_result (Name (Function tc))) (ID tc) in
  Generate (generate_calls w) (SystemMessage (sysPrompt state0) :: init) = inl resp1 ->
  ToolCalls resp1 = [tc] ->
  is_Some (toolHandlers !! Name (Function tc)) ->
  Generate (Datatypes.S (generate_calls w))
           (SystemMessage (sysPrompt state0) :: (init ++ [resp1]) ++ [toolMsg])
  = inl resp2 ->
  ToolCalls resp2 = [] ->
  exists w',
    Invoke NewAgent (4 + fuel) state0 w
    = Ret (Done {| AgentState_Incident := order;
                   Messages := ((init ++ [resp1]) ++ [toolMsg]) ++ [resp2] |}) w'
    /\ generate_calls w' = 2 + generate_calls w.
Proof.
  intros state0 toolMsg Hgen1 Hcalls1 Hreg Hgen2 Hcalls2.
  exists (model_called (add_stdout (soc_tool_line tc) (model_called w))).
  split; [|reflexivity].
  unfold Invoke.
  change (4 + fuel) with (Datatypes.S (Datatypes.S (Datatypes.S (Datatypes.S fuel)))).
  rewrite soc_NewAgent_shape, run_from_START, soc_after_assistant.
  cbn [Messages AgentState_Incident state0]. rewrite Hgen1.
  rewrite soc_run_from_assistant, Hcalls1.
  assert (Hexec : toolExecutor {| AgentState_Incident := order; Messages := init ++ [resp1] |} (model_called w)
                  = Ret (inl {| AgentState_Incident := order; Messages := (init ++ [resp1]) ++ [toolMsg] |})
                        (add_stdout (soc_tool_line tc) (model_called w))).
  { apply soc_toolExecutorWith_loop. rewrite Hcalls1. cbn [rangeToolCalls].
    erewrite bind_Ret by (apply soc_toolCall_result; exact Hreg). reflexivity. }
  erewrite bind_Ret by exact Hexec.
  rewrite soc_NewAgent_shape, run_from_tools, soc_after_assistant.
  cbn [Messages AgentState_Incident generate_calls add_stdout model_called].
  change (sysPrompt {| AgentState_Incident := order; Messages := (init ++ [resp1]) ++ [toolMsg] |})
    with (sysPrompt state0).
  rewrite Hgen2.
  rewrite soc_run_from_assistant, Hcalls2.
  reflexivity.
Qed.

Lemma soc_run_returns (fuel : nat) :
  forall (from : string) (state : AgentState) (w : World),
    soc_standing from state ->
    exists r w', run NewAgent fuel from state w = Ret r w'.
Proof.
  rewrite soc_NewAgent_shape.
  induction fuel as [|fuel IH]; intros from state w Hfrom.
  - destruct Hfrom as [->|[->|[-> Hnonempty]]].
    + eexists _, _. apply run_from_START_spent.
    + eexists _, _. apply run_from_tools_spent.
    + destruct state as [order msgs]. cbn [Messages] in Hnonempty.
      destruct (nonempty_snoc msgs Hnonempty) as (init & resp & ->).
      pose proof (soc_branch_condition order init resp w) as Hcond.
      destruct (ToolCalls resp) as [|tc rest] eqn:Hcalls.
      * erewrite run_from_assistant_END by (first [exact Hcond | apply soc_endNodes]).
        eexists _, _; reflexivity.
      * erewrite run_from_assistant_tools_spent
          by (first [exact Hcond | apply soc_endNodes]).
        eexists _, _; reflexivity.
  - assert (Hassistant : exists r w',
              after_assistant assistant toolExecutor branch fuel state w = Ret r w').
    { rewrite soc_after_assistant.
      destruct (Generate _ _) as [resp|err]; [|eexists _, _; reflexivity].
      rewrite soc_NewAgent_shape.
      apply IH. right; right. split; [reflexivity|].
      cbn [Messages]. intros Hnil. now apply app_eq_nil in Hnil as [_ ?]. }
    destruct Hfrom as [->|[->|[-> Hnonempty]]].
    + rewrite run_from_START. exact Hassistant.
    + rewrite run_from_tools. exact Hassistant.
    + destruct state as [order msgs]. cbn [Messages] in Hnonempty.
      destruct (nonempty_snoc msgs Hnonempty) as (init & resp & ->).
      pose proof (soc_branch_condition order init resp w) as Hcond.
      destruct (ToolCalls resp) as [|tc rest] eqn:Hcalls.
      * erewrite run_from_assistant_END by (first [exact Hcond | apply soc_endNodes]).
        eexists _, _; reflexivity.
      * erewrite run_from_assistant_tools by (first [exact Hcond | apply soc_endNodes]).
        erewrite after_tools_Ret by apply soc_toolExecutor_effect.
        apply IH. right; left. reflexivity.
Qed.

(** What every run keeps. *)
Lemma soc_run_invariant (fuel : nat) :
  forall (from : string) (state : AgentState) (w : World) (r : Result AgentState)
         (w' : World),
    soc_standing from state ->
    run NewAgent fuel from state w = Ret r w' ->
    (exists names, stderr w' = stderr w ++ (not_found <$> names))
    /\ generate_calls w <= generate_calls w'
    /\ match r with
       | Done finalState =>
           AgentState_Incident finalState = AgentState_Incident state
           /\ (exists appended, Messages finalState = Messages state ++ appended)
           /\ (exists init resp, Messages finalState = init ++ [resp] /\ ToolCalls resp = [])
           /\ (from <> "assistant" -> generate_calls w < generate_calls w')
       | Failed err =>
           err = budget_error
           \/ (generate_calls w < generate_calls w'
               /\ exists input cause,
                    Generate (pred (generate_calls w')) input = inr cause
                    /\ err = model_error cause)
       end.
Proof.
  rewrite soc_NewAgent_shape.
  assert (Hquiet : forall w0 : World, exists names, stderr w0 = stderr w0 ++ (not_found <$> names)).
  { intros w0. exists []. cbn. now rewrite app_nil_r. }
  induction fuel as [|fuel IH]; intros from state w r w' Hfrom Hrun.
  - destruct Hfrom as [->|[->|[-> Hnonempty]]].
    + rewrite run_from_START_spent in Hrun. injection Hrun as <- <-.
      split; [apply Hquiet|]. split; [lia|]. left. reflexivity.
    + rewrite run_from_tools_spent in Hrun. injection Hrun as <- <-.
      split; [apply Hquiet|]. split; [lia|]. left. reflexivity.
    + destruct state as [order msgs]. cbn [Messages] in Hnonempty.
      destruct (nonempty_snoc msgs Hnonempty) as (init & resp & ->).
      pose proof (soc_branch_condition order init resp w) as Hcond.
      destruct (ToolCalls resp) as [|tc rest] eqn:Hcalls.
      * erewrite run_from_assistant_END in Hrun
          by (first [exact Hcond | apply soc_endNodes]).
        injection Hrun as <- <-. cbn [Messages AgentState_Incident].
        split; [apply Hquiet|]. split; [lia|].
        split; [reflexivity|]. split; [exists []; now rewrite app_nil_r|].
        split; [eauto | congruence].
      * erewrite run_from_assistant_tools_spent in Hrun
          by (first [exact Hcond | apply soc_endNodes]).
        injection Hrun as <- <-.
        split; [apply Hquiet|]. split; [lia|]. left. reflexivity.
  - assert (Hassistant :
              after_assistant assistant toolExecutor branch fuel state w = Ret r w' ->
              (exists names, stderr w' = stderr w ++ (not_found <$> names))
              /\ generate_calls w < generate_calls w'
              /\ match r with
                 | Done finalState =>
                     AgentState_Incident finalState = AgentState_Incident state
                     /\ (exists appended, Messages finalState = Messages state ++ appended)
                     /\ (exists init resp,
                           Messages finalState = init ++ [resp] /\ ToolCalls resp = [])
                 | Failed err =>
                     err = budget_error
                     \/ (exists input cause,
                           Generate (pred (generate_calls w')) input = inr cause
                           /\ err = model_error cause)
                 end).
    { rewrite soc_after_assistant.
      destruct (Generate (generate_calls w) _) as [resp|err] eqn:Hgen.
      - rewrite soc_NewAgent_shape. intros Hrest.
        apply IH in Hrest as (Herr & Hcalls & Hres).
        2: { right; right. split; [reflexivity|].
             cbn [Messages]. intros Hnil. now apply app_eq_nil in Hnil as [_ ?]. }
        cbn [model_called stderr generate_calls] in Herr, Hcalls.
        split; [exact Herr|]. split; [lia|].
        destruct r as [finalState|cause].
        + destruct Hres as (Hrecord & (appended & Happ) & Hlast & _).
          cbn [Messages AgentState_Incident] in Hrecord, Happ.
          split; [exact Hrecord|]. split; [|exact Hlast].
          exists ([resp] ++ appended). now rewrite app_assoc.
        + destruct Hres as [Hbudget|(_ & Hinput)]; [left; exact Hbudget | right; exact Hinput].
      - intros [= <- <-]. cbn [model_called stderr generate_calls Nat.pred].
        split; [apply (Hquiet (model_called w))|]. split; [lia|]. right. eauto. }
    destruct Hfrom as [->|[->|[-> Hnonempty]]].
    + rewrite run_from_START in Hrun.
      destruct (Hassistant Hrun) as (Herr & Hcalls & Hres).
      split; [exact Herr|]. split; [lia|].
      destruct r as [finalState|cause].
      * destruct Hres as (? & ? & ?). repeat split; try assumption. intros _; lia.
      * destruct Hres as [Hbudget|Hinput]; [left; exact Hbudget | right; split; [lia | exact Hinput]].
    + rewrite run_from_tools in Hrun.
      destruct (Hassistant Hrun) as (Herr & Hcalls & Hres).
      split; [exact Herr|]. split; [lia|].
      destruct r as [finalState|cause].
      * destruct Hres as (? & ? & ?). repeat split; try assumption. intros _; lia.
      * destruct Hres as [Hbudget|Hinput]; [left; exact Hbudget | right; split; [lia | exact Hinput]].
    + clear Hassistant.
      destruct state as [order msgs]. cbn [Messages] in Hnonempty.
      destruct (nonempty_snoc msgs Hnonempty) as (init & resp & ->).
      pose proof (soc_branch_condition order init resp w) as Hcond.
      destruct (ToolCalls resp) as [|tc rest] eqn:Hcalls.
      * erewrite run_from_assistant_END in Hrun
          by (first [exact Hcond | apply soc_endNodes]).
        injection Hrun as <- <-. cbn [Messages AgentState_Incident].
        split; [apply Hquiet|]. split; [lia|].
        split; [reflexivity|]. split; [exists []; now rewrite app_nil_r|].
        split; [eauto | congruence].
      * erewrite run_from_assistant_tools in Hrun
          by (first [exact Hcond | apply soc_endNodes]).
        erewrite after_tools_Ret in Hrun by apply soc_toolExecutor_effect.
        apply IH in Hrun as ((names & Herr) & Hcount & Hres); [|right; left; reflexivity].
        cbn [with_output stderr generate_calls] in Herr, Hcount.
        split.
        { exists (not_found_names toolHandlers (ToolCalls resp) ++ names).
          rewrite Herr, fmap_app, app_assoc. reflexivity. }
        split; [exact Hcount|].
        destruct r as [finalState|cause].
        -- destruct Hres as (Hrecord & (appended & Happ) & Hlast & Hstrict).
           cbn [Messages AgentState_Incident] in Hrecord, Happ.
           split; [exact Hrecord|]. split; [|split; [exact Hlast | congruence]].
           cbn [Messages]. eexists. rewrite Happ, <- app_assoc. reflexivity.
        -- exact Hres.
Qed.

(** While the model keeps asking for tools, a run ends only when the budget
    does, after the model calls the budget allows. *)
Lemma soc_run_keeps_asking (fuel : nat) :
  always_asks_for_tools ->
  forall (from : string) (state : AgentState) (w : World),
    (from = START \/ from = "tools" ->
     exists w', run NewAgent fuel from state w = Ret (Failed budget_error) w'
                /\ generate_calls w' = generate_calls w + Nat.div2 (Datatypes.S fuel))
    /\ (from = "assistant" ->
        (exists init resp, Messages state = init ++ [resp] /\ ToolCalls resp <> []) ->
        exists w', run NewAgent fuel from state w = Ret (Failed budget_error) w'
                   /\ generate_calls w' = generate_calls w + Nat.div2 fuel).
Proof.
  intros Hasks. rewrite soc_NewAgent_shape.
  induction fuel as [|fuel IH]; intros from state w.
  - split.
    + intros [-> | ->]; exists w; (split; [reflexivity | cbn; lia]).
    + intros -> (init & resp & Hmsgs & Hcalls).
      destruct state as [order msgs]. cbn [Messages] in Hmsgs. subst msgs.
      pose proof (soc_branch_condition order init resp w) as Hcond.
      destruct (ToolCalls resp) as [|tc rest] eqn:Htcs; [congruence|].
      exists w. split; [|cbn; lia].
      apply run_from_assistant_tools_spent; [exact Hcond | apply soc_endNodes].
  - split.
    + assert (Hassistant : exists w',
                after_assistant assistant toolExecutor branch fuel state w
                = Ret (Failed budget_error) w'
                /\ generate_calls w' = generate_calls w + Nat.div2 (Datatypes.S (Datatypes.S fuel))).
      { rewrite soc_after_assistant.
        destruct (Hasks (generate_calls w) (SystemMessage (sysPrompt state) :: Messages state))
          as (resp & -> & Hcalls).
        rewrite soc_NewAgent_shape.
        destruct (proj2 (IH "assistant"
                           {| AgentState_Incident := AgentState_Incident state; Messages := Messages state ++ [resp] |}
                           (model_called w)) eq_refl) as (w' & Hrun & Hcount).
        { cbn [Messages]. eauto. }
        exists w'. split; [exact Hrun|].
        rewrite Hcount. cbn [generate_calls model_called Nat.div2]. lia. }
      intros [-> | ->]; [rewrite run_from_START | rewrite run_from_tools]; exact Hassistant.
    + intros -> (init & resp & Hmsgs & Hcalls).
      destruct state as [order msgs]. cbn [Messages] in Hmsgs. subst msgs.
      pose proof (soc_branch_condition order init resp w) as Hcond.
      destruct (ToolCalls resp) as [|tc rest] eqn:Htcs; [congruence|].
      erewrite run_from_assistant_tools by (first [exact Hcond | apply soc_endNodes]).
      erewrite after_tools_Ret by apply soc_toolExecutor_effect.
      destruct (proj1 (IH "tools"
                         {| AgentState_Incident := order;
                            Messages := (init ++ [resp])
                                        ++ answers toolHandlers soc_result (ToolCalls resp) |}
                         (with_output (not_found_names toolHandlers (ToolCalls resp))
                            (tool_lines toolHandlers soc_tool_line (ToolCalls resp)) w))
                  (or_intror eq_refl)) as (w' & Hrun & Hcount).
      exists w'. split; [exact Hrun|].
      rewrite Hcount. reflexivity.
Qed.

(** The three readings of a run from START. *)
Lemma soc_Invoke_contract (fuel : nat) (initialState : AgentState) (w : World) :
  done_keeps AgentState_Incident Messages initialState w (Invoke NewAgent fuel initialState w)
  /\ failed_by_budget_or_last_call w (Invoke NewAgent fuel initialState w)
  /\ returns_with_logger_lines w (Invoke NewAgent fuel initialState w).
Proof.
  unfold Invoke.
  destruct (soc_run_returns fuel START initialState w) as (r & w' & Hrun);
    [left; reflexivity|].
  destruct (soc_run_invariant fuel START initialState w r w') as (Herr & Hcount & Hres);
    [left; reflexivity | exact Hrun |].
  rewrite Hrun. unfold done_keeps, failed_by_budget_or_last_call, returns_with_logger_lines.
  destruct r as [finalState|cause]; cbn.
  - destruct Hres as (Hrecord & (appended & Happ) & Hlast & Hstrict).
    repeat split; try assumption; try exact I.
    + exists appended. exact Happ.
    + apply Hstrict. discriminate.
  - repeat split; try assumption; exact I.
Qed.

End SocFacts.

(** ** package legal *)
Section LegalFacts.
Import compose legal.
Context `{Recover} `{ChatModel} `{!Marshal Matter}.
Context `{!Unmarshal ReviewContractArgs} `{!Unmarshal ResearchCaseLawArgs}.
Context `{!Unmarshal ClientIntakeArgs} `{!Unmarshal AssessComplianceArgs}.
Context `{!Unmarshal ManageDiscoveryArgs} `{!Unmarshal CalculateDamagesArgs}.
Context `{!Unmarshal TrackDeadlinesArgs} `{!Unmarshal SendLegalResponseArgs}.

Lemma legal_handlers_return : handlers_return toolHandlers switch_case.
Proof.
  intros tc handler w Hlook. unfold toolHandlers in Hlook.
  solve_handlers_return tc Hlook.
Qed.

Lemma legal_switch_review_contract (handler : Handler) (tc : ToolCall) :
  Name (Function tc) = "review_contract" ->
  switch_arm switch_case handler tc
  = handler (PtrReviewContractArgs (fst (json_Unmarshal (Arguments (Function tc)) zero_ReviewContractArgs))).
Proof. intros Hname. unfold switch_arm, switch_case. rewrite Hname. reflexivity. Qed.

Lemma legal_switch_research_case_law (handler : Handler) (tc : ToolCall) :
  Name (Function tc) = "research_case_law" ->
  switch_arm switch_case handler tc
  = handler (PtrResearchCaseLawArgs (fst (json_Unmarshal (Arguments (Function tc)) zero_ResearchCaseLawArgs))).
Proof. intros Hname. unfold switch_arm, switch_case. rewrite Hname. reflexivity. Qed.

Lemma legal_switch_client_intake (handler : Handler) (tc : ToolCall) :
  Name (Function tc) = "client_intake" ->
  switch_arm switch_case handler tc
  = handler (PtrClientIntakeArgs (fst (json_Unmarshal (Arguments (Function tc)) zero_ClientIntakeArgs))).
Proof. intros Hname. unfold switch_arm, switch_case. rewrite Hname. reflexivity. Qed.

Lemma legal_switch_assess_compliance (handler : Handler) (tc : ToolCall) :
  Name (Function tc) = "assess_compliance" ->
  switch_arm switch_case handler tc
  = handler (PtrAssessComplianceArgs (fst (json_Unmarshal (Arguments (Function tc)) zero_AssessComplianceArgs))).
Proof. intros Hname. unfold switch_arm, switch_case. rewrite Hname. reflexivity. Qed.

Lemma legal_switch_manage_discovery (handler : Handler) (tc : ToolCall) :
  Name (Function tc) = "manage_discovery" ->
  switch_arm switch_case handler tc
  = handler (PtrManageDiscoveryArgs (fst (json_Unmarshal (Arguments (Function tc)) zero_ManageDiscoveryArgs))).
Proof. intros Hname. unfold switch_arm, switch_case. rewrite Hname. reflexivity. Qed.

Lemma legal_switch_calculate_damages (handler : Handler) (tc : ToolCall) :
  Name (Function tc) = "calculate_damages" ->
  switch_arm switch_case handler tc
  = handler (PtrCalculateDamagesArgs (fst (json_Unmarshal (Arguments (Function tc)) zero_CalculateDamagesArgs))).
Proof. intros Hname. unfold switch_arm, switch_case. rewrite Hname. reflexivity. Qed.

Lemma legal_switch_track_deadlines (handler : Handler) (tc : ToolCall) :
  Name (Function tc) = "track_deadlines" ->
  switch_arm switch_case handler tc
  = handler (PtrTrackDeadlinesArgs (fst (json_Unmarshal (Arguments (Function tc)) zero_TrackDeadlinesArgs))).
Proof. intros Hname. unfold switch_arm, switch_case. rewrite Hname. reflexivity. Qed.

Lemma legal_switch_send_legal_response (handler : Handler) (tc : ToolCall) :
  Name (Function tc) = "send_legal_response" ->
  switch_arm switch_case handler tc
  = handler (PtrSendLegalResponseArgs (fst (json_Unmarshal (Arguments (Function tc)) zero_SendLegalResponseArgs))).
Proof. intros Hname. unfold switch_arm, switch_case. rewrite Hname. reflexivity. Qed.

Lemma legal_handlers_canned :
  handlers_canned toolHandlers switch_case legal_result legal_tool_line.
Proof.
  intros tc handler w Hlook. unfold toolHandlers in Hlook.
  unfold switch_arm, legal_result, legal_tool_line.
  map_literal_cases Hlook;
    match goal with Heq : Name (Function tc) = _ |- _ => rewrite Heq end;
    reflexivity.
Qed.

Lemma legal_registered_names (name : string) :
  is_Some (toolHandlers !! name) <-> name ∈ legal_tool_names.
Proof.
  unfold legal_tool_names. split.
  - intros [handler Hlook]. unfold toolHandlers in Hlook.
    cbn [list_to_map foldr uncurry fst snd] in Hlook.
    repeat (rewrite lookup_insert in Hlook;
            destruct (decide _) as [<-|_] in Hlook; [name_in_literal|]).
    rewrite lookup_empty in Hlook. discriminate Hlook.
  - intros Hin. names_of_literal Hin; eexists; reflexivity.
Qed.

Lemma legal_switch_names (name : string) :
  is_Some (switch_case name) <-> name ∈ legal_tool_names.
Proof.
  unfold legal_tool_names, switch_case. split.
  - intros Hsome.
    repeat (destruct (decide _) as [->|_] in Hsome; [name_in_literal|]).
    destruct Hsome as [? Hnone]. discriminate Hnone.
  - intros Hin. names_of_literal Hin; eexists; reflexivity.
Qed.

Lemma legal_NewAgent_shape : NewAgent = react_graph assistant toolExecutor branch.
Proof. reflexivity. Qed.

Lemma legal_endNodes : "tools" ∈ endNodes branch /\ END ∈ endNodes branch.
Proof. split; vm_compute; reflexivity. Qed.

Lemma legal_assistant_step (state : AgentState) (w : World) :
  assistant state w
  = Ret match Generate (generate_calls w) (SystemMessage (sysPrompt state) :: Messages state) with
        | inl resp => inl {| AgentState_Matter := AgentState_Matter state; Messages := Messages state ++ [resp] |}
        | inr err => inr err
        end
        (model_called w).
Proof.
  unfold assistant, bind, chatModel_Generate.
  destruct (Generate _ _); reflexivity.
Qed.

Lemma legal_branch_condition (order : option Matter) (init : list Message)
    (resp : Message) (w : World) :
  condition branch {| AgentState_Matter := order; Messages := init ++ [resp] |} w
  = Ret (inl match ToolCalls resp with [] => END | _ :: _ => "tools" end) w.
Proof.
  cbn [branch condition Messages].
  rewrite index_last with (x := resp) by apply last_snoc.
  unfold bind, ret, len.
  destruct (ToolCalls resp) as [|tc rest]; [reflexivity|].
  rewrite decide_True by (cbn [length]; lia). reflexivity.
Qed.

Lemma legal_toolCall_result (tc : ToolCall) (msgs : list Message) (w : World) :
  is_Some (toolHandlers !! Name (Function tc)) ->
  toolCall toolHandlers switch_case tc msgs w
  = Ret (msgs ++ [ToolMessage (legal_result (Name (Function tc))) (ID tc)])
        (add_stdout (legal_tool_line tc) w).
Proof.
  intros [handler Hlook].
  exact (toolCall_registered _ _ _ _ _ _ _ _ None Hlook (legal_handlers_canned _ _ _ Hlook)).
Qed.

Lemma legal_toolExecutorWith_appends (handlers : gmap string (@Handler Args))
    (order : option Matter) (init : list Message) (lastMsg : Message) (w : World) :
  handlers_return handlers switch_case ->
  exists appended w',
    toolExecutorWith handlers {| AgentState_Matter := order; Messages := init ++ [lastMsg] |} w
    = Ret (inl {| AgentState_Matter := order; Messages := (init ++ [lastMsg]) ++ appended |}) w'
    /\ ToolCallID <$> appended = ID <$> filter (registered handlers) (ToolCalls lastMsg)
    /\ Forall (fun m => Role m = Tool) appended.
Proof.
  intros Hret. unfold toolExecutorWith. cbn [Messages AgentState_Matter].
  rewrite index_last with (x := lastMsg) by apply last_snoc.
  unfold bind at 1. unfold ret at 1.
  destruct (decide (len (ToolCalls lastMsg) = 0)%Z) as [Hzero|Hpos].
  - exists [], w. rewrite app_nil_r.
    destruct (ToolCalls lastMsg); [|discriminate Hzero].
    repeat split; constructor.
  - destruct (rangeToolCalls_appends handlers switch_case (ToolCalls lastMsg) Hret
                (init ++ [lastMsg]) w) as (appended & w' & Hrun & Hids & Hroles).
    exists appended, w'. erewrite bind_Ret by exact Hrun.
    repeat split; assumption.
Qed.

(** The executor on a log that ends with a message: the loop over its calls. *)
Lemma legal_toolExecutorWith_loop (handlers : gmap string (@Handler Args))
    (order : option Matter) (init : list Message) (lastMsg : Message)
    (msgs : list Message) (w w' : World) :
  rangeToolCalls handlers switch_case (ToolCalls lastMsg) (init ++ [lastMsg]) w
  = Ret msgs w' ->
  toolExecutorWith handlers {| AgentState_Matter := order; Messages := init ++ [lastMsg] |} w
  = Ret (inl {| AgentState_Matter := order; Messages := msgs |}) w'.
Proof.
  intros Hrun. unfold toolExecutorWith. cbn [Messages AgentState_Matter].
  rewrite index_last with (x := lastMsg) by apply last_snoc.
  unfold bind at 1. unfold ret at 1.
  destruct (decide (len (ToolCalls lastMsg) = 0)%Z) as [Hzero|Hpos].
  - destruct (ToolCalls lastMsg); [|discriminate Hzero].
    cbn in Hrun. injection Hrun as <- <-. reflexivity.
  - erewrite bind_Ret by exact Hrun. reflexivity.
Qed.

Lemma legal_toolExecutorWith_frame (handlers : gmap string (@Handler Args))
    (state : AgentState) (w : World) :
  match toolExecutorWith handlers state w with
  | Ret (inl state') _ =>
      AgentState_Matter state' = AgentState_Matter state
      /\ exists appended, Messages state' = Messages state ++ appended
  | Ret (inr _) _ => False
  | Panic _ _ | Exit _ _ => True
  end.
Proof.
  unfold toolExecutorWith, bind.
  destruct (index (Messages state) (len (Messages state) - 1) w) as [lastMsg w1| |]; [|exact I..].
  destruct (decide (len (ToolCalls lastMsg) = 0)%Z) as [Hzero|Hpos].
  - cbn. split; [reflexivity|]. exists []. now rewrite app_nil_r.
  - pose proof (rangeToolCalls_extends handlers switch_case (ToolCalls lastMsg)
                  (Messages state) w1) as Hext.
    destruct (rangeToolCalls handlers switch_case (ToolCalls lastMsg) (Messages state) w1)
      as [msgs w2| |]; [|exact I..].
    cbn. split; [reflexivity | exact Hext].
Qed.

(** Handlers that answer by name: one message per registered call. *)
Lemma legal_toolExecutorWith_outcomes (handlers : gmap string (@Handler Args))
    (outcome : string -> string * option error) :
  handlers_answer handlers legal_tool_names outcome ->
  forall (order : option Matter) (init : list Message) (lastMsg : Message) (w : World),
  exists w',
    toolExecutorWith handlers {| AgentState_Matter := order; Messages := init ++ [lastMsg] |} w
    = Ret (inl {| AgentState_Matter := order;
                  Messages := (init ++ [lastMsg])
                              ++ outcome_messages handlers outcome (ToolCalls lastMsg) |}) w'.
Proof.
  intros Hanswer order init lastMsg w.
  destruct (rangeToolCalls_outcomes handlers switch_case legal_tool_names outcome
              (ToolCalls lastMsg) (fun name => proj2 (legal_switch_names name)) Hanswer
              (init ++ [lastMsg]) w) as (w' & Hrun).
  exists w'. now apply legal_toolExecutorWith_loop.
Qed.

(** The complete effect of the executor of the package. *)
Lemma legal_toolExecutor_effect (order : option Matter) (init : list Message)
    (lastMsg : Message) (w : World) :
  toolExecutor {| AgentState_Matter := order; Messages := init ++ [lastMsg] |} w
  = Ret (inl {| AgentState_Matter := order;
                Messages := (init ++ [lastMsg])
                            ++ answers toolHandlers legal_result (ToolCalls lastMsg) |})
        (with_output (not_found_names toolHandlers (ToolCalls lastMsg))
           (tool_lines toolHandlers legal_tool_line (ToolCalls lastMsg)) w).
Proof.
  apply legal_toolExecutorWith_loop, rangeToolCalls_effect, legal_handlers_canned.
Qed.

Lemma legal_run_from_assistant (fuel : nat) (order : option Matter)
    (init : list Message) (resp : Message) (w : World) :
  run NewAgent (Datatypes.S fuel) "assistant"
      {| AgentState_Matter := order; Messages := init ++ [resp] |} w
  = match ToolCalls resp with
    | [] => Ret (Done {| AgentState_Matter := order; Messages := init ++ [resp] |}) w
    | _ :: _ =>
        (let* r := toolExecutor {| AgentState_Matter := order; Messages := init ++ [resp] |} in
         match r with
         | inr e => ret (Failed e)
         | inl state' => run NewAgent fuel "tools" state'
         end) w
    end.
Proof.
  rewrite legal_NewAgent_shape.
  pose proof (legal_branch_condition order init resp w) as Hcond.
  destruct (ToolCalls resp) as [|tc rest] eqn:Hcalls.
  - erewrite run_from_assistant_END by (first [exact Hcond | apply legal_endNodes]).
    reflexivity.
  - erewrite run_from_assistant_tools by (first [exact Hcond | apply legal_endNodes]).
    erewrite after_tools_Ret by apply legal_toolExecutor_effect.
    erewrite bind_Ret by apply legal_toolExecutor_effect.
    reflexivity.
Qed.

(** The assistant node, entered with a step left. *)
Lemma legal_after_assistant (fuel : nat) (state : AgentState) (w : World) :
  after_assistant assistant toolExecutor branch fuel state w
  = match Generate (generate_calls w) (SystemMessage (sysPrompt state) :: Messages state) with
    | inl resp =>
        run NewAgent fuel "assistant"
          {| AgentState_Matter := AgentState_Matter state; Messages := Messages state ++ [resp] |} (model_called w)
    | inr cause => Ret (Failed (model_error cause)) (model_called w)
    end.
Proof.
  erewrite after_assistant_Ret by apply legal_assistant_step.
  destruct (Generate _ _); reflexivity.
Qed.

(** One round with a single registered tool, then the final answer. *)
Lemma legal_round_trip (fuel : nat) (order : option Matter) (init : list Message)
    (resp1 resp2 : Message) (tc : ToolCall) (w : World) :
  let state0 := {| AgentState_Matter := order; Messages := init |} in
  let toolMsg := ToolMessage (legal_result (Name (Function tc))) (ID tc) in
  Generate (generate_calls w) (SystemMessage (sysPrompt state0) :: init) = inl resp1 ->
  ToolCalls resp1 = [tc] ->
  is_Some (toolHandlers !! Name (Function tc)) ->
  Generate (Datatypes.S (generate_calls w))
           (SystemMessage (sysPrompt state0) :: (init ++ [resp1]) ++ [toolMsg])
  = inl resp2 ->
  ToolCalls resp2 = [] ->
  exists w',
    Invoke NewAgent (4 + fuel) state0 w
    = Ret (Done {| AgentState_Matter := order;
                   Messages := ((init ++ [resp1]) ++ [toolMsg]) ++ [resp2] |}) w'
    /\ generate_calls w' = 2 + generate_calls w.
Proof.
  intros state0 toolMsg Hgen1 Hcalls1 Hreg Hgen2 Hcalls2.
  exists (model_called (add_stdout (legal_tool_line tc) (model_called w))).
  split; [|reflexivity].
  unfold Invoke.
  change (4 + fuel) with (Datatypes.S (Datatypes.S (Datatypes.S (Datatypes.S fuel)))).
  rewrite legal_NewAgent_shape, run_from_START, legal_after_assistant.
  cbn [Messages AgentState_Matter state0]. rewrite Hgen1.
  rewrite legal_run_from_assistant, Hcalls1.
  assert (Hexec : toolExecutor {| AgentState_Matter := order; Messages := init ++ [resp1] |} (model_called w)
                  = Ret (inl {| AgentState_Matter := order; Messages := (init ++ [resp1]) ++ [toolMsg] |})
                        (add_stdout (legal_tool_line tc) (model_called w))).
  { apply legal_toolExecutorWith_loop. rewrite Hcalls1. cbn [rangeToolCalls].
    erewrite bind_Ret by (apply legal_toolCall_result; exact Hreg). reflexivity. }
  erewrite bind_Ret by exact Hexec.
  rewrite legal_NewAgent_shape, run_from_tools, legal_after_assistant.
  cbn [Messages AgentState_Matter generate_calls add_stdout model_called].
  change (sysPrompt {| AgentState_Matter := order; Messages := (init ++ [resp1]) ++ [toolMsg] |})
    with (sysPrompt state0).
  rewrite Hgen2.
  rewrite legal_run_from_assistant, Hcalls2.
  reflexivity.
Qed.

Lemma legal_run_returns (fuel : nat) :
  forall (from : string) (state : AgentState) (w : World),
    legal_standing from state ->
    exists r w', run NewAgent fuel from state w = Ret r w'.
Proof.
  rewrite legal_NewAgent_shape.
  induction fuel as [|fuel IH]; intros from state w Hfrom.
  - destruct Hfrom as [->|[->|[-> Hnonempty]]].
    + eexists _, _. apply run_from_START_spent.
    + eexists _, _. apply run_from_tools_spent.
    + destruct state as [order msgs]. cbn [Messages] in Hnonempty.
      destruct (nonempty_snoc msgs Hnonempty) as (init & resp & ->).
      pose proof (legal_branch_condition order init resp w) as Hcond.
      destruct (ToolCalls resp) as [|tc rest] eqn:Hcalls.
      * erewrite run_from_assistant_END by (first [exact Hcond | apply legal_endNodes]).
        eexists _, _; reflexivity.
      * erewrite run_from_assistant_tools_spent
          by (first [exact Hcond | apply legal_endNodes]).
        eexists _, _; reflexivity.
  - assert (Hassistant : exists r w',
              after_assistant assistant toolExecutor branch fuel state w = Ret r w').
    { rewrite legal_after_assistant.
      destruct (Generate _ _) as [resp|err]; [|eexists _, _; reflexivity].
      rewrite legal_NewAgent_shape.
      apply IH. right; right. split; [reflexivity|].
      cbn [Messages]. intros Hnil. now apply app_eq_nil in Hnil as [_ ?]. }
    destruct Hfrom as [->|[->|[-> Hnonempty]]].
    + rewrite run_from_START. exact Hassistant.
    + rewrite run_from_tools. exact Hassistant.
    + destruct state as [order msgs]. cbn [Messages] in Hnonempty.
      destruct (nonempty_snoc msgs Hnonempty) as (init & resp & ->).
      pose proof (legal_branch_condition order init resp w) as Hcond.
      destruct (ToolCalls resp) as [|tc rest] eqn:Hcalls.
      * erewrite run_from_assistant_END by (first [exact Hcond | apply legal_endNodes]).
        eexists _, _; reflexivity.
      * erewrite run_from_assistant_tools by (first [exact Hcond | apply legal_endNodes]).
        erewrite after_tools_Ret by apply legal_toolExecutor_effect.
        apply IH. right; left. reflexivity.
Qed.

(** What every run keeps. *)
Lemma legal_run_invariant (fuel : nat) :
  forall (from : string) (state : AgentState) (w : World) (r : Result AgentState)
         (w' : World),
    legal_standing from state ->
    run NewAgent fuel from state w = Ret r w' ->
    (exists names, stderr w' = stderr w ++ (not_found <$> names))
    /\ generate_calls w <= generate_calls w'
    /\ match r with
       | Done finalState =>
           AgentState_Matter finalState = AgentState_Matter state
           /\ (exists appended, Messages finalState = Messages state ++ appended)
           /\ (exists init resp, Messages finalState = init ++ [resp] /\ ToolCalls resp = [])
           /\ (from <> "assistant" -> generate_calls w < generate_calls w')
       | Failed err =>
           err = budget_error
           \/ (generate_calls w < generate_calls w'
               /\ exists input cause,
                    Generate (pred (generate_calls w')) input = inr cause
                    /\ err = model_error cause)
       end.
Proof.
  rewrite legal_NewAgent_shape.
  assert (Hquiet : forall w0 : World, exists names, stderr w0 = stderr w0 ++ (not_found <$> names)).
  { intros w0. exists []. cbn. now rewrite app_nil_r. }
  induction fuel as [|fuel IH]; intros from state w r w' Hfrom Hrun.
  - destruct Hfrom as [->|[->|[-> Hnonempty]]].
    + rewrite run_from_START_spent in Hrun. injection Hrun as <- <-.
      split; [apply Hquiet|]. split; [lia|]. left. reflexivity.
    + rewrite run_from_tools_spent in Hrun. injection Hrun as <- <-.
      split; [apply Hquiet|]. split; [lia|]. left. reflexivity.
    + destruct state as [order msgs]. cbn [Messages] in Hnonempty.
      destruct (nonempty_snoc msgs Hnonempty) as (init & resp & ->).
      pose proof (legal_branch_condition order init resp w) as Hcond.
      destruct (ToolCalls resp) as [|tc rest] eqn:Hcalls.
      * erewrite run_from_assistant_END in Hrun
          by (first [exact Hcond | apply legal_endNodes]).
        injection Hrun as <- <-. cbn [Messages AgentState_Matter].
        split; [apply Hquiet|]. split; [lia|].
        split; [reflexivity|]. split; [exists []; now rewrite app_nil_r|].
        split; [eauto | congruence].
      * erewrite run_from_assistant_tools_spent in Hrun
          by (first [exact Hcond | apply legal_endNodes]).
        injection Hrun as <- <-.
        split; [apply Hquiet|]. split; [lia|]. left. reflexivity.
  - assert (Hassistant :
              after_assistant assistant toolExecutor branch fuel state w = Ret r w' ->
              (exists names, stderr w' = stderr w ++ (not_found <$> names))
              /\ generate_calls w < generate_calls w'
              /\ match r with
                 | Done finalState =>
                     AgentState_Matter finalState = AgentState_Matter state
                     /\ (exists appended, Messages finalState = Messages state ++ appended)
                     /\ (exists init resp,
                           Messages finalState = init ++ [resp] /\ ToolCalls resp = [])
                 | Failed err =>
                     err = budget_error
                     \/ (exists input cause,
                           Generate (pred (generate_calls w')) input = inr cause
                           /\ err = model_error cause)
                 end).
    { rewrite legal_after_assistant.
      destruct (Generate (generate_calls w) _) as [resp|err] eqn:Hgen.
      - rewrite legal_NewAgent_shape. intros Hrest.
        apply IH in Hrest as (Herr & Hcalls & Hres).
        2: { right; right. split; [reflexivity|].
             cbn [Messages]. intros Hnil. now apply app_eq_nil in Hnil as [_ ?]. }
        cbn [model_called stderr generate_calls] in Herr, Hcalls.
        split; [exact Herr|]. split; [lia|].
        destruct r as [finalState|cause].
        + destruct Hres as (Hrecord & (appended & Happ) & Hlast & _).
          cbn [Messages AgentState_Matter] in Hrecord, Happ.
          split; [exact Hrecord|]. split; [|exact Hlast].
          exists ([resp] ++ appended). now rewrite app_assoc.
        + destruct Hres as [Hbudget|(_ & Hinput)]; [left; exact Hbudget | right; exact Hinput].
      - intros [= <- <-]. cbn [model_called stderr generate_calls Nat.pred].
        split; [apply (Hquiet (model_called w))|]. split; [lia|]. right. eauto. }
    destruct Hfrom as [->|[->|[-> Hnonempty]]].
    + rewrite run_from_START in Hrun.
      destruct (Hassistant Hrun) as (Herr & Hcalls & Hres).
      split; [exact Herr|]. split; [lia|].
      destruct r as [finalState|cause].
      * destruct Hres as (? & ? & ?). repeat split; try assumption. intros _; lia.
      * destruct Hres as [Hbudget|Hinput]; [left; exact Hbudget | right; split; [lia | exact Hinput]].
    + rewrite run_from_tools in Hrun.
      destruct (Hassistant Hrun) as (Herr & Hcalls & Hres).
      split; [exact Herr|]. split; [lia|].
      destruct r as [finalState|cause].
      * destruct Hres as (? & ? & ?). repeat split; try assumption. intros _; lia.
      * destruct Hres as [Hbudget|Hinput]; [left; exact Hbudget | right; split; [lia | exact Hinput]].
    + clear Hassistant.
      destruct state as [order msgs]. cbn [Messages] in Hnonempty.
      destruct (nonempty_snoc msgs Hnonempty) as (init & resp & ->).
      pose proof (legal_branch_condition order init resp w) as Hcond.
      destruct (ToolCalls resp) as [|tc rest] eqn:Hcalls.
      * erewrite run_from_assistant_END in Hrun
          by (first [exact Hcond | apply legal_endNodes]).
        injection Hrun as <- <-. cbn [Messages AgentState_Matter].
        split; [apply Hquiet|]. split; [lia|].
        split; [reflexivity|]. split; [exists []; now rewrite app_nil_r|].
        split; [eauto | congruence].
      * erewrite run_from_assistant_tools in Hrun
          by (first [exact Hcond | apply legal_endNodes]).
        erewrite after_tools_Ret in Hrun by apply legal_toolExecutor_effect.
        apply IH in Hrun as ((names & Herr) & Hcount & Hres); [|right; left; reflexivity].
        cbn [with_output stderr generate_calls] in Herr, Hcount.
        split.
        { exists (not_found_names toolHandlers (ToolCalls resp) ++ names).
          rewrite Herr, fmap_app, app_assoc. reflexivity. }
        split; [exact Hcount|].
        destruct r as [finalState|cause].
        -- destruct Hres as (Hrecord & (appended & Happ) & Hlast & Hstrict).
           cbn [Messages AgentState_Matter] in Hrecord, Happ.
           split; [exact Hrecord|]. split; [|split; [exact Hlast | congruence]].
           cbn [Messages]. eexists. rewrite Happ, <- app_assoc. reflexivity.
        -- exact Hres.
Qed.

(** While the model keeps asking for tools, a run ends only when the budget
    does, after the model calls the budget allows. *)
Lemma legal_run_keeps_asking (fuel : nat) :
  always_asks_for_tools ->
  forall (from : string) (state : AgentState) (w : World),
    (from = START \/ from = "tools" ->
     exists w', run NewAgent fuel from state w = Ret (Failed budget_error) w'
                /\ generate_calls w' = generate_calls w + Nat.div2 (Datatypes.S fuel))
    /\ (from = "assistant" ->
        (exists init resp, Messages state = init ++ [resp] /\ ToolCalls resp <> []) ->
        exists w', run NewAgent fuel from state w = Ret (Failed budget_error) w'
                   /\ generate_calls w' = generate_calls w + Nat.div2 fuel).
Proof.
  intros Hasks. rewrite legal_NewAgent_shape.
  induction fuel as [|fuel IH]; intros from state w.
  - split.
    + intros [-> | ->]; exists w; (split; [reflexivity | cbn; lia]).
    + intros -> (init & resp & Hmsgs & Hcalls).
      destruct state as [order msgs]. cbn [Messages] in Hmsgs. subst msgs.
      pose proof (legal_branch_condition order init resp w) as Hcond.
      destruct (ToolCalls resp) as [|tc rest] eqn:Htcs; [congruence|].
      exists w. split; [|cbn; lia].
      apply run_from_assistant_tools_spent; [exact Hcond | apply legal_endNodes].
  - split.
    + assert (Hassistant : exists w',
                after_assistant assistant toolExecutor branch fuel state w
                = Ret (Failed budget_error) w'
                /\ generate_calls w' = generate_calls w + Nat.div2 (Datatypes.S (Datatypes.S fuel))).
      { rewrite legal_after_assistant.
        destruct (Hasks (generate_calls w) (SystemMessage (sysPrompt state) :: Messages state))
          as (resp & -> & Hcalls).
        rewrite legal_NewAgent_shape.
        destruct (proj2 (IH "assistant"
                           {| AgentState_Matter := AgentState_Matter state; Messages := Messages state ++ [resp] |}
                           (model_called w)) eq_refl) as (w' & Hrun & Hcount).
        { cbn [Messages]. eauto. }
        exists w'. split; [exact Hrun|].
        rewrite Hcount. cbn [generate_calls model_called Nat.div2]. lia. }
      intros [-> | ->]; [rewrite run_from_START | rewrite run_from_tools]; exact Hassistant.
    + intros -> (init & resp & Hmsgs & Hcalls).
      destruct state as [order msgs]. cbn [Messages] in Hmsgs. subst msgs.
      pose proof (legal_branch_condition order init resp w) as Hcond.
      destruct (ToolCalls resp) as [|tc rest] eqn:Htcs; [congruence|].
      erewrite run_from_assistant_tools by (first [exact Hcond | apply legal_endNodes]).
      erewrite after_tools_Ret by apply legal_toolExecutor_effect.
      destruct (proj1 (IH "tools"
                         {| AgentState_Matter := order;
                            Messages := (init ++ [resp])
                                        ++ answers toolHandlers legal_result (ToolCalls resp) |}
                         (with_output (not_found_names toolHandlers (ToolCalls resp))
                            (tool_lines toolHandlers legal_tool_line (ToolCalls resp)) w))
                  (or_intror eq_refl)) as (w' & Hrun & Hcount).
      exists w'. split; [exact Hrun|].
      rewrite Hcount. reflexivity.
Qed.

(** The three readings of a run from START. *)
Lemma legal_Invoke_contract (fuel : nat) (initialState : AgentState) (w : World) :
  done_keeps AgentState_Matter Messages initialState w (Invoke NewAgent fuel initialState w)
  /\ failed_by_budget_or_last_call w (Invoke NewAgent fuel initialState w)
  /\ returns_with_logger_lines w (Invoke NewAgent fuel initialState w).
Proof.
  unfold Invoke.
  destruct (legal_run_returns fuel START initialState w) as (r & w' & Hrun);
    [left; reflexivity|].
  destruct (legal_run_invariant fuel START initialState w r w') as (Herr & Hcount & Hres);
    [left; reflexivity | exact Hrun |].
  rewrite Hrun. unfold done_keeps, failed_by_budget_or_last_call, returns_with_logger_lines.
  destruct r as [finalState|cause]; cbn.
  - destruct Hres as (Hrecord & (appended & Happ) & Hlast & Hstrict).
    repeat split; try assumption; try exact I.
    + exists appended. exact Happ.
    + apply Hstrict. discriminate.
  - repeat split; try assumption; exact I.
Qed.

End LegalFacts.

(** ** The direct loop *)
Section MathToolsFacts.
Import math_tools.
Context `{ChatModel} `{Fmt} `{MathPow} `{!Unmarshal (option MathArgs)}.

Lemma toolMap_lookup (name : string) :
  toolMap !! name
  = if decide (name = "add") then Some addTool
    else if decide (name = "exponentiate") then Some expTool
    else if decide (name = "multiply") then Some multiplyTool
    else None.
Proof.
  unfold toolMap, tools. cbn [foldl Info_Name addTool expTool multiplyTool InferTool].
  rewrite !lookup_insert, lookup_empty.
  repeat (destruct (decide _) as [Heq|Hne]; [subst name|]);
    repeat (rewrite decide_True by reflexivity);
    repeat (rewrite decide_False by congruence);
    try reflexivity.
  all: repeat (destruct (decide _); try congruence).
Qed.

Lemma toolMap_registered (name : string) :
  name ∈ math_tool_names -> is_Some (toolMap !! name).
Proof.
  unfold math_tool_names. rewrite toolMap_lookup, !elem_of_cons, elem_of_nil.
  intros [->|[->|[->|[]]]]; cbn; eauto.
Qed.

Lemma toolMap_unregistered (name : string) :
  name ∉ math_tool_names -> toolMap !! name = None.
Proof.
  unfold math_tool_names. rewrite toolMap_lookup, !elem_of_cons, elem_of_nil.
  intros Hnot. repeat (destruct (decide _) as [->|_]; [exfalso; apply Hnot; tauto|]).
  reflexivity.
Qed.

Lemma toolMap_finds_each_tool (t : InvokableTool) :
  t ∈ tools -> toolMap !! Info_Name t = Some t.
Proof.
  unfold tools. intros Hin.
  names_of_literal Hin; rewrite toolMap_lookup; reflexivity.
Qed.

Lemma toolMap_names (name : string) :
  is_Some (toolMap !! name) <-> name ∈ math_tool_names.
Proof.
  split.
  - intros Hsome. destruct (decide (name ∈ math_tool_names)) as [Hin|Hnot]; [exact Hin|].
    rewrite (toolMap_unregistered name Hnot) in Hsome.
    destruct Hsome as [? Hnone]. discriminate Hnone.
  - apply toolMap_registered.
Qed.

(** One iteration of the dispatch, for a registered name: by what the decoder
    makes of the arguments. *)
Lemma runToolCall_registered (tc : ToolCall) (msgs : list Message) (w : World) :
  Name (Function tc) ∈ math_tool_names ->
  runToolCall tc msgs w
  = match math_decoded tc with
    | (None, None) => Panic "invalid memory address or nil pointer dereference" w
    | _ => Ret (msgs ++ [ToolMessage (math_tool_output tc) (ID tc)])
               (add_stdout (math_tool_line tc) w)
    end.
Proof.
  unfold math_tool_names, runToolCall, math_tool_line, math_tool_output, math_decoded,
    math_value.
  intros Hin.
  names_of_literal Hin; rewrite toolMap_lookup;
    repeat first [rewrite decide_True by reflexivity
                 | rewrite decide_False by discriminate];
    cbn [InvokableRun addTool expTool multiplyTool InferTool];
    destruct (json_Unmarshal _ _) as [[args|] [err|]]; reflexivity.
Qed.

Lemma runToolCall_unregistered (tc : ToolCall) (msgs : list Message) (w : World) :
  Name (Function tc) ∉ math_tool_names ->
  runToolCall tc msgs w = Panic "invalid memory address or nil pointer dereference" w.
Proof.
  intros Hnot. unfold runToolCall. now rewrite (toolMap_unregistered _ Hnot).
Qed.

Lemma runToolCall_answered (tc : ToolCall) (msgs : list Message) (w : World) :
  Name (Function tc) ∈ math_tool_names ->
  ~ decodes_to_nil tc ->
  runToolCall tc msgs w
  = Ret (msgs ++ [ToolMessage (math_tool_output tc) (ID tc)])
        (add_stdout (math_tool_line tc) w).
Proof.
  intros Hin Hnil. rewrite (runToolCall_registered tc msgs w Hin).
  unfold decodes_to_nil in Hnil.
  destruct (math_decoded tc) as [[args|] [err|]]; try reflexivity.
  now contradict Hnil.
Qed.

Lemma runToolCall_nil (tc : ToolCall) (msgs : list Message) (w : World) :
  Name (Function tc) ∈ math_tool_names ->
  decodes_to_nil tc ->
  runToolCall tc msgs w = Panic "invalid memory address or nil pointer dereference" w.
Proof.
  intros Hin Hnil. rewrite (runToolCall_registered tc msgs w Hin).
  unfold decodes_to_nil in Hnil. now rewrite Hnil.
Qed.

(** An iteration answers its call or panics on a nil pointer. *)
Lemma runToolCall_cases (tc : ToolCall) (msgs : list Message) (w : World) :
  (Name (Function tc) ∈ math_tool_names /\ ~ decodes_to_nil tc
   /\ runToolCall tc msgs w
      = Ret (msgs ++ [ToolMessage (math_tool_output tc) (ID tc)])
            (add_stdout (math_tool_line tc) w))
  \/ ((Name (Function tc) ∉ math_tool_names \/ decodes_to_nil tc)
      /\ runToolCall tc msgs w
         = Panic "invalid memory address or nil pointer dereference" w).
Proof.
  destruct (decide (Name (Function tc) ∈ math_tool_names)) as [Hin|Hnot].
  - rewrite (runToolCall_registered tc msgs w Hin). unfold decodes_to_nil.
    destruct (math_decoded tc) as [[args|] [err|]];
      first [ left; split; [exact Hin|]; split; [discriminate | reflexivity]
            | right; split; [right; reflexivity | reflexivity] ].
  - right. split; [left; exact Hnot|]. now apply runToolCall_unregistered.
Qed.

Lemma runToolCalls_effect (calls : list ToolCall) :
  Forall (fun tc => Name (Function tc) ∈ math_tool_names /\ ~ decodes_to_nil tc) calls ->
  forall (msgs : list Message) (w : World),
    runToolCalls calls msgs w
    = Ret (msgs ++ math_tool_messages calls) (with_output [] (math_tool_line <$> calls) w).
Proof.
  induction 1 as [|tc rest [Hin Hnil] _ IH]; intros msgs w.
  - cbn. now rewrite app_nil_r, with_output_nil.
  - cbn [runToolCalls]. erewrite bind_Ret by (apply runToolCall_answered; assumption).
    rewrite IH. unfold math_tool_messages.
    rewrite !fmap_cons, with_output_add_stdout, <- app_assoc. reflexivity.
Qed.

Lemma runToolCalls_panics (calls : list ToolCall) :
  Exists (fun tc => Name (Function tc) ∉ math_tool_names \/ decodes_to_nil tc) calls ->
  forall (msgs : list Message) (w : World),
  exists w', runToolCalls calls msgs w
             = Panic "invalid memory address or nil pointer dereference" w'.
Proof.
  induction 1 as [tc rest Hbad|tc rest _ IH]; intros msgs w; cbn [runToolCalls].
  - exists w. unfold bind.
    destruct (runToolCall_cases tc msgs w) as [(Hin & Hnil & _)|(_ & ->)]; [|reflexivity].
    destruct Hbad; contradiction.
  - destruct (runToolCall_cases tc msgs w) as [(_ & _ & Hstep)|(_ & Hstep)].
    + erewrite bind_Ret by exact Hstep. apply IH.
    + exists w. unfold bind. now rewrite Hstep.
Qed.

(** The dispatch returns exactly when every call names a registered tool and
    none decodes to a nil pointer. *)
Lemma runToolCalls_returns_iff (calls : list ToolCall) (msgs : list Message) (w : World) :
  (exists msgs' w', runToolCalls calls msgs w = Ret msgs' w')
  <-> Forall (fun tc => Name (Function tc) ∈ math_tool_names /\ ~ decodes_to_nil tc) calls.
Proof.
  split.
  - revert msgs w. induction calls as [|tc rest IH]; intros msgs w (msgs' & w' & Hrun).
    + constructor.
    + cbn [runToolCalls] in Hrun.
      destruct (runToolCall_cases tc msgs w) as [(Hin & Hnil & Hstep)|(_ & Hstep)].
      * erewrite bind_Ret in Hrun by exact Hstep.
        constructor; [split; assumption|]. eapply IH. eauto.
      * unfold bind in Hrun. rewrite Hstep in Hrun. discriminate Hrun.
  - intros Hall. eexists _, _. now apply runToolCalls_effect.
Qed.

(** The round trip: one request for [add], then the final answer. *)
Lemma main_add_round_trip (w : World) (resp final : Message) (tc : ToolCall)
    (args : MathArgs) :
  let question := UserMessage "What is 393 * 12.25? Also, what is 11 + 49?" in
  let sum := Sprintf_v (float64_add (X args) (Y args)) in
  Generate (generate_calls w) [question] = inl resp ->
  ToolCalls resp = [tc] ->
  Name (Function tc) = "add" ->
  json_Unmarshal (Arguments (Function tc))
    (Some {| X := S754_zero false; Y := S754_zero false |})
  = (Some args, None) ->
  Generate (S (generate_calls w)) [question; resp; ToolMessage sum (ID tc)] = inl final ->
  main w
  = Ret [question; resp; ToolMessage sum (ID tc)]
        (add_stdout (Content final)
           (add_stdout ("add(" +:+ Arguments (Function tc) +:+ ") = " +:+ sum)
              (model_called (model_called w)))).
Proof.
  intros question sum Hgen1 Hcalls Hname Hdecode Hgen2.
  unfold main. fold question.
  erewrite bind_Ret by reflexivity. rewrite Hgen1.
  rewrite Hcalls. cbn [runToolCalls app].
  assert (Hstep : runToolCall tc [question; resp] (model_called w)
                  = Ret [question; resp; ToolMessage sum (ID tc)]
                        (add_stdout ("add(" +:+ Arguments (Function tc) +:+ ") = " +:+ sum)
                           (model_called w))).
  { rewrite runToolCall_registered by (rewrite Hname; name_in_literal).
    unfold math_tool_line, math_tool_output, math_decoded, math_value.
    rewrite Hdecode, Hname. rewrite decide_True by reflexivity. reflexivity. }
  erewrite bind_Ret; [|erewrite bind_Ret by exact Hstep; reflexivity].
  erewrite bind_Ret by reflexivity.
  cbn [generate_calls add_stdout model_called]. rewrite Hgen2. reflexivity.
Qed.

Lemma main_first_call_fails (w : World) (err : error) :
  Generate (generate_calls w) [math_question] = inr err ->
  main w = Exit 1 (add_logged err (model_called w)).
Proof.
  intros Hgen. unfold main. fold math_question.
  erewrite bind_Ret by reflexivity. rewrite Hgen. reflexivity.
Qed.

(** [main] up to the final call of the model. *)
Lemma main_after_dispatch (w : World) (resp : Message) :
  Generate (generate_calls w) [math_question] = inl resp ->
  Forall (fun tc => Name (Function tc) ∈ math_tool_names /\ ~ decodes_to_nil tc)
         (ToolCalls resp) ->
  let msgs := [math_question; resp] ++ math_tool_messages (ToolCalls resp) in
  let w1 := with_output [] (math_tool_line <$> ToolCalls resp) (model_called w) in
  main w
  = match Generate (S (generate_calls w)) msgs with
    | inl final => Ret msgs (add_stdout (Content final) (model_called w1))
    | inr _ => Panic "invalid memory address or nil pointer dereference" (model_called w1)
    end.
Proof.
  intros Hgen Hall msgs w1. unfold main. fold math_question.
  erewrite bind_Ret by reflexivity. rewrite Hgen.
  erewrite bind_Ret by (apply runToolCalls_effect; exact Hall).
  erewrite bind_Ret by reflexivity.
  change ([math_question] ++ [resp]) with [math_question; resp].
  fold msgs. fold w1.
  change (generate_calls w1) with (S (generate_calls w)).
  destruct (Generate (S (generate_calls w)) msgs) as [final|err]; reflexivity.
Qed.

Lemma main_dispatch_panics (w : World) (resp : Message) :
  Generate (generate_calls w) [math_question] = inl resp ->
  Exists (fun tc => Name (Function tc) ∉ math_tool_names \/ decodes_to_nil tc)
         (ToolCalls resp) ->
  exists w', main w = Panic "invalid memory address or nil pointer dereference" w'.
Proof.
  intros Hgen Hex. unfold main. fold math_question.
  erewrite bind_Ret by reflexivity. rewrite Hgen.
  destruct (runToolCalls_panics (ToolCalls resp) Hex ([math_question] ++ [resp])
              (model_called w)) as (w' & Hpanic).
  exists w'. unfold bind. now rewrite Hpanic.
Qed.

End MathToolsFacts.

(** ** go/cmd: the main program of ecommerce_customer_support *)
Section EcommerceMainFacts.
Import compose ecommerce_customer_support ecommerce_main.
Context `{Setup} `{Recover} `{ChatModel} `{Fmt} `{!Marshal Order}.
Context `{!Unmarshal SendCustomerMessageArgs} `{!Unmarshal IssueRefundArgs}.
Context `{!Unmarshal CancelOrderArgs} `{!Unmarshal UpdateAddressArgs}.
Context `{!Unmarshal AgentState} `{!Marshal AgentState}.

Lemma ecommerce_NewAgent_or_error_ok :
  setup_succeeds -> OPENAI_API_KEY <> "" /\ NewAgent_or_error = inl NewAgent.
Proof.
  intros (Hkey & Hmodel & Hbind & Hcompile). split; [exact Hkey|].
  unfold NewAgent_or_error. now rewrite Hmodel, Hbind, Hcompile.
Qed.





(** The model is called only with a key and a compiled agent. *)
Lemma ecommerce_main_without_setup (evalMode : bool) (stdin : string + error)
    (fuel : nat) (w : World) :
  ~ setup_succeeds ->
  exists line, main evalMode stdin fuel w = Exit 1 (add_stderr line w).
Proof.
  intros Hsetup. unfold main.
  destruct (decide (OPENAI_API_KEY = "")) as [_|Hkey]; [eexists; reflexivity|].
  unfold NewAgent_or_error.
  destruct NewChatModel_error as [err|] eqn:Hmodel; [eexists; reflexivity|].
  destruct BindTools_error as [err|] eqn:Hbind; [eexists; reflexivity|].
  destruct Compile_error as [err|] eqn:Hcompile; [eexists; reflexivity|].
  exfalso. apply Hsetup. unfold setup_succeeds. rewrite Hmodel, Hbind, Hcompile. auto.
Qed.

(** [main] once the agent exists. *)
Lemma ecommerce_main_with_setup (evalMode : bool) (stdin : string + error)
    (fuel : nat) (w : World) :
  setup_succeeds ->
  main evalMode stdin fuel w
  = (let* initialState :=
       if evalMode then
         match stdin with
         | inr err =>
             let* _ := fmt_Fprintf_stderr ("Failed to read stdin: " +:+ err) in
             os_Exit 1
         | inl inputBytes =>
             match json_Unmarshal inputBytes {| AgentState_Order := None; Messages := [] |} with
             | (_, Some err) =>
                 let* _ := fmt_Fprintf_stderr ("Failed to unmarshal input: " +:+ err
                                               +:+ newline +:+ "Input: " +:+ inputBytes) in
                 os_Exit 1
             | (initialState, None) => ret initialState
             end
         end
       else ret demoState in
     let* r := Invoke NewAgent fuel initialState in
     ecommerce_report evalMode r) w.
Proof.
  intros Hsetup. destruct (ecommerce_NewAgent_or_error_ok Hsetup) as (Hkey & Hagent).
  unfold main. rewrite decide_False by exact Hkey. rewrite Hagent. reflexivity.
Qed.


(** [main] on an initial state for which the first model call fails. *)
Lemma ecommerce_main_model_failure (evalMode : bool) (stdin : string + error) (fuel : nat)
    (state : AgentState) (w : World) (cause : error) :
  setup_succeeds ->
  (if evalMode
   then exists inputBytes,
          stdin = inl inputBytes
          /\ json_Unmarshal inputBytes {| AgentState_Order := None; Messages := [] |} = (state, None)
   else state = demoState) ->
  Generate (generate_calls w) (SystemMessage (sysPrompt state) :: Messages state)
  = inr cause ->
  main evalMode stdin (Datatypes.S fuel) w
  = Exit 1 (add_stderr ("Agent error: " +:+ model_error cause) (model_called w)).
Proof.
  intros Hsetup Hinput Hfail. rewrite ecommerce_main_with_setup by exact Hsetup.
  assert (Hrun : Invoke NewAgent (Datatypes.S fuel) state w
                 = Ret (Failed (model_error cause)) (model_called w)).
  { unfold Invoke. rewrite ecommerce_NewAgent_shape, run_from_START, ecommerce_after_assistant.
    now rewrite Hfail. }
  destruct evalMode.
  - destruct Hinput as (inputBytes & -> & Hdecode). rewrite Hdecode.
    erewrite bind_Ret by reflexivity. erewrite bind_Ret by exact Hrun. reflexivity.
  - subst state. erewrite bind_Ret by reflexivity.
    erewrite bind_Ret by exact Hrun. reflexivity.
Qed.

End EcommerceMainFacts.

(** ** go/cmd: the main program of soc *)
Section SocMainFacts.
Import compose soc soc_main.
Context `{Setup} `{Recover} `{ChatModel} `{!Marshal Incident}.
Context `{!Unmarshal LookupThreatIntelArgs} `{!Unmarshal QueryLogsArgs}.
Context `{!Unmarshal TriageIncidentArgs} `{!Unmarshal IsolateHostArgs}.
Context `{!Unmarshal SendAnalystResponseArgs}.
Context `{!Unmarshal AgentState} `{!Marshal AgentState}.

Lemma soc_NewAgent_or_error_ok :
  setup_succeeds -> OPENAI_API_KEY <> "" /\ NewAgent_or_error = inl NewAgent.
Proof.
  intros (Hkey & Hmodel & Hbind & Hcompile). split; [exact Hkey|].
  unfold NewAgent_or_error. now rewrite Hmodel, Hbind, Hcompile.
Qed.





(** The model is called only with a key and a compiled agent. *)
Lemma soc_main_without_setup (evalMode : bool) (stdin : string + error)
    (fuel : nat) (w : World) :
  ~ setup_succeeds ->
  exists line, main evalMode stdin fuel w = Exit 1 (add_stderr line w).
Proof.
  intros Hsetup. unfold main.
  destruct (decide (OPENAI_API_KEY = "")) as [_|Hkey]; [eexists; reflexivity|].
  unfold NewAgent_or_error.
  destruct NewChatModel_error as [err|] eqn:Hmodel; [eexists; reflexivity|].
  destruct BindTools_error as [err|] eqn:Hbind; [eexists; reflexivity|].
  destruct Compile_error as [err|] eqn:Hcompile; [eexists; reflexivity|].
  exfalso. apply Hsetup. unfold setup_succeeds. rewrite Hmodel, Hbind, Hcompile. auto.
Qed.

(** [main] once the agent exists. *)
Lemma soc_main_with_setup (evalMode : bool) (stdin : string + error)
    (fuel : nat) (w : World) :
  setup_succeeds ->
  main evalMode stdin fuel w
  = (let* initialState :=
       if evalMode then
         match stdin with
         | inr err =>
             let* _ := fmt_Fprintf_stderr ("Failed to read stdin: " +:+ err) in
             os_Exit 1
         | inl inputBytes =>
             match json_Unmarshal inputBytes {| AgentState_Incident := None; Messages := [] |} with
             | (_, Some err) =>
                 let* _ := fmt_Fprintf_stderr ("Failed to unmarshal input: " +:+ err
                                               +:+ newline +:+ "Input: " +:+ inputBytes) in
                 os_Exit 1
             | (initialState, None) => ret initialState
             end
         end
       else ret demoState in
     let* r := Invoke NewAgent fuel initialState in
     soc_report evalMode r) w.
Proof.
  intros Hsetup. destruct (soc_NewAgent_or_error_ok Hsetup) as (Hkey & Hagent).
  unfold main. rewrite decide_False by exact Hkey. rewrite Hagent. reflexivity.
Qed.

(** The input of eval mode that cannot be read or decoded. *)
Lemma soc_main_bad_input (stdin : string + error) (fuel : nat) (w : World) :
  setup_succeeds ->
  match stdin with
  | inr err =>
      main true stdin fuel w = Exit 1 (add_stderr ("Failed to read stdin: " +:+ err) w)
  | inl inputBytes =>
      forall (partial : AgentState) (err : error),
        json_Unmarshal inputBytes {| AgentState_Incident := None; Messages := [] |} = (partial, Some err) ->
        main true stdin fuel w
        = Exit 1 (add_stderr ("Failed to unmarshal input: " +:+ err
                              +:+ newline +:+ "Input: " +:+ inputBytes) w)
  end.
Proof.
  intros Hsetup. destruct stdin as [inputBytes|err].
  - intros partial err Hdecode. rewrite soc_main_with_setup by exact Hsetup.
    unfold bind at 1. rewrite Hdecode. reflexivity.
  - rewrite soc_main_with_setup by exact Hsetup. reflexivity.
Qed.

(** [main] on an initial state for which the first model call fails. *)
Lemma soc_main_model_failure (evalMode : bool) (stdin : string + error) (fuel : nat)
    (state : AgentState) (w : World) (cause : error) :
  setup_succeeds ->
  (if evalMode
   then exists inputBytes,
          stdin = inl inputBytes
          /\ json_Unmarshal inputBytes {| AgentState_Incident := None; Messages := [] |} = (state, None)
   else state = demoState) ->
  Generate (generate_calls w) (SystemMessage (sysPrompt state) :: Messages state)
  = inr cause ->
  main evalMode stdin (Datatypes.S fuel) w
  = Exit 1 (add_stderr ("Agent error: " +:+ model_error cause) (model_called w)).
Proof.
  intros Hsetup Hinput Hfail. rewrite soc_main_with_setup by exact Hsetup.
  assert (Hrun : Invoke NewAgent (Datatypes.S fuel) state w
                 = Ret (Failed (model_error cause)) (model_called w)).
  { unfold Invoke. rewrite soc_NewAgent_shape, run_from_START, soc_after_assistant.
    now rewrite Hfail. }
  destruct evalMode.
  - destruct Hinput as (inputBytes & -> & Hdecode). rewrite Hdecode.
    erewrite bind_Ret by reflexivity. erewrite bind_Ret by exact Hrun. reflexivity.
  - subst state. erewrite bind_Ret by reflexivity.
    erewrite bind_Ret by exact Hrun. reflexivity.
Qed.

End SocMainFacts.

(** * The claims *)

(** C1, as stated, fails: the assistant message lists two invocations, neither
    name is in the handler map, and the executor returns the log as it was;
    the two requests only reach the logger. *)
Lemma C1_unregistered_invocations_get_no_message :
  length (ToolCalls ecommerce_script.asks_add_mul) = 2
  /\ ecommerce_script.toolExecutor ecommerce_script.state_add_mul world0
     = Ret (inl ecommerce_script.state_add_mul)
           (add_logged "Tool mul not found" (add_logged "Tool add not found" world0)).
Proof. split; vm_compute; reflexivity. Qed.

(** Two registered invocations: two Tool messages, in the order requested. *)
Example registered_invocations_answered_in_order :
  ecommerce_script.toolExecutor ecommerce_script.state_refund_then_message world0
  = Ret (inl {| ecommerce_customer_support.AgentState_Order := None;
                ecommerce_customer_support.Messages :=
                  ecommerce_customer_support.Messages
                    ecommerce_script.state_refund_then_message
                  ++ [ToolMessage "refund_queued" "a"; ToolMessage "sent" "b"] |})
        (add_stdout "[TOOL] send_customer_message ->  (Order: )"
           (add_stdout "[TOOL] issue_refund(order_id=, amount=0.00)" world0)).
Proof. vm_compute. reflexivity. Qed.

Section C1.
Context `{Recover} `{ChatModel} `{Fmt}.
Context `{!Marshal ecommerce_customer_support.Order}.
Context `{!Unmarshal ecommerce_customer_support.SendCustomerMessageArgs}.
Context `{!Unmarshal ecommerce_customer_support.IssueRefundArgs}.
Context `{!Unmarshal ecommerce_customer_support.CancelOrderArgs}.
Context `{!Unmarshal ecommerce_customer_support.UpdateAddressArgs}.
Context `{!Marshal it_help_desk.Ticket}.
Context `{!Unmarshal it_help_desk.ProvisionUserAccessArgs}.
Context `{!Unmarshal it_help_desk.TroubleshootNetworkArgs}.
Context `{!Unmarshal it_help_desk.DiagnoseSystemIssueArgs}.
Context `{!Unmarshal it_help_desk.DeploySoftwareArgs}.
Context `{!Unmarshal it_help_desk.ContainSecurityIncidentArgs}.
Context `{!Unmarshal it_help_desk.TroubleshootHardwareArgs}.
Context `{!Unmarshal it_help_desk.AssignRolesArgs}.
Context `{!Unmarshal it_help_desk.EscalateIncidentArgs}.
Context `{!Unmarshal it_help_desk.ApplyPatchesArgs}.
Context `{!Unmarshal it_help_desk.SendUserResponseArgs}.

(** C1 (amended): in one round the tool executor extends the message log by
    exactly one Tool-role message per invocation of the triggering assistant
    message whose name is registered in the handler map, in the original
    invocation order, each carrying the id of its invocation; invocations of
    unregistered names get no message. Holds for the e-commerce and the help
    desk executor, whatever the JSON decoder answers. *)
Theorem C1_one_tool_message_per_registered_invocation :
  (forall (order : option ecommerce_customer_support.Order) (init : list Message)
          (lastMsg : Message) (w : World),
     exists appended w',
       ecommerce_customer_support.toolExecutor
         {| ecommerce_customer_support.AgentState_Order := order;
            ecommerce_customer_support.Messages := init ++ [lastMsg] |} w
       = Ret (inl {| ecommerce_customer_support.AgentState_Order := order;
                     ecommerce_customer_support.Messages := (init ++ [lastMsg]) ++ appended |}) w'
       /\ ToolCallID <$> appended
          = ID <$> filter (registered ecommerce_customer_support.toolHandlers) (ToolCalls lastMsg)
       /\ Forall (fun m => Role m = Tool) appended)
  /\
  (forall (ticket : option it_help_desk.Ticket) (init : list Message)
          (lastMsg : Message) (w : World),
     exists appended w',
       it_help_desk.toolExecutor
         {| it_help_desk.AgentState_Ticket := ticket;
            it_help_desk.Messages := init ++ [lastMsg] |} w
       = Ret (inl {| it_help_desk.AgentState_Ticket := ticket;
                     it_help_desk.Messages := (init ++ [lastMsg]) ++ appended |}) w'
       /\ ToolCallID <$> appended
          = ID <$> filter (registered it_help_desk.toolHandlers) (ToolCalls lastMsg)
       /\ Forall (fun m => Role m = Tool) appended).
Proof.
  split; intros ctx init lastMsg w.
  - apply ecommerce_toolExecutorWith_appends, ecommerce_handlers_return.
  - apply helpdesk_toolExecutorWith_appends, helpdesk_handlers_return.
Qed.

End C1.

(** C2, as stated, fails: for a request of the unregistered tool [add] the SOC
    executor returns the log as it was. No Tool-role message is appended for
    the invocation, so none whose content starts with Error; the request only
    reaches the logger. *)
Lemma C2_unregistered_invocation_gets_no_error_message :
  soc_script.toolHandlers !! Name (Function soc_script.asks_add) = None
  /\ soc_script.toolExecutor soc_script.state_add world0
     = Ret (inl soc_script.state_add) (add_logged "Tool add not found" world0).
Proof. split; vm_compute; reflexivity. Qed.

Section C2.
Import compose.
Context `{Recover} `{ChatModel} `{Fmt}.
Context `{!Marshal ecommerce_customer_support.Order}.
Context `{!Unmarshal ecommerce_customer_support.SendCustomerMessageArgs}.
Context `{!Unmarshal ecommerce_customer_support.IssueRefundArgs}.
Context `{!Unmarshal ecommerce_customer_support.CancelOrderArgs}.
Context `{!Unmarshal ecommerce_customer_support.UpdateAddressArgs}.
Context `{!Marshal soc.Incident}.
Context `{!Unmarshal soc.LookupThreatIntelArgs} `{!Unmarshal soc.QueryLogsArgs}.
Context `{!Unmarshal soc.TriageIncidentArgs} `{!Unmarshal soc.IsolateHostArgs}.
Context `{!Unmarshal soc.SendAnalystResponseArgs}.

(** C2 (amended): for every invocation whose name is not registered in the
    handler map, the tool executor does not raise or crash: the iteration logs
    that the tool was not found and appends no message for that invocation; the
    executor itself returns normally on every log that ends with a message,
    and from the tools node the run goes on with the assistant node, which
    calls the model again. Holds for the e-commerce and the SOC agent. *)
Theorem C2_unregistered_invocation_is_logged_and_skipped :
  ((forall (tc : ToolCall) (msgs : list Message) (w : World),
      ecommerce_customer_support.toolHandlers !! Name (Function tc) = None ->
      toolCall ecommerce_customer_support.toolHandlers
               ecommerce_customer_support.switch_case tc msgs w
      = Ret msgs (add_logged ("Tool " +:+ Name (Function tc) +:+ " not found") w))
   /\ (forall (order : option ecommerce_customer_support.Order) (init : list Message)
              (lastMsg : Message) (w : World),
        exists state' w',
          ecommerce_customer_support.toolExecutor
            {| ecommerce_customer_support.AgentState_Order := order;
               ecommerce_customer_support.Messages := init ++ [lastMsg] |} w
          = Ret (inl state') w')
   /\ (forall (fuel : nat) (state : ecommerce_customer_support.AgentState) (w : World),
        run ecommerce_customer_support.NewAgent (S fuel) "tools" state w
        = (let* r := ecommerce_customer_support.assistant state in
           match r with
           | inr e => ret (Failed (wrapGraphNodeError "assistant" e))
           | inl state' => run ecommerce_customer_support.NewAgent fuel "assistant" state'
           end) w))
  /\
  ((forall (tc : ToolCall) (msgs : list Message) (w : World),
      soc.toolHandlers !! Name (Function tc) = None ->
      toolCall soc.toolHandlers soc.switch_case tc msgs w
      = Ret msgs (add_logged ("Tool " +:+ Name (Function tc) +:+ " not found") w))
   /\ (forall (incident : option soc.Incident) (init : list Message)
              (lastMsg : Message) (w : World),
        exists state' w',
          soc.toolExecutor
            {| soc.AgentState_Incident := incident;
               soc.Messages := init ++ [lastMsg] |} w
          = Ret (inl state') w')
   /\ (forall (fuel : nat) (state : soc.AgentState) (w : World),
        run soc.NewAgent (S fuel) "tools" state w
        = (let* r := soc.assistant state in
           match r with
           | inr e => ret (Failed (wrapGraphNodeError "assistant" e))
           | inl state' => run soc.NewAgent fuel "assistant" state'
           end) w)).
Proof.
  split; (split; [|split]).
  - intros tc msgs w Hnone. now apply toolCall_unregistered.
  - intros order init lastMsg w.
    destruct (ecommerce_toolExecutorWith_appends ecommerce_customer_support.toolHandlers
                order init lastMsg w ecommerce_handlers_return) as (appended & w' & Hexec & _).
    eauto.
  - intros fuel state w.
    rewrite ecommerce_NewAgent_shape, run_from_tools, ecommerce_after_assistant.
    erewrite bind_Ret by apply ecommerce_assistant_step.
    destruct (Generate _ _); reflexivity.
  - intros tc msgs w Hnone. now apply toolCall_unregistered.
  - intros incident init lastMsg w.
    destruct (soc_toolExecutorWith_appends soc.toolHandlers
                incident init lastMsg w soc_handlers_return) as (appended & w' & Hexec & _).
    eauto.
  - intros fuel state w.
    rewrite soc_NewAgent_shape, run_from_tools, soc_after_assistant.
    erewrite bind_Ret by apply soc_assistant_step.
    destruct (Generate _ _); reflexivity.
Qed.

End C2.

(** C2 at the request for [add]: the iteration of the SOC executor leaves the
    messages alone and writes one log line. *)
Lemma C2_skip_witness :
  soc_script.toolHandlers !! Name (Function soc_script.asks_add) = None
  /\ toolCall soc_script.toolHandlers soc_script.switch_case soc_script.asks_add
       (soc.Messages soc_script.state_add) world0
     = Ret (soc.Messages soc_script.state_add) (add_logged "Tool add not found" world0).
Proof.
  assert (Hnone : soc_script.toolHandlers !! Name (Function soc_script.asks_add) = None)
    by (vm_compute; reflexivity).
  split; [exact Hnone|].
  exact (proj1 (proj2 (@C2_unregistered_invocation_is_logged_and_skipped
                         scripted.recover
                         (scripted.model []) scripted.fmt_small_integers
                         (scripted.json_fixed "null")
                         ecommerce_script.json_send ecommerce_script.json_refund
                         ecommerce_script.json_cancel ecommerce_script.json_address
                         (scripted.json_fixed "null")
                         soc_script.json_lookup soc_script.json_query
                         soc_script.json_triage soc_script.json_isolate
                         soc_script.json_respond))
           soc_script.asks_add (soc.Messages soc_script.state_add) world0 Hnone).
Defined.

(** C3, as stated, fails: the arguments of the refund request are not JSON and
    the decoder reports it, yet the message appended for the invocation carries
    the tool's ordinary result, not an error description: the executor drops
    the decoder's error and runs the handler on the zero-valued struct. *)
Lemma C3_decode_failure_is_not_reported :
  ecommerce_script.decode_error ecommerce_script.asks_refund_garbled
  = Some "invalid character 'o' looking for beginning of value"
  /\ ecommerce_script.toolExecutor ecommerce_script.state_refund_garbled world0
     = Ret (inl {| ecommerce_customer_support.AgentState_Order := None;
                   ecommerce_customer_support.Messages :=
                     ecommerce_customer_support.Messages ecommerce_script.state_refund_garbled
                     ++ [ToolMessage "refund_queued" "call_7"] |})
           (add_stdout "[TOOL] issue_refund(order_id=, amount=0.00)" world0).
Proof. split; vm_compute; reflexivity. Qed.

Section C3.
Import ecommerce_customer_support soc.
Context `{Recover} `{ChatModel} `{Fmt}.
Context `{!Marshal ecommerce_customer_support.Order}.
Context `{!Unmarshal ecommerce_customer_support.SendCustomerMessageArgs}.
Context `{!Unmarshal ecommerce_customer_support.IssueRefundArgs}.
Context `{!Unmarshal ecommerce_customer_support.CancelOrderArgs}.
Context `{!Unmarshal ecommerce_customer_support.UpdateAddressArgs}.
Context `{!Marshal soc.Incident}.
Context `{!Unmarshal soc.LookupThreatIntelArgs} `{!Unmarshal soc.QueryLogsArgs}.
Context `{!Unmarshal soc.TriageIncidentArgs} `{!Unmarshal soc.IsolateHostArgs}.
Context `{!Unmarshal soc.SendAnalystResponseArgs}.

(** C3 (amended): for every invocation of a registered tool whose arguments
    fail to deserialize, the tool executor drops the deserialization error,
    runs the handler on the argument struct as the decoder left it, and
    appends a Tool-role message with the invocation id whose content is the
    handler's result; it never fails at the process level. Tool by tool, for
    the e-commerce and the SOC executor: when the decoder leaves [partial] and
    reports an error, the iteration is the call of the handler on [partial]
    followed by the append, whatever handler the map holds; and with the
    handlers of the package it prints the tool's line with the fields of
    [partial] and appends the tool's ordinary result. And on every log that
    ends with a message the executor of the package returns, with the
    ordinary result of its tool appended for every registered invocation,
    whether or not its arguments decode. *)
Theorem C3_decode_failure_yields_handler_result :
  (((forall (tc : ToolCall) (partial : SendCustomerMessageArgs) (e : error)
            (msgs : list Message) (w : World),
       Name (Function tc) = "send_customer_message" ->
       json_Unmarshal (Arguments (Function tc)) zero_SendCustomerMessageArgs
       = (partial, Some e) ->
       (forall (handlers : gmap string Handler) (handler : Handler),
          handlers !! Name (Function tc) = Some handler ->
          toolCall handlers ecommerce_customer_support.switch_case tc msgs w
          = (let* '(resultStr, err) := handler (PtrSendCustomerMessageArgs partial) in
             ret (msgs ++ [toolMessage tc resultStr err])) w)
       /\ toolCall ecommerce_customer_support.toolHandlers ecommerce_customer_support.switch_case
                   tc msgs w
          = Ret (msgs ++ [ToolMessage "sent" (ID tc)])
                (add_stdout ("[TOOL] send_customer_message -> "
                         +:+ SendCustomerMessageArgs_Text partial +:+ " (Order: "
                         +:+ SendCustomerMessageArgs_OrderID partial +:+ ")") w))
   /\
    (forall (tc : ToolCall) (partial : IssueRefundArgs) (e : error)
            (msgs : list Message) (w : World),
       Name (Function tc) = "issue_refund" ->
       json_Unmarshal (Arguments (Function tc)) zero_IssueRefundArgs
       = (partial, Some e) ->
       (forall (handlers : gmap string Handler) (handler : Handler),
          handlers !! Name (Function tc) = Some handler ->
          toolCall handlers ecommerce_customer_support.switch_case tc msgs w
          = (let* '(resultStr, err) := handler (PtrIssueRefundArgs partial) in
             ret (msgs ++ [toolMessage tc resultStr err])) w)
       /\ toolCall ecommerce_customer_support.toolHandlers ecommerce_customer_support.switch_case
                   tc msgs w
          = Ret (msgs ++ [ToolMessage "refund_queued" (ID tc)])
                (add_stdout ("[TOOL] issue_refund(order_id=" +:+ IssueRefundArgs_OrderID partial
                         +:+ ", amount=" +:+ Sprintf_2f (IssueRefundArgs_Amount partial) +:+ ")") w))
   /\
    (forall (tc : ToolCall) (partial : CancelOrderArgs) (e : error)
            (msgs : list Message) (w : World),
       Name (Function tc) = "cancel_order" ->
       json_Unmarshal (Arguments (Function tc)) zero_CancelOrderArgs
       = (partial, Some e) ->
       (forall (handlers : gmap string Handler) (handler : Handler),
          handlers !! Name (Function tc) = Some handler ->
          toolCall handlers ecommerce_customer_support.switch_case tc msgs w
          = (let* '(resultStr, err) := handler (PtrCancelOrderArgs partial) in
             ret (msgs ++ [toolMessage tc resultStr err])) w)
       /\ toolCall ecommerce_customer_support.toolHandlers ecommerce_customer_support.switch_case
                   tc msgs w
          = Ret (msgs ++ [ToolMessage "cancelled" (ID tc)])
                (add_stdout ("[TOOL] cancel_order(order_id=" +:+ CancelOrderArgs_OrderID partial
                         +:+ ")") w))
   /\
    (forall (tc : ToolCall) (partial : UpdateAddressArgs) (e : error)
            (msgs : list Message) (w : World),
       Name (Function tc) = "update_address_for_order" ->
       json_Unmarshal (Arguments (Function tc)) zero_UpdateAddressArgs
       = (partial, Some e) ->
       (forall (handlers : gmap string Handler) (handler : Handler),
          handlers !! Name (Function tc) = Some handler ->
          toolCall handlers ecommerce_customer_support.switch_case tc msgs w
          = (let* '(resultStr, err) := handler (PtrUpdateAddressArgs partial) in
             ret (msgs ++ [toolMessage tc resultStr err])) w)
       /\ toolCall ecommerce_customer_support.toolHandlers ecommerce_customer_support.switch_case
                   tc msgs w
          = Ret (msgs ++ [ToolMessage "address_updated" (ID tc)])
                (add_stdout ("[TOOL] update_address_for_order(order_id="
                         +:+ UpdateAddressArgs_OrderID partial +:+ ", address="
                         +:+ UpdateAddressArgs_ShippingAddress partial +:+ ")") w)))
   /\
   (forall (order : option ecommerce_customer_support.Order) (init : list Message) (lastMsg : Message) (w : World),
      exists w',
        ecommerce_customer_support.toolExecutor
          {| ecommerce_customer_support.AgentState_Order := order; ecommerce_customer_support.Messages := init ++ [lastMsg] |} w
        = Ret (inl {| ecommerce_customer_support.AgentState_Order := order;
                      ecommerce_customer_support.Messages :=
                        (init ++ [lastMsg])
                        ++ ((fun tc => ToolMessage (ecommerce_result (Name (Function tc))) (ID tc))
                              <$> filter (registered ecommerce_customer_support.toolHandlers)
                                    (ToolCalls lastMsg)) |}) w'))
  /\
  (((forall (tc : ToolCall) (partial : LookupThreatIntelArgs) (e : error)
            (msgs : list Message) (w : World),
       Name (Function tc) = "lookup_threat_intel" ->
       json_Unmarshal (Arguments (Function tc)) zero_LookupThreatIntelArgs
       = (partial, Some e) ->
       (forall (handlers : gmap string Handler) (handler : Handler),
          handlers !! Name (Function tc) = Some handler ->
          toolCall handlers soc.switch_case tc msgs w
          = (let* '(resultStr, err) := handler (PtrLookupThreatIntelArgs partial) in
             ret (msgs ++ [toolMessage tc resultStr err])) w)
       /\ toolCall soc.toolHandlers soc.switch_case
                   tc msgs w
          = Ret (msgs ++ [ToolMessage "threat_intel_retrieved" (ID tc)])
                (add_stdout ("[TOOL] lookup_threat_intel(ind="
                         +:+ LookupThreatIntelArgs_Indicator partial +:+ ", type="
                         +:+ LookupThreatIntelArgs_Type partial +:+ ")") w))
   /\
    (forall (tc : ToolCall) (partial : QueryLogsArgs) (e : error)
            (msgs : list Message) (w : World),
       Name (Function tc) = "query_logs" ->
       json_Unmarshal (Arguments (Function tc)) zero_QueryLogsArgs
       = (partial, Some e) ->
       (forall (handlers : gmap string Handler) (handler : Handler),
          handlers !! Name (Function tc) = Some handler ->
          toolCall handlers soc.switch_case tc msgs w
          = (let* '(resultStr, err) := handler (PtrQueryLogsArgs partial) in
             ret (msgs ++ [toolMessage tc resultStr err])) w)
       /\ toolCall soc.toolHandlers soc.switch_case
                   tc msgs w
          = Ret (msgs ++ [ToolMessage "log_query_executed" (ID tc)])
                (add_stdout ("[TOOL] query_logs(q=" +:+ QueryLogsArgs_Query partial +:+ ", idx="
                         +:+ QueryLogsArgs_LogIndex partial +:+ ")") w))
   /\
    (forall (tc : ToolCall) (partial : TriageIncidentArgs) (e : error)
            (msgs : list Message) (w : World),
       Name (Function tc) = "triage_incident" ->
       json_Unmarshal (Arguments (Function tc)) zero_TriageIncidentArgs
       = (partial, Some e) ->
       (forall (handlers : gmap string Handler) (handler : Handler),
          handlers !! Name (Function tc) = Some handler ->
          toolCall handlers soc.switch_case tc msgs w
          = (let* '(resultStr, err) := handler (PtrTriageIncidentArgs partial) in
             ret (msgs ++ [toolMessage tc resultStr err])) w)
       /\ toolCall soc.toolHandlers soc.switch_case
                   tc msgs w
          = Ret (msgs ++ [ToolMessage "incident_triaged" (ID tc)])
                (add_stdout ("[TOOL] triage_incident(id=" +:+ TriageIncidentArgs_IncidentID partial
                         +:+ ", decision=" +:+ TriageIncidentArgs_Decision partial +:+ ")") w))
   /\
    (forall (tc : ToolCall) (partial : IsolateHostArgs) (e : error)
            (msgs : list Message) (w : World),
       Name (Function tc) = "isolate_host" ->
       json_Unmarshal (Arguments (Function tc)) zero_IsolateHostArgs
       = (partial, Some e) ->
       (forall (handlers : gmap string Handler) (handler : Handler),
          handlers !! Name (Function tc) = Some handler ->
          toolCall handlers soc.switch_case tc msgs w
          = (let* '(resultStr, err) := handler (PtrIsolateHostArgs partial) in
             ret (msgs ++ [toolMessage tc resultStr err])) w)
       /\ toolCall soc.toolHandlers soc.switch_case
                   tc msgs w
          = Ret (msgs ++ [ToolMessage "host_isolated" (ID tc)])
                (add_stdout ("[TOOL] isolate_host(host=" +:+ IsolateHostArgs_HostID partial +:+ ")") w))
   /\
    (forall (tc : ToolCall) (partial : SendAnalystResponseArgs) (e : error)
            (msgs : list Message) (w : World),
       Name (Function tc) = "send_analyst_response" ->
       json_Unmarshal (Arguments (Function tc)) zero_SendAnalystResponseArgs
       = (partial, Some e) ->
       (forall (handlers : gmap string Handler) (handler : Handler),
          handlers !! Name (Function tc) = Some handler ->
          toolCall handlers soc.switch_case tc msgs w
          = (let* '(resultStr, err) := handler (PtrSendAnalystResponseArgs partial) in
             ret (msgs ++ [toolMessage tc resultStr err])) w)
       /\ toolCall soc.toolHandlers soc.switch_case
                   tc msgs w
          = Ret (msgs ++ [ToolMessage "analyst_response_sent" (ID tc)])
                (add_stdout ("[TOOL] send_analyst_response -> "
                         +:+ SendAnalystResponseArgs_Message partial) w)))
   /\
   (forall (incident : option soc.Incident) (init : list Message) (lastMsg : Message) (w : World),
      exists w',
        soc.toolExecutor
          {| soc.AgentState_Incident := incident; soc.Messages := init ++ [lastMsg] |} w
        = Ret (inl {| soc.AgentState_Incident := incident;
                      soc.Messages :=
                        (init ++ [lastMsg])
                        ++ ((fun tc => ToolMessage (soc_result (Name (Function tc))) (ID tc))
                              <$> filter (registered soc.toolHandlers)
                                    (ToolCalls lastMsg)) |}) w')).
Proof.
  split; (split; [repeat match goal with |- _ /\ _ => split end|]).
  all: try (intros ctx init lastMsg w; eexists;
            first [apply ecommerce_toolExecutor_effect | apply soc_toolExecutor_effect]).
  all: intros tc partial e msgs w Hname Hdecode;
    (split;
     [ intros handlers handler Hlook; unfold toolCall; rewrite Hlook;
       first [
         rewrite (ecommerce_switch_send_customer_message handler tc Hname)
             | rewrite (ecommerce_switch_issue_refund handler tc Hname)
             | rewrite (ecommerce_switch_cancel_order handler tc Hname)
             | rewrite (ecommerce_switch_update_address_for_order handler tc Hname)
             | rewrite (soc_switch_lookup_threat_intel handler tc Hname)
             | rewrite (soc_switch_query_logs handler tc Hname)
             | rewrite (soc_switch_triage_incident handler tc Hname)
             | rewrite (soc_switch_isolate_host handler tc Hname)
             | rewrite (soc_switch_send_analyst_response handler tc Hname) ];
       rewrite Hdecode; reflexivity
     | first [rewrite ecommerce_toolCall_result by (apply ecommerce_registered_names; rewrite Hname; name_in_literal); unfold ecommerce_result, ecommerce_tool_line
             | rewrite soc_toolCall_result by (apply soc_registered_names; rewrite Hname; name_in_literal); unfold soc_result, soc_tool_line ];
       rewrite Hname, Hdecode; reflexivity ]).
Qed.

End C3.

Section C3Witness.
Import more_scripts.
#[local] Existing Instance scripted.fmt_small_integers.
#[local] Existing Instance json_empty_object | 10.
#[local] Existing Instance ecommerce_script.json_refund_partial | 0.

(** C3 at a refund request whose amount is a string: the decoder fills in the
    order id and reports the amount; the refund tool runs on that struct. *)
Lemma C3_refund_all_witness :
  json_Unmarshal ecommerce_script.refund_all_payload
    ecommerce_customer_support.zero_IssueRefundArgs
  = ({| ecommerce_customer_support.IssueRefundArgs_OrderID := "A12345";
        ecommerce_customer_support.IssueRefundArgs_Amount := S754_zero false |},
     Some ecommerce_script.refund_all_error)
  /\ toolCall ecommerce_customer_support.toolHandlers ecommerce_customer_support.switch_case
       ecommerce_script.asks_refund_all [] world0
     = Ret [ToolMessage "refund_queued" "call_8"]
           (add_stdout "[TOOL] issue_refund(order_id=A12345, amount=0.00)" world0).
Proof.
  split; [reflexivity|].
  refine (proj2 ((proj1 (proj2 (proj1 (proj1 C3_decode_failure_yields_handler_result))))
                   ecommerce_script.asks_refund_all
                   {| ecommerce_customer_support.IssueRefundArgs_OrderID := "A12345";
                      ecommerce_customer_support.IssueRefundArgs_Amount := S754_zero false |}
                   ecommerce_script.refund_all_error [] world0 _ _));
    reflexivity.
Defined.

End C3Witness.

(** C4, as stated, fails: the answer carries both text and a tool request, and
    the branch sends the run to the tools node instead of ending it. *)
Lemma C4_text_with_tool_request_enters_tools :
  Content ecommerce_script.says_and_asks = "Refunding now."
  /\ length (ToolCalls ecommerce_script.says_and_asks) = 1
  /\ compose.condition ecommerce_customer_support.branch
       ecommerce_script.state_says_and_asks world0
     = Ret (inl "tools") world0.
Proof. repeat split; vm_compute; reflexivity. Qed.

Section C4.
Import compose.
Context `{Recover} `{ChatModel} `{Fmt}.
Context `{!Marshal ecommerce_customer_support.Order}.
Context `{!Unmarshal ecommerce_customer_support.SendCustomerMessageArgs}.
Context `{!Unmarshal ecommerce_customer_support.IssueRefundArgs}.
Context `{!Unmarshal ecommerce_customer_support.CancelOrderArgs}.
Context `{!Unmarshal ecommerce_customer_support.UpdateAddressArgs}.
Context `{!Marshal soc.Incident}.
Context `{!Unmarshal soc.LookupThreatIntelArgs} `{!Unmarshal soc.QueryLogsArgs}.
Context `{!Unmarshal soc.TriageIncidentArgs} `{!Unmarshal soc.IsolateHostArgs}.
Context `{!Unmarshal soc.SendAnalystResponseArgs}.

(** C4 (amended): the loop controller looks at the tool invocations of the
    assistant message alone. A message without tool invocations, empty
    content included, ends the loop as the final answer; a message with tool
    invocations, whether or not it also has content, enters tool execution.
    Holds for the e-commerce and the SOC graph. *)
Theorem C4_branch_follows_tool_invocations_only :
  (forall (fuel : nat) (order : option ecommerce_customer_support.Order)
          (init : list Message) (resp : Message) (w : World),
     let state := {| ecommerce_customer_support.AgentState_Order := order;
                     ecommerce_customer_support.Messages := init ++ [resp] |} in
     condition ecommerce_customer_support.branch state w
     = Ret (inl match ToolCalls resp with [] => END | _ :: _ => "tools" end) w
     /\ run ecommerce_customer_support.NewAgent (S fuel) "assistant" state w
        = match ToolCalls resp with
          | [] => Ret (Done state) w
          | _ :: _ =>
              (let* r := ecommerce_customer_support.toolExecutor state in
               match r with
               | inr e => ret (Failed e)
               | inl state' => run ecommerce_customer_support.NewAgent fuel "tools" state'
               end) w
          end)
  /\
  (forall (fuel : nat) (incident : option soc.Incident)
          (init : list Message) (resp : Message) (w : World),
     let state := {| soc.AgentState_Incident := incident;
                     soc.Messages := init ++ [resp] |} in
     condition soc.branch state w
     = Ret (inl match ToolCalls resp with [] => END | _ :: _ => "tools" end) w
     /\ run soc.NewAgent (S fuel) "assistant" state w
        = match ToolCalls resp with
          | [] => Ret (Done state) w
          | _ :: _ =>
              (let* r := soc.toolExecutor state in
               match r with
               | inr e => ret (Failed e)
               | inl state' => run soc.NewAgent fuel "tools" state'
               end) w
          end).
Proof.
  split; intros fuel ctx init resp w state; subst state; split.
  - apply ecommerce_branch_condition.
  - apply ecommerce_run_from_assistant.
  - apply soc_branch_condition.
  - apply soc_run_from_assistant.
Qed.

End C4.

(** C5, as stated, fails. The scripted round trip of the specification, run
    through the direct loop (the one program that registers [add]), ends with
    a log of three messages and none of role System: the question, the
    assistant message with the invocation and the tool result 5; the final
    answer 5 is printed, not appended. And a round trip through the e-commerce
    graph from one user message ends with a log of four messages that starts
    with the user message: the system prompt is never stored. *)
Section C5Example.
#[local] Existing Instance scripted.recover.

Lemma C5_round_trip_log_has_no_system_message :
  (math_script.main world0
   = Ret math_script.round_trip_log
         (add_stdout "5"
            (add_stdout ("add(" +:+ scripted.xy_payload "2" "3" +:+ ") = 5")
               (model_called (model_called world0))))
   /\ Role <$> math_script.round_trip_log = [User; Assistant; Tool])
  /\ (exists finalState w',
        compose.Invoke ecommerce_script.NewAgent_cancel 4 ecommerce_script.state_cancel world0
        = Ret (compose.Done finalState) w'
        /\ Role <$> ecommerce_customer_support.Messages finalState
           = [User; Assistant; Tool; Assistant]).
Proof.
  split; [split|].
  - vm_compute. reflexivity.
  - reflexivity.
  - eexists _, _. split; vm_compute; reflexivity.
Qed.

End C5Example.

Section C5.
Import compose.
Context `{Recover} `{ChatModel} `{Fmt}.
Context `{!Marshal ecommerce_customer_support.Order}.
Context `{!Unmarshal ecommerce_customer_support.SendCustomerMessageArgs}.
Context `{!Unmarshal ecommerce_customer_support.IssueRefundArgs}.
Context `{!Unmarshal ecommerce_customer_support.CancelOrderArgs}.
Context `{!Unmarshal ecommerce_customer_support.UpdateAddressArgs}.
Context `{math_tools.MathPow} `{!Unmarshal (option math_tools.MathArgs)}.

(** C5 (amended): the message log holds the caller's initial messages only;
    the system prompt built from the scenario record is put in front of the
    input of every model call and is never stored. So (1) the assistant node
    calls the model on the system message followed by the log and appends only
    the answer; (2) in a graph agent, a round with one registered tool
    followed by an answer without invocations ends the run, given four steps
    or more, with the initial log extended by exactly three messages
    (assistant with invocation, tool result, final assistant); (3) in the
    direct loop, the round trip add(x, y) ends with the log of three messages
    (user, assistant with invocation, tool result) and prints the final
    content without appending it. *)
Theorem C5_log_starts_with_user_messages :
  (forall (state : ecommerce_customer_support.AgentState) (w : World),
     ecommerce_customer_support.assistant state w
     = Ret match Generate (generate_calls w)
                   (SystemMessage (ecommerce_customer_support.sysPrompt state)
                    :: ecommerce_customer_support.Messages state) with
           | inl resp =>
               inl {| ecommerce_customer_support.AgentState_Order :=
                        ecommerce_customer_support.AgentState_Order state;
                      ecommerce_customer_support.Messages :=
                        ecommerce_customer_support.Messages state ++ [resp] |}
           | inr err => inr err
           end
           (model_called w))
  /\
  (forall (fuel : nat) (order : option ecommerce_customer_support.Order)
          (init : list Message) (resp1 resp2 : Message) (tc : ToolCall) (w : World),
     let state0 := {| ecommerce_customer_support.AgentState_Order := order;
                      ecommerce_customer_support.Messages := init |} in
     let toolMsg := ToolMessage (ecommerce_result (Name (Function tc))) (ID tc) in
     Generate (generate_calls w)
              (SystemMessage (ecommerce_customer_support.sysPrompt state0) :: init)
     = inl resp1 ->
     ToolCalls resp1 = [tc] ->
     is_Some (ecommerce_customer_support.toolHandlers !! Name (Function tc)) ->
     Generate (S (generate_calls w))
              (SystemMessage (ecommerce_customer_support.sysPrompt state0)
               :: (init ++ [resp1]) ++ [toolMsg])
     = inl resp2 ->
     ToolCalls resp2 = [] ->
     exists w',
       Invoke ecommerce_customer_support.NewAgent (4 + fuel) state0 w
       = Ret (Done {| ecommerce_customer_support.AgentState_Order := order;
                      ecommerce_customer_support.Messages :=
                        ((init ++ [resp1]) ++ [toolMsg]) ++ [resp2] |}) w'
       /\ generate_calls w' = 2 + generate_calls w)
  /\
  (forall (w : World) (resp final : Message) (tc : ToolCall) (args : math_tools.MathArgs),
     let question := UserMessage "What is 393 * 12.25? Also, what is 11 + 49?" in
     let sum := Sprintf_v (float64_add (math_tools.X args) (math_tools.Y args)) in
     Generate (generate_calls w) [question] = inl resp ->
     ToolCalls resp = [tc] ->
     Name (Function tc) = "add" ->
     json_Unmarshal (Arguments (Function tc))
       (Some {| math_tools.X := S754_zero false; math_tools.Y := S754_zero false |})
     = (Some args, None) ->
     Generate (S (generate_calls w)) [question; resp; ToolMessage sum (ID tc)] = inl final ->
     math_tools.main w
     = Ret [question; resp; ToolMessage sum (ID tc)]
           (add_stdout (Content final)
              (add_stdout ("add(" +:+ Arguments (Function tc) +:+ ") = " +:+ sum)
                 (model_called (model_called w))))).
Proof.
  split; [|split].
  - apply ecommerce_assistant_step.
  - intros fuel order init resp1 resp2 tc w. apply ecommerce_round_trip.
  - intros w resp final tc args. apply main_add_round_trip.
Qed.

End C5.

(** C5 at the scripted round trip add(x=2, y=3). *)
Lemma C5_add_2_3_witness :
  math_script.main world0
  = Ret [UserMessage math_script.question;
         scripted.assistantMessage "" [math_script.asks_add];
         ToolMessage "5" "call_1"]
        (add_stdout "5"
           (add_stdout ("add(" +:+ scripted.xy_payload "2" "3" +:+ ") = 5")
              (model_called (model_called world0)))).
Proof.
  refine (proj2 (proj2 (@C5_log_starts_with_user_messages
                          scripted.recover
                          scripted.model_add_2_3 scripted.fmt_small_integers
                          ecommerce_script.json_order
                          ecommerce_script.json_send ecommerce_script.json_refund
                          ecommerce_script.json_cancel ecommerce_script.json_address
                          scripted.pow_unused math_script.json_args))
            world0 (scripted.assistantMessage "" [math_script.asks_add])
            (scripted.assistantMessage "5" []) math_script.asks_add
            {| math_tools.X := scripted.two; math_tools.Y := scripted.three |}
            _ _ _ _ _); reflexivity.
Defined.

Section C6.
Import ecommerce_customer_support it_help_desk.
Context `{Recover} `{ChatModel} `{Fmt}.
Context `{!Marshal ecommerce_customer_support.Order}.
Context `{!Unmarshal ecommerce_customer_support.SendCustomerMessageArgs}.
Context `{!Unmarshal ecommerce_customer_support.IssueRefundArgs}.
Context `{!Unmarshal ecommerce_customer_support.CancelOrderArgs}.
Context `{!Unmarshal ecommerce_customer_support.UpdateAddressArgs}.
Context `{!Marshal it_help_desk.Ticket}.
Context `{!Unmarshal it_help_desk.ProvisionUserAccessArgs}.
Context `{!Unmarshal it_help_desk.TroubleshootNetworkArgs}.
Context `{!Unmarshal it_help_desk.DiagnoseSystemIssueArgs}.
Context `{!Unmarshal it_help_desk.DeploySoftwareArgs}.
Context `{!Unmarshal it_help_desk.ContainSecurityIncidentArgs}.
Context `{!Unmarshal it_help_desk.TroubleshootHardwareArgs}.
Context `{!Unmarshal it_help_desk.AssignRolesArgs}.
Context `{!Unmarshal it_help_desk.EscalateIncidentArgs}.
Context `{!Unmarshal it_help_desk.ApplyPatchesArgs}.
Context `{!Unmarshal it_help_desk.SendUserResponseArgs}.

(** C6: whatever handlers the executor closes over, when the handler resolved
    for an invocation returns an error, the tool executor appends a Tool-role
    message with the invocation id whose content is Error: followed by the
    error text, and the handler's failure does not leave the executor. Tool
    by tool, for the e-commerce and the help desk executor: when the handler,
    called on the argument struct decoded from the invocation, returns an
    error, the iteration returns with exactly that message appended. And for
    a message with any number of invocations and handlers that answer by the
    name of their tool, with a result or with an error, the executor returns
    with one message per registered invocation, in order: the result, or
    Error: and the error text. *)
Theorem C6_handler_error_becomes_message_content :
  (((forall (handlers : gmap string Handler) (handler : Handler) (tc : ToolCall)
            (resultStr : string) (e : error) (msgs : list Message) (w w' : World),
       Name (Function tc) = "send_customer_message" ->
       handlers !! Name (Function tc) = Some handler ->
       handler (PtrSendCustomerMessageArgs
                  (fst (json_Unmarshal (Arguments (Function tc)) zero_SendCustomerMessageArgs))) w
       = Ret (resultStr, Some e) w' ->
       toolCall handlers ecommerce_customer_support.switch_case tc msgs w
       = Ret (msgs ++ [ToolMessage ("Error: " +:+ e) (ID tc)]) w')
   /\
    (forall (handlers : gmap string Handler) (handler : Handler) (tc : ToolCall)
            (resultStr : string) (e : error) (msgs : list Message) (w w' : World),
       Name (Function tc) = "issue_refund" ->
       handlers !! Name (Function tc) = Some handler ->
       handler (PtrIssueRefundArgs
                  (fst (json_Unmarshal (Arguments (Function tc)) zero_IssueRefundArgs))) w
       = Ret (resultStr, Some e) w' ->
       toolCall handlers ecommerce_customer_support.switch_case tc msgs w
       = Ret (msgs ++ [ToolMessage ("Error: " +:+ e) (ID tc)]) w')
   /\
    (forall (handlers : gmap string Handler) (handler : Handler) (tc : ToolCall)
            (resultStr : string) (e : error) (msgs : list Message) (w w' : World),
       Name (Function tc) = "cancel_order" ->
       handlers !! Name (Function tc) = Some handler ->
       handler (PtrCancelOrderArgs
                  (fst (json_Unmarshal (Arguments (Function tc)) zero_CancelOrderArgs))) w
       = Ret (resultStr, Some e) w' ->
       toolCall handlers ecommerce_customer_support.switch_case tc msgs w
       = Ret (msgs ++ [ToolMessage ("Error: " +:+ e) (ID tc)]) w')
   /\
    (forall (handlers : gmap string Handler) (handler : Handler) (tc : ToolCall)
            (resultStr : string) (e : error) (msgs : list Message) (w w' : World),
       Name (Function tc) = "update_address_for_order" ->
       handlers !! Name (Function tc) = Some handler ->
       handler (PtrUpdateAddressArgs
                  (fst (json_Unmarshal (Arguments (Function tc)) zero_UpdateAddressArgs))) w
       = Ret (resultStr, Some e) w' ->
       toolCall handlers ecommerce_customer_support.switch_case tc msgs w
       = Ret (msgs ++ [ToolMessage ("Error: " +:+ e) (ID tc)]) w'))
   /\
   (forall (handlers : gmap string Handler) (outcome : string -> string * option error),
      handlers_answer handlers ecommerce_tool_names outcome ->
      forall (order : option ecommerce_customer_support.Order) (init : list Message) (lastMsg : Message) (w : World),
      exists w',
        ecommerce_customer_support.toolExecutorWith handlers
          {| ecommerce_customer_support.AgentState_Order := order; ecommerce_customer_support.Messages := init ++ [lastMsg] |} w
        = Ret (inl {| ecommerce_customer_support.AgentState_Order := order;
                      ecommerce_customer_support.Messages :=
                        (init ++ [lastMsg])
                        ++ outcome_messages handlers outcome (ToolCalls lastMsg) |}) w'))
  /\
  (((forall (handlers : gmap string Handler) (handler : Handler) (tc : ToolCall)
            (resultStr : string) (e : error) (msgs : list Message) (w w' : World),
       Name (Function tc) = "provision_user_access" ->
       handlers !! Name (Function tc) = Some handler ->
       handler (PtrProvisionUserAccessArgs
                  (fst (json_Unmarshal (Arguments (Function tc)) zero_ProvisionUserAccessArgs))) w
       = Ret (resultStr, Some e) w' ->
       toolCall handlers it_help_desk.switch_case tc msgs w
       = Ret (msgs ++ [ToolMessage ("Error: " +:+ e) (ID tc)]) w')
   /\
    (forall (handlers : gmap string Handler) (handler : Handler) (tc : ToolCall)
            (resultStr : string) (e : error) (msgs : list Message) (w w' : World),
       Name (Function tc) = "troubleshoot_network" ->
       handlers !! Name (Function tc) = Some handler ->
       handler (PtrTroubleshootNetworkArgs
                  (fst (json_Unmarshal (Arguments (Function tc)) zero_TroubleshootNetworkArgs))) w
       = Ret (resultStr, Some e) w' ->
       toolCall handlers it_help_desk.switch_case tc msgs w
       = Ret (msgs ++ [ToolMessage ("Error: " +:+ e) (ID tc)]) w')
   /\
    (forall (handlers : gmap string Handler) (handler : Handler) (tc : ToolCall)
            (resultStr : string) (e : error) (msgs : list Message) (w w' : World),
       Name (Function tc) = "diagnose_system_issue" ->
       handlers !! Name (Function tc) = Some handler ->
       handler (PtrDiagnoseSystemIssueArgs
                  (fst (json_Unmarshal (Arguments (Function tc)) zero_DiagnoseSystemIssueArgs))) w
       = Ret (resultStr, Some e) w' ->
       toolCall handlers it_help_desk.switch_case tc msgs w
       = Ret (msgs ++ [ToolMessage ("Error: " +:+ e) (ID tc)]) w')
   /\
    (forall (handlers : gmap string Handler) (handler : Handler) (tc : ToolCall)
            (resultStr : string) (e : error) (msgs : list Message) (w w' : World),
       Name (Function tc) = "deploy_software" ->
       handlers !! Name (Function tc) = Some handler ->
       handler (PtrDeploySoftwareArgs
                  (fst (json_Unmarshal (Arguments (Function tc)) zero_DeploySoftwareArgs))) w
       = Ret (resultStr, Some e) w' ->
       toolCall handlers it_help_desk.switch_case tc msgs w
       = Ret (msgs ++ [ToolMessage ("Error: " +:+ e) (ID tc)]) w')
   /\
    (forall (handlers : gmap string Handler) (handler : Handler) (tc : ToolCall)
            (resultStr : string) (e : error) (msgs : list Message) (w w' : World),
       Name (Function tc) = "contain_security_incident" ->
       handlers !! Name (Function tc) = Some handler ->
       handler (PtrContainSecurityIncidentArgs
                  (fst (json_Unmarshal (Arguments (Function tc)) zero_ContainSecurityIncidentArgs))) w
       = Ret (resultStr, Some e) w' ->
       toolCall handlers it_help_desk.switch_case tc msgs w
       = Ret (msgs ++ [ToolMessage ("Error: " +:+ e) (ID tc)]) w')
   /\
    (forall (handlers : gmap string Handler) (handler : Handler) (tc : ToolCall)
            (resultStr : string) (e : error) (msgs : list Message) (w w' : World),
       Name (Function tc) = "troubleshoot_hardware" ->
       handlers !! Name (Function tc) = Some handler ->
       handler (PtrTroubleshootHardwareArgs
                  (fst (json_Unmarshal (Arguments (Function tc)) zero_TroubleshootHardwareArgs))) w
       = Ret (resultStr, Some e) w' ->
       toolCall handlers it_help_desk.switch_case tc msgs w
       = Ret (msgs ++ [ToolMessage ("Error: " +:+ e) (ID tc)]) w')
   /\
    (forall (handlers : gmap string Handler) (handler : Handler) (tc : ToolCall)
            (resultStr : string) (e : error) (msgs : list Message) (w w' : World),
       Name (Function tc) = "assign_roles" ->
       handlers !! Name (Function tc) = Some handler ->
       handler (PtrAssignRolesArgs
                  (fst (json_Unmarshal (Arguments (Function tc)) zero_AssignRolesArgs))) w
       = Ret (resultStr, Some e) w' ->
       toolCall handlers it_help_desk.switch_case tc msgs w
       = Ret (msgs ++ [ToolMessage ("Error: " +:+ e) (ID tc)]) w')
   /\
    (forall (handlers : gmap string Handler) (handler : Handler) (tc : ToolCall)
            (resultStr : string) (e : error) (msgs : list Message) (w w' : World),
       Name (Function tc) = "escalate_incident" ->
       handlers !! Name (Function tc) = Some handler ->
       handler (PtrEscalateIncidentArgs
                  (fst (json_Unmarshal (Arguments (Function tc)) zero_EscalateIncidentArgs))) w
       = Ret (resultStr, Some e) w' ->
       toolCall handlers it_help_desk.switch_case tc msgs w
       = Ret (msgs ++ [ToolMessage ("Error: " +:+ e) (ID tc)]) w')
   /\
    (forall (handlers : gmap string Handler) (handler : Handler) (tc : ToolCall)
            (resultStr : string) (e : error) (msgs : list Message) (w w' : World),
       Name (Function tc) = "apply_patches" ->
       handlers !! Name (Function tc) = Some handler ->
       handler (PtrApplyPatchesArgs
                  (fst (json_Unmarshal (Arguments (Function tc)) zero_ApplyPatchesArgs))) w
       = Ret (resultStr, Some e) w' ->
       toolCall handlers it_help_desk.switch_case tc msgs w
       = Ret (msgs ++ [ToolMessage ("Error: " +:+ e) (ID tc)]) w')
   /\
    (forall (handlers : gmap string Handler) (handler : Handler) (tc : ToolCall)
            (resultStr : string) (e : error) (msgs : list Message) (w w' : World),
       Name (Function tc) = "send_user_response" ->
       handlers !! Name (Function tc) = Some handler ->
       handler (PtrSendUserResponseArgs
                  (fst (json_Unmarshal (Arguments (Function tc)) zero_SendUserResponseArgs))) w
       = Ret (resultStr, Some e) w' ->
       toolCall handlers it_help_desk.switch_case tc msgs w
       = Ret (msgs ++ [ToolMessage ("Error: " +:+ e) (ID tc)]) w'))
   /\
   (forall (handlers : gmap string Handler) (outcome : string -> string * option error),
      handlers_answer handlers helpdesk_tool_names outcome ->
      forall (ticket : option it_help_desk.Ticket) (init : list Message) (lastMsg : Message) (w : World),
      exists w',
        it_help_desk.toolExecutorWith handlers
          {| it_help_desk.AgentState_Ticket := ticket; it_help_desk.Messages := init ++ [lastMsg] |} w
        = Ret (inl {| it_help_desk.AgentState_Ticket := ticket;
                      it_help_desk.Messages :=
                        (init ++ [lastMsg])
                        ++ outcome_messages handlers outcome (ToolCalls lastMsg) |}) w')).
Proof.
  split; (split; [repeat match goal with |- _ /\ _ => split end|]).
  all: try (intros handlers handler tc resultStr e msgs w w' Hname Hlook Hrun;
            apply (toolCall_registered _ _ tc msgs w w' handler resultStr (Some e) Hlook);
            first [rewrite (ecommerce_switch_send_customer_message handler tc Hname)
                  | rewrite (ecommerce_switch_issue_refund handler tc Hname)
                  | rewrite (ecommerce_switch_cancel_order handler tc Hname)
                  | rewrite (ecommerce_switch_update_address_for_order handler tc Hname)
                  | rewrite (helpdesk_switch_provision_user_access handler tc Hname)
                  | rewrite (helpdesk_switch_troubleshoot_network handler tc Hname)
                  | rewrite (helpdesk_switch_diagnose_system_issue handler tc Hname)
                  | rewrite (helpdesk_switch_deploy_software handler tc Hname)
                  | rewrite (helpdesk_switch_contain_security_incident handler tc Hname)
                  | rewrite (helpdesk_switch_troubleshoot_hardware handler tc Hname)
                  | rewrite (helpdesk_switch_assign_roles handler tc Hname)
                  | rewrite (helpdesk_switch_escalate_incident handler tc Hname)
                  | rewrite (helpdesk_switch_apply_patches handler tc Hname)
                  | rewrite (helpdesk_switch_send_user_response handler tc Hname) ];
            exact Hrun).
  - intros handlers outcome Hanswer. now apply ecommerce_toolExecutorWith_outcomes.
  - intros handlers outcome Hanswer. now apply helpdesk_toolExecutorWith_outcomes.
Qed.

End C6.

Section C6Witness.
Import more_scripts.
#[local] Existing Instance json_empty_object.

(** C6 at an e-commerce answer that asks for a refund, which is declined, and
    for a message to the customer, which is sent; and at a help desk
    escalation whose handler fails. *)
Lemma C6_refund_declined_witness :
  (exists w',
     ecommerce_customer_support.toolExecutorWith ecommerce_script.failing_handlers
       {| ecommerce_customer_support.AgentState_Order := None;
          ecommerce_customer_support.Messages :=
            [UserMessage "Refund, please."]
            ++ [scripted.assistantMessage ""
                  [ecommerce_script.asks_refund; ecommerce_script.asks_message]] |} world0
     = Ret (inl {| ecommerce_customer_support.AgentState_Order := None;
                   ecommerce_customer_support.Messages :=
                     ([UserMessage "Refund, please."]
                      ++ [scripted.assistantMessage ""
                            [ecommerce_script.asks_refund; ecommerce_script.asks_message]])
                     ++ [ToolMessage "Error: card declined" "call_3";
                         ToolMessage "sent" "call_4"] |}) w')
  /\ toolCall failing_helpdesk_handlers it_help_desk.switch_case asks_escalation [] world0
     = Ret [ToolMessage "Error: pager down" "call_5"] world0.
Proof.
  split.
  - refine (proj2 (proj1 C6_handler_error_becomes_message_content)
              ecommerce_script.failing_handlers ecommerce_script.failing_outcome _
              None [UserMessage "Refund, please."]
              (scripted.assistantMessage ""
                 [ecommerce_script.asks_refund; ecommerce_script.asks_message]) world0).
    intros name handler Hlook. unfold ecommerce_script.failing_handlers in Hlook.
    apply lookup_insert_Some in Hlook as [[<- <-]|[_ Hlook]].
    + split; [unfold ecommerce_tool_names; name_in_literal|]. intros a w. exists w. reflexivity.
    + apply lookup_singleton_Some in Hlook as [<- <-].
      split; [unfold ecommerce_tool_names; name_in_literal|]. intros a w. exists w. reflexivity.
  - refine ((proj1 (proj2 (proj2 (proj2 (proj2 (proj2 (proj2 (proj2 (proj1 (proj2 C6_handler_error_becomes_message_content))))))))))
              failing_helpdesk_handlers pager_down asks_escalation
              "" "pager down" [] world0 world0 _ _ _); reflexivity.
Defined.

End C6Witness.

Section C7Counterexample.
Import more_scripts.
#[local] Existing Instance scripted.recover.
#[local] Existing Instance scripted.setup_ok.
#[local] Existing Instance scripted.fmt_small_integers.
#[local] Existing Instance json_empty_object.
#[local] Existing Instance json_null.
#[local] Existing Instance model_always_cancel.

(** C7, as stated, fails: a model failure is not the one class of error that
    fails a run. Against a model that answers every call, asking for
    [cancel_order] each time, no call fails; yet with a budget of twelve
    steps the run ends after six model calls with the error of the step
    budget, and [main] reports it like any agent error and exits with
    status 1. *)
Lemma C7_budget_error_without_model_failure :
  (forall (k : nat) (input : list Message), exists resp, Generate k input = inl resp)
  /\ (exists w',
        compose.Invoke ecommerce_customer_support.NewAgent 12
          ecommerce_script.state_cancel world0
        = Ret (compose.Failed "[GraphRunError] exceeds max steps") w'
        /\ generate_calls w' = 6)
  /\ (exists w',
        ecommerce_main.main false (inl "") 12 world0 = Exit 1 w'
        /\ stderr w' = [Written "Agent error: [GraphRunError] exceeds max steps"]).
Proof.
  split; [|split].
  - intros k input. eexists. reflexivity.
  - eexists. split; vm_compute; reflexivity.
  - eexists. split; vm_compute; reflexivity.
Qed.

End C7Counterexample.

Section C7.
Import compose ecommerce_customer_support ecommerce_main.
Context `{Setup}.
Context `{Recover} `{ChatModel} `{Fmt}.
Context `{!Marshal ecommerce_customer_support.Order}.
Context `{!Unmarshal ecommerce_customer_support.SendCustomerMessageArgs}.
Context `{!Unmarshal ecommerce_customer_support.IssueRefundArgs}.
Context `{!Unmarshal ecommerce_customer_support.CancelOrderArgs}.
Context `{!Unmarshal ecommerce_customer_support.UpdateAddressArgs}.
Context `{!Unmarshal AgentState} `{!Marshal AgentState}.

(** C7 (amended): a failure of the model call is not masked. When the call
    fails in a round, be it the first (the assistant node entered from START)
    or a later one (entered from the tools node), the run ends at once with
    an error, the caller receives, instead of a final answer, the runtime's
    NodeRunError, which carries the text of the underlying cause and the node
    path [assistant], and [main], in demo mode and in eval mode alike,
    writes Agent error: with it to stderr and exits with status 1, printing
    no answer. It is not the only failure of a run: a run whose step budget
    is used up fails with the error of the budget, and while the model keeps
    asking for tools every run does. An error that [Invoke] returns is one
    of these two. *)
Theorem C7_model_failure_fails_the_run :
  (forall (fuel : nat) (state : AgentState) (w : World) (cause : error),
     Generate (generate_calls w) (SystemMessage (sysPrompt state) :: Messages state)
     = inr cause ->
     let err := "[NodeRunError] " +:+ cause +:+ newline +:+ "------------------------"
                +:+ newline +:+ "node path: [assistant]" in
     run NewAgent (S fuel) START state w = Ret (Failed err) (model_called w)
     /\ run NewAgent (S fuel) "tools" state w = Ret (Failed err) (model_called w)
     /\ (setup_succeeds ->
         forall stdin : string + error,
           state = demoState ->
           main false stdin (S fuel) w
           = Exit 1 (add_stderr ("Agent error: " +:+ err) (model_called w)))
     /\ (setup_succeeds ->
         forall inputBytes : string,
           json_Unmarshal inputBytes {| AgentState_Order := None; Messages := [] |}
           = (state, None) ->
           main true (inl inputBytes) (S fuel) w
           = Exit 1 (add_stderr ("Agent error: " +:+ err) (model_called w))))
  /\ (forall (budget : nat) (initialState : AgentState) (w w' : World) (err : error),
        Invoke NewAgent budget initialState w = Ret (Failed err) w' ->
        err = "[GraphRunError] exceeds max steps"
        \/ exists (k : nat) (input : list Message) (cause : error),
             Generate k input = inr cause
             /\ err = "[NodeRunError] " +:+ cause +:+ newline +:+ "------------------------"
                      +:+ newline +:+ "node path: [assistant]")
  /\ (always_asks_for_tools ->
      forall (budget : nat) (initialState : AgentState) (w : World),
      exists w',
        Invoke NewAgent budget initialState w
        = Ret (Failed "[GraphRunError] exceeds max steps") w').
Proof.
  split; [|split].
  - intros fuel state w cause Hfail err.
    assert (Herr : err = model_error cause).
    { reflexivity. }
    rewrite Herr.
    assert (Hrun : run NewAgent (S fuel) START state w
                   = Ret (Failed (model_error cause)) (model_called w)).
    { rewrite ecommerce_NewAgent_shape, run_from_START, ecommerce_after_assistant.
      now rewrite Hfail. }
    split; [exact Hrun|]. split; [exact Hrun|]. split.
    + intros Hsetup stdin Hdemo.
      now apply (ecommerce_main_model_failure false stdin fuel state w cause).
    + intros Hsetup inputBytes Hdecode.
      apply (ecommerce_main_model_failure true (inl inputBytes) fuel state w cause);
        [exact Hsetup | eauto | exact Hfail].
  - intros budget initialState w w' err Hinvoke.
    destruct (ecommerce_Invoke_contract budget initialState w) as (_ & Hfailed & _).
    rewrite Hinvoke in Hfailed. cbn in Hfailed.
    destruct Hfailed as [->|(_ & input & cause & Hgen & ->)].
    + left. reflexivity.
    + right. exists (pred (generate_calls w')), input, cause. split; [exact Hgen|].
      reflexivity.
  - intros Hasks budget initialState w.
    destruct (proj1 (ecommerce_run_keeps_asking budget Hasks START initialState w)
                (or_introl eq_refl)) as (w' & Hrun & _).
    exists w'. exact Hrun.
Qed.

End C7.

(** C7 at the demo order and a model that answers 401 to every call. *)
Lemma C7_unauthorized_witness :
  ecommerce_script.main_model_down "401 Unauthorized" false (inl EmptyString) 1 world0
  = Exit 1 (add_stderr ("Agent error: [NodeRunError] 401 Unauthorized" +:+ newline
                        +:+ "------------------------" +:+ newline
                        +:+ "node path: [assistant]")
              (model_called world0)).
Proof.
  refine (proj1 (proj2 (proj2
            (proj1 (@C7_model_failure_fails_the_run
                      scripted.setup_ok scripted.recover
                      (scripted.model_down "401 Unauthorized") ecommerce_script.fmt
                      ecommerce_script.json_order
                      ecommerce_script.json_send ecommerce_script.json_refund
                      ecommerce_script.json_cancel ecommerce_script.json_address
                      (scripted.json_table []) (scripted.json_fixed "{}"))
               0 ecommerce_main.demoState world0 "401 Unauthorized" _)))
            _ (inl EmptyString) _).
  - reflexivity.
  - unfold setup_succeeds. cbn. repeat split; discriminate.
  - reflexivity.
Defined.

Section C8.
Context `{Recover} `{ChatModel} `{Fmt}.
Context `{!Marshal ecommerce_customer_support.Order}.
Context `{!Unmarshal ecommerce_customer_support.SendCustomerMessageArgs}.
Context `{!Unmarshal ecommerce_customer_support.IssueRefundArgs}.
Context `{!Unmarshal ecommerce_customer_support.CancelOrderArgs}.
Context `{!Unmarshal ecommerce_customer_support.UpdateAddressArgs}.
Context `{!Marshal it_help_desk.Ticket}.
Context `{!Unmarshal it_help_desk.ProvisionUserAccessArgs}.
Context `{!Unmarshal it_help_desk.TroubleshootNetworkArgs}.
Context `{!Unmarshal it_help_desk.DiagnoseSystemIssueArgs}.
Context `{!Unmarshal it_help_desk.DeploySoftwareArgs}.
Context `{!Unmarshal it_help_desk.ContainSecurityIncidentArgs}.
Context `{!Unmarshal it_help_desk.TroubleshootHardwareArgs}.
Context `{!Unmarshal it_help_desk.AssignRolesArgs}.
Context `{!Unmarshal it_help_desk.EscalateIncidentArgs}.
Context `{!Unmarshal it_help_desk.ApplyPatchesArgs}.
Context `{!Unmarshal it_help_desk.SendUserResponseArgs}.

(** C8: the tool executor never changes the scenario record threaded beside the
    message log. Whatever handlers it closes over and whatever state it is
    given, a state it returns has the same [Order] (or [Ticket]) and a
    message list that extends the input's; it never returns an error; and on
    every log that ends with a message the executor of the package does
    return such a state. Holds for the e-commerce and the help desk executor. *)
Theorem C8_tool_executor_only_extends_messages :
  ((forall (handlers : gmap string Handler)
           (state : ecommerce_customer_support.AgentState) (w : World),
      match ecommerce_customer_support.toolExecutorWith handlers state w with
      | Ret (inl state') _ =>
          ecommerce_customer_support.AgentState_Order state'
          = ecommerce_customer_support.AgentState_Order state
          /\ exists appended,
               ecommerce_customer_support.Messages state'
               = ecommerce_customer_support.Messages state ++ appended
      | Ret (inr _) _ => False
      | Panic _ _ | Exit _ _ => True
      end)
   /\ (forall (order : option ecommerce_customer_support.Order) (init : list Message)
              (lastMsg : Message) (w : World),
        exists appended w',
          ecommerce_customer_support.toolExecutor
            {| ecommerce_customer_support.AgentState_Order := order;
               ecommerce_customer_support.Messages := init ++ [lastMsg] |} w
          = Ret (inl {| ecommerce_customer_support.AgentState_Order := order;
                        ecommerce_customer_support.Messages :=
                          (init ++ [lastMsg]) ++ appended |}) w'))
  /\
  ((forall (handlers : gmap string Handler)
           (state : it_help_desk.AgentState) (w : World),
      match it_help_desk.toolExecutorWith handlers state w with
      | Ret (inl state') _ =>
          it_help_desk.AgentState_Ticket state' = it_help_desk.AgentState_Ticket state
          /\ exists appended,
               it_help_desk.Messages state' = it_help_desk.Messages state ++ appended
      | Ret (inr _) _ => False
      | Panic _ _ | Exit _ _ => True
      end)
   /\ (forall (ticket : option it_help_desk.Ticket) (init : list Message)
              (lastMsg : Message) (w : World),
        exists appended w',
          it_help_desk.toolExecutor
            {| it_help_desk.AgentState_Ticket := ticket;
               it_help_desk.Messages := init ++ [lastMsg] |} w
          = Ret (inl {| it_help_desk.AgentState_Ticket := ticket;
                        it_help_desk.Messages := (init ++ [lastMsg]) ++ appended |}) w')).
Proof.
  split; split.
  - apply ecommerce_toolExecutorWith_frame.
  - intros order init lastMsg w.
    destruct (ecommerce_toolExecutorWith_appends ecommerce_customer_support.toolHandlers
                order init lastMsg w ecommerce_handlers_return) as (appended & w' & Hexec & _).
    eauto.
  - apply helpdesk_toolExecutorWith_frame.
  - intros ticket init lastMsg w.
    destruct (helpdesk_toolExecutorWith_appends it_help_desk.toolHandlers
                ticket init lastMsg w helpdesk_handlers_return) as (appended & w' & Hexec & _).
    eauto.
Qed.

End C8.

Section C9.
Import compose ecommerce_customer_support.
Context `{Recover} `{ChatModel} `{Fmt}.
Context `{!Marshal ecommerce_customer_support.Order}.
Context `{!Unmarshal ecommerce_customer_support.SendCustomerMessageArgs}.
Context `{!Unmarshal ecommerce_customer_support.IssueRefundArgs}.
Context `{!Unmarshal ecommerce_customer_support.CancelOrderArgs}.
Context `{!Unmarshal ecommerce_customer_support.UpdateAddressArgs}.


End C9.

Section C10.
Import math_tools.
Context `{ChatModel} `{Fmt} `{MathPow} `{!Unmarshal (option MathArgs)}.

(** C10: in the direct loop the dispatch of the requested tool calls panics
    with a nil dereference as soon as one requested name is not among
    multiply, exponentiate and add: the failure is a process-level one, never
    an error message in the log, and [main] panics whenever the first answer
    of the model requests an unregistered tool. So the dispatch returns only
    if every requested name is registered. That alone is not enough: a
    registered tool panics in the same way when its arguments decode to a nil
    pointer, and the dispatch returns exactly when every name is registered
    and no arguments decode to nil. *)
Theorem C10_direct_dispatch_needs_registered_names :
  (forall (calls : list ToolCall) (msgs : list Message) (w : World),
     (exists msgs' w', runToolCalls calls msgs w = Ret msgs' w')
     <-> Forall (fun tc => Name (Function tc) ∈ math_tool_names /\ ~ decodes_to_nil tc)
                calls)
  /\ (forall (calls : list ToolCall) (msgs : list Message) (w : World),
        Exists (fun tc => Name (Function tc) ∉ math_tool_names) calls ->
        exists w', runToolCalls calls msgs w
                   = Panic "invalid memory address or nil pointer dereference" w')
  /\ (forall (resp : Message) (w : World),
        Generate (generate_calls w)
                 [UserMessage "What is 393 * 12.25? Also, what is 11 + 49?"]
        = inl resp ->
        Exists (fun tc => Name (Function tc) ∉ math_tool_names) (ToolCalls resp) ->
        exists w', main w = Panic "invalid memory address or nil pointer dereference" w')
  /\ (forall (tc : ToolCall) (msgs : list Message) (w : World),
        Name (Function tc) ∈ math_tool_names ->
        decodes_to_nil tc ->
        runToolCall tc msgs w
        = Panic "invalid memory address or nil pointer dereference" w).
Proof.
  split; [|split; [|split]].
  - apply runToolCalls_returns_iff.
  - intros calls msgs w Hex. apply runToolCalls_panics.
    eapply Exists_impl; [exact Hex|]. intros tc Hnot. left. exact Hnot.
  - intros resp w Hgen Hex. apply (main_dispatch_panics w resp Hgen).
    eapply Exists_impl; [exact Hex|]. intros tc Hnot. left. exact Hnot.
  - intros tc msgs w Hin Hnil. now apply runToolCall_nil.
Qed.

End C10.

Section C10Witness.
#[local] Existing Instance scripted.model_add_2_3.
#[local] Existing Instance scripted.fmt_small_integers.
#[local] Existing Instance scripted.pow_unused.
#[local] Existing Instance math_script.json_args.

(** C10 at a request for [add], at a request for [divide] and at a request
    for [add] with the arguments null. *)
Lemma C10_add_and_divide_witness :
  (exists msgs' w', math_tools.runToolCalls [math_script.asks_add] [] world0 = Ret msgs' w')
  /\ (exists w', math_tools.runToolCalls [math_script.asks_add; math_script.asks_divide]
                   [] world0
                 = Panic "invalid memory address or nil pointer dereference" w')
  /\ math_tools.runToolCall more_scripts.asks_add_null [] world0
     = Panic "invalid memory address or nil pointer dereference" world0.
Proof.
  split; [|split].
  - refine (proj2 (proj1 C10_direct_dispatch_needs_registered_names
                     [math_script.asks_add] [] world0) _).
    repeat constructor. intros Hnil. vm_compute in Hnil. discriminate Hnil.
  - refine (proj1 (proj2 C10_direct_dispatch_needs_registered_names)
              [math_script.asks_add; math_script.asks_divide] [] world0 _).
    apply Exists_cons_tl, Exists_cons_hd.
    unfold math_tool_names. rewrite !elem_of_cons, elem_of_nil.
    intros [Heq|[Heq|[Heq|[]]]]; discriminate Heq.
  - refine (proj2 (proj2 (proj2 C10_direct_dispatch_needs_registered_names))
              more_scripts.asks_add_null [] world0 _ _).
    + repeat constructor.
    + reflexivity.
Defined.

End C10Witness.
(** * Further properties of the agents *)

Section GraphAgents.
Import compose.
Context `{Recover} `{ChatModel} `{Fmt}.
Context `{!Marshal ecommerce_customer_support.Order}.
Context `{!Unmarshal ecommerce_customer_support.SendCustomerMessageArgs}.
Context `{!Unmarshal ecommerce_customer_support.IssueRefundArgs}.
Context `{!Unmarshal ecommerce_customer_support.CancelOrderArgs}.
Context `{!Unmarshal ecommerce_customer_support.UpdateAddressArgs}.
Context `{!Marshal it_help_desk.Ticket}.
Context `{!Unmarshal it_help_desk.ProvisionUserAccessArgs}.
Context `{!Unmarshal it_help_desk.TroubleshootNetworkArgs}.
Context `{!Unmarshal it_help_desk.DiagnoseSystemIssueArgs}.
Context `{!Unmarshal it_help_desk.DeploySoftwareArgs}.
Context `{!Unmarshal it_help_desk.ContainSecurityIncidentArgs}.
Context `{!Unmarshal it_help_desk.TroubleshootHardwareArgs}.
Context `{!Unmarshal it_help_desk.AssignRolesArgs}.
Context `{!Unmarshal it_help_desk.EscalateIncidentArgs}.
Context `{!Unmarshal it_help_desk.ApplyPatchesArgs}.
Context `{!Unmarshal it_help_desk.SendUserResponseArgs}.
Context `{!Marshal soc.Incident}.
Context `{!Unmarshal soc.LookupThreatIntelArgs} `{!Unmarshal soc.QueryLogsArgs}.
Context `{!Unmarshal soc.TriageIncidentArgs} `{!Unmarshal soc.IsolateHostArgs}.
Context `{!Unmarshal soc.SendAnalystResponseArgs}.
Context `{!Marshal legal.Matter}.
Context `{!Unmarshal legal.ReviewContractArgs} `{!Unmarshal legal.ResearchCaseLawArgs}.
Context `{!Unmarshal legal.ClientIntakeArgs} `{!Unmarshal legal.AssessComplianceArgs}.
Context `{!Unmarshal legal.ManageDiscoveryArgs} `{!Unmarshal legal.CalculateDamagesArgs}.
Context `{!Unmarshal legal.TrackDeadlinesArgs} `{!Unmarshal legal.SendLegalResponseArgs}.

(** X1: a pass of the tool executor accounts for every invocation of the last
    message. It appends, for the registered invocations in order, a Tool
    message with the fixed result of the tool and the id of the invocation;
    the standard logger writes to stderr, for the unregistered invocations in
    order, one not-found line each; stdout gets, for the registered
    invocations in order, the line of the tool with the fields decoded from
    the arguments; no model call is made. Holds for the executors of the
    e-commerce, help desk, SOC and legal agents. *)
Theorem X1_tool_executor_accounts_for_every_invocation :
  (forall (order : option ecommerce_customer_support.Order) (init : list Message) (lastMsg : Message) (w : World),
     ecommerce_customer_support.toolExecutor
       {| ecommerce_customer_support.AgentState_Order := order; ecommerce_customer_support.Messages := init ++ [lastMsg] |} w
     = Ret (inl {| ecommerce_customer_support.AgentState_Order := order;
                   ecommerce_customer_support.Messages :=
                     (init ++ [lastMsg])
                     ++ answers ecommerce_customer_support.toolHandlers ecommerce_result (ToolCalls lastMsg) |})
           {| generate_calls := generate_calls w;
              stdout := stdout w
                        ++ tool_lines ecommerce_customer_support.toolHandlers ecommerce_tool_line (ToolCalls lastMsg);
              stderr := stderr w
                        ++ ((fun name => Logged ("Tool " +:+ name +:+ " not found"))
                              <$> not_found_names ecommerce_customer_support.toolHandlers (ToolCalls lastMsg)) |})
  /\
  (forall (ticket : option it_help_desk.Ticket) (init : list Message) (lastMsg : Message) (w : World),
     it_help_desk.toolExecutor
       {| it_help_desk.AgentState_Ticket := ticket; it_help_desk.Messages := init ++ [lastMsg] |} w
     = Ret (inl {| it_help_desk.AgentState_Ticket := ticket;
                   it_help_desk.Messages :=
                     (init ++ [lastMsg])
                     ++ answers it_help_desk.toolHandlers helpdesk_result (ToolCalls lastMsg) |})
           {| generate_calls := generate_calls w;
              stdout := stdout w
                        ++ tool_lines it_help_desk.toolHandlers helpdesk_tool_line (ToolCalls lastMsg);
              stderr := stderr w
                        ++ ((fun name => Logged ("Tool " +:+ name +:+ " not found"))
                              <$> not_found_names it_help_desk.toolHandlers (ToolCalls lastMsg)) |})
  /\
  (forall (incident : option soc.Incident) (init : list Message) (lastMsg : Message) (w : World),
     soc.toolExecutor
       {| soc.AgentState_Incident := incident; soc.Messages := init ++ [lastMsg] |} w
     = Ret (inl {| soc.AgentState_Incident := incident;
                   soc.Messages :=
                     (init ++ [lastMsg])
                     ++ answers soc.toolHandlers soc_result (ToolCalls lastMsg) |})
           {| generate_calls := generate_calls w;
              stdout := stdout w
                        ++ tool_lines soc.toolHandlers soc_tool_line (ToolCalls lastMsg);
              stderr := stderr w
                        ++ ((fun name => Logged ("Tool " +:+ name +:+ " not found"))
                              <$> not_found_names soc.toolHandlers (ToolCalls lastMsg)) |})
  /\
  (forall (matter : option legal.Matter) (init : list Message) (lastMsg : Message) (w : World),
     legal.toolExecutor
       {| legal.AgentState_Matter := matter; legal.Messages := init ++ [lastMsg] |} w
     = Ret (inl {| legal.AgentState_Matter := matter;
                   legal.Messages :=
                     (init ++ [lastMsg])
                     ++ answers legal.toolHandlers legal_result (ToolCalls lastMsg) |})
           {| generate_calls := generate_calls w;
              stdout := stdout w
                        ++ tool_lines legal.toolHandlers legal_tool_line (ToolCalls lastMsg);
              stderr := stderr w
                        ++ ((fun name => Logged ("Tool " +:+ name +:+ " not found"))
                              <$> not_found_names legal.toolHandlers (ToolCalls lastMsg)) |}).
Proof.
  repeat split; intros ctx init lastMsg w.
  - apply ecommerce_toolExecutor_effect.
  - apply helpdesk_toolExecutor_effect.
  - apply soc_toolExecutor_effect.
  - apply legal_toolExecutor_effect.
Qed.

(** X2: in every agent the handler map and the switch of the executor know the
    same tool names, the ones the agent advertises: a name has a handler
    exactly when it is one of them, and it has a case in the switch exactly
    when it is one of them. So no registered tool falls through the switch
    with an empty result. *)
Theorem X2_handler_map_and_switch_agree :
  (forall name : string,
     (is_Some (ecommerce_customer_support.toolHandlers !! name)
      <-> name ∈ ecommerce_tool_names)
     /\ (is_Some (ecommerce_customer_support.switch_case name)
         <-> name ∈ ecommerce_tool_names))
  /\ (forall name : string,
        (is_Some (it_help_desk.toolHandlers !! name) <-> name ∈ helpdesk_tool_names)
        /\ (is_Some (it_help_desk.switch_case name) <-> name ∈ helpdesk_tool_names))
  /\ (forall name : string,
        (is_Some (soc.toolHandlers !! name) <-> name ∈ soc_tool_names)
        /\ (is_Some (soc.switch_case name) <-> name ∈ soc_tool_names))
  /\ (forall name : string,
        (is_Some (legal.toolHandlers !! name) <-> name ∈ legal_tool_names)
        /\ (is_Some (legal.switch_case name) <-> name ∈ legal_tool_names)).
Proof.
  repeat split;
    first [ apply ecommerce_registered_names | apply ecommerce_switch_names
          | apply helpdesk_registered_names | apply helpdesk_switch_names
          | apply soc_registered_names | apply soc_switch_names
          | apply legal_registered_names | apply legal_switch_names ].
Qed.

(** X3: a run that ends with a final state has kept the scenario record, has
    only appended to the message log it was given, ends its log with a
    message that requests no tool, and has called the model at least once.
    Holds for all four agents, every step budget and every initial state. *)
Theorem X3_finished_run_keeps_record_and_history :
  (forall (fuel : nat) (initialState : ecommerce_customer_support.AgentState) (w : World),
     done_keeps ecommerce_customer_support.AgentState_Order
       ecommerce_customer_support.Messages initialState w
       (Invoke ecommerce_customer_support.NewAgent fuel initialState w))
  /\ (forall (fuel : nat) (initialState : it_help_desk.AgentState) (w : World),
        done_keeps it_help_desk.AgentState_Ticket it_help_desk.Messages initialState w
          (Invoke it_help_desk.NewAgent fuel initialState w))
  /\ (forall (fuel : nat) (initialState : soc.AgentState) (w : World),
        done_keeps soc.AgentState_Incident soc.Messages initialState w
          (Invoke soc.NewAgent fuel initialState w))
  /\ (forall (fuel : nat) (initialState : legal.AgentState) (w : World),
        done_keeps legal.AgentState_Matter legal.Messages initialState w
          (Invoke legal.NewAgent fuel initialState w)).
Proof.
  repeat split; intros fuel initialState w.
  - apply ecommerce_Invoke_contract.
  - apply helpdesk_Invoke_contract.
  - apply soc_Invoke_contract.
  - apply legal_Invoke_contract.
Qed.

(** X4: a run ends with an error in two ways only. Either the step budget is
    used up, and the error is [GraphRunError] exceeds max steps; or a model
    call failed, and then that call is the last model call of the run (no
    call follows a failed one) and the error is the NodeRunError of the
    assistant node around the error of that call. Holds for all four
    agents. *)
Theorem X4_failed_run_is_budget_or_last_model_call :
  (forall (fuel : nat) (initialState : ecommerce_customer_support.AgentState) (w w' : World) (err : error),
     Invoke ecommerce_customer_support.NewAgent fuel initialState w = Ret (Failed err) w' ->
     err = "[GraphRunError] exceeds max steps"
     \/ (generate_calls w < generate_calls w'
         /\ exists (input : list Message) (cause : error),
              Generate (pred (generate_calls w')) input = inr cause
              /\ err = "[NodeRunError] " +:+ cause +:+ newline
                       +:+ "------------------------" +:+ newline
                       +:+ "node path: [assistant]"))
  /\
  (forall (fuel : nat) (initialState : it_help_desk.AgentState) (w w' : World) (err : error),
     Invoke it_help_desk.NewAgent fuel initialState w = Ret (Failed err) w' ->
     err = "[GraphRunError] exceeds max steps"
     \/ (generate_calls w < generate_calls w'
         /\ exists (input : list Message) (cause : error),
              Generate (pred (generate_calls w')) input = inr cause
              /\ err = "[NodeRunError] " +:+ cause +:+ newline
                       +:+ "------------------------" +:+ newline
                       +:+ "node path: [assistant]"))
  /\
  (forall (fuel : nat) (initialState : soc.AgentState) (w w' : World) (err : error),
     Invoke soc.NewAgent fuel initialState w = Ret (Failed err) w' ->
     err = "[GraphRunError] exceeds max steps"
     \/ (generate_calls w < generate_calls w'
         /\ exists (input : list Message) (cause : error),
              Generate (pred (generate_calls w')) input = inr cause
              /\ err = "[NodeRunError] " +:+ cause +:+ newline
                       +:+ "------------------------" +:+ newline
                       +:+ "node path: [assistant]"))
  /\
  (forall (fuel : nat) (initialState : legal.AgentState) (w w' : World) (err : error),
     Invoke legal.NewAgent fuel initialState w = Ret (Failed err) w' ->
     err = "[GraphRunError] exceeds max steps"
     \/ (generate_calls w < generate_calls w'
         /\ exists (input : list Message) (cause : error),
              Generate (pred (generate_calls w')) input = inr cause
              /\ err = "[NodeRunError] " +:+ cause +:+ newline
                       +:+ "------------------------" +:+ newline
                       +:+ "node path: [assistant]")).
Proof.
  repeat split; intros fuel initialState w w' err Hinvoke.
  - destruct (ecommerce_Invoke_contract fuel initialState w) as (_ & Hfailed & _).
    rewrite Hinvoke in Hfailed. exact Hfailed.
  - destruct (helpdesk_Invoke_contract fuel initialState w) as (_ & Hfailed & _).
    rewrite Hinvoke in Hfailed. exact Hfailed.
  - destruct (soc_Invoke_contract fuel initialState w) as (_ & Hfailed & _).
    rewrite Hinvoke in Hfailed. exact Hfailed.
  - destruct (legal_Invoke_contract fuel initialState w) as (_ & Hfailed & _).
    rewrite Hinvoke in Hfailed. exact Hfailed.
Qed.

(** X5: a run of the help desk, SOC or legal agent returns for every initial
    state, the empty message list included, and every step budget: it never
    panics and never leaves the process, and all it adds to stderr are the
    lines of the standard logger for requested tools that have no handler. *)
Theorem X5_runs_return_with_logger_lines_only :
  (forall (fuel : nat) (initialState : it_help_desk.AgentState) (w : World),
   exists (r : Result it_help_desk.AgentState) (w' : World) (names : list string),
     Invoke it_help_desk.NewAgent fuel initialState w = Ret r w'
     /\ stderr w'
        = stderr w ++ ((fun name => Logged ("Tool " +:+ name +:+ " not found")) <$> names))
  /\
  (forall (fuel : nat) (initialState : soc.AgentState) (w : World),
   exists (r : Result soc.AgentState) (w' : World) (names : list string),
     Invoke soc.NewAgent fuel initialState w = Ret r w'
     /\ stderr w'
        = stderr w ++ ((fun name => Logged ("Tool " +:+ name +:+ " not found")) <$> names))
  /\
  (forall (fuel : nat) (initialState : legal.AgentState) (w : World),
   exists (r : Result legal.AgentState) (w' : World) (names : list string),
     Invoke legal.NewAgent fuel initialState w = Ret r w'
     /\ stderr w'
        = stderr w ++ ((fun name => Logged ("Tool " +:+ name +:+ " not found")) <$> names)).
Proof.
  repeat split; intros fuel initialState w.
  - destruct (helpdesk_Invoke_contract fuel initialState w) as (_ & _ & Hquiet).
    destruct (Invoke it_help_desk.NewAgent fuel initialState w) as [r w'| |];
      [|contradiction..].
    destruct Hquiet as (names & Herr). eauto.
  - destruct (soc_Invoke_contract fuel initialState w) as (_ & _ & Hquiet).
    destruct (Invoke soc.NewAgent fuel initialState w) as [r w'| |];
      [|contradiction..].
    destruct Hquiet as (names & Herr). eauto.
  - destruct (legal_Invoke_contract fuel initialState w) as (_ & _ & Hquiet).
    destruct (Invoke legal.NewAgent fuel initialState w) as [r w'| |];
      [|contradiction..].
    destruct Hquiet as (names & Herr). eauto.
Qed.

(** X6: the agents have no round bound of their own. While every answer of the
    model requests a tool, nothing but the step budget of the graph runtime
    ends a run: for every budget the run ends with the error [GraphRunError]
    exceeds max steps, after the model calls the budget allows, half the
    budget rounded up. Holds for all four agents. *)
Theorem X6_only_the_step_budget_bounds_the_rounds :
  always_asks_for_tools ->
  (forall (fuel : nat) (initialState : ecommerce_customer_support.AgentState) (w : World),
   exists w',
     Invoke ecommerce_customer_support.NewAgent fuel initialState w
     = Ret (Failed "[GraphRunError] exceeds max steps") w'
     /\ generate_calls w' = generate_calls w + Nat.div2 (S fuel))
  /\
  (forall (fuel : nat) (initialState : it_help_desk.AgentState) (w : World),
   exists w',
     Invoke it_help_desk.NewAgent fuel initialState w
     = Ret (Failed "[GraphRunError] exceeds max steps") w'
     /\ generate_calls w' = generate_calls w + Nat.div2 (S fuel))
  /\
  (forall (fuel : nat) (initialState : soc.AgentState) (w : World),
   exists w',
     Invoke soc.NewAgent fuel initialState w
     = Ret (Failed "[GraphRunError] exceeds max steps") w'
     /\ generate_calls w' = generate_calls w + Nat.div2 (S fuel))
  /\
  (forall (fuel : nat) (initialState : legal.AgentState) (w : World),
   exists w',
     Invoke legal.NewAgent fuel initialState w
     = Ret (Failed "[GraphRunError] exceeds max steps") w'
     /\ generate_calls w' = generate_calls w + Nat.div2 (S fuel)).
Proof.
  intros Hasks. repeat split; intros fuel initialState w.
  - exact (proj1 (ecommerce_run_keeps_asking fuel Hasks START initialState w)
             (or_introl eq_refl)).
  - exact (proj1 (helpdesk_run_keeps_asking fuel Hasks START initialState w)
             (or_introl eq_refl)).
  - exact (proj1 (soc_run_keeps_asking fuel Hasks START initialState w)
             (or_introl eq_refl)).
  - exact (proj1 (legal_run_keeps_asking fuel Hasks START initialState w)
             (or_introl eq_refl)).
Qed.

(** X7: one round with a single registered tool, followed by an answer
    without invocations, ends the run, given four steps or more, with the
    initial log extended by exactly three messages (the assistant message
    with the invocation, the tool result, the final answer) after exactly two
    model calls. Holds for the help desk, SOC and legal agents. *)
Theorem X7_one_tool_round_trip :
  (forall (fuel : nat) (ticket : option it_help_desk.Ticket) (init : list Message)
          (resp1 resp2 : Message) (tc : ToolCall) (w : World),
     let state0 := {| it_help_desk.AgentState_Ticket := ticket;
                      it_help_desk.Messages := init |} in
     let toolMsg := ToolMessage (helpdesk_result (Name (Function tc))) (ID tc) in
     Generate (generate_calls w) (SystemMessage (it_help_desk.sysPrompt state0) :: init)
     = inl resp1 ->
     ToolCalls resp1 = [tc] ->
     is_Some (it_help_desk.toolHandlers !! Name (Function tc)) ->
     Generate (S (generate_calls w))
              (SystemMessage (it_help_desk.sysPrompt state0)
               :: (init ++ [resp1]) ++ [toolMsg])
     = inl resp2 ->
     ToolCalls resp2 = [] ->
     exists w',
       Invoke it_help_desk.NewAgent (4 + fuel) state0 w
       = Ret (Done {| it_help_desk.AgentState_Ticket := ticket;
                      it_help_desk.Messages :=
                        ((init ++ [resp1]) ++ [toolMsg]) ++ [resp2] |}) w'
       /\ generate_calls w' = 2 + generate_calls w)
  /\ (forall (fuel : nat) (incident : option soc.Incident) (init : list Message)
             (resp1 resp2 : Message) (tc : ToolCall) (w : World),
        let state0 := {| soc.AgentState_Incident := incident; soc.Messages := init |} in
        let toolMsg := ToolMessage (soc_result (Name (Function tc))) (ID tc) in
        Generate (generate_calls w) (SystemMessage (soc.sysPrompt state0) :: init)
        = inl resp1 ->
        ToolCalls resp1 = [tc] ->
        is_Some (soc.toolHandlers !! Name (Function tc)) ->
        Generate (S (generate_calls w))
                 (SystemMessage (soc.sysPrompt state0) :: (init ++ [resp1]) ++ [toolMsg])
        = inl resp2 ->
        ToolCalls resp2 = [] ->
        exists w',
          Invoke soc.NewAgent (4 + fuel) state0 w
          = Ret (Done {| soc.AgentState_Incident := incident;
                         soc.Messages := ((init ++ [resp1]) ++ [toolMsg]) ++ [resp2] |}) w'
          /\ generate_calls w' = 2 + generate_calls w)
  /\ (forall (fuel : nat) (matter : option legal.Matter) (init : list Message)
             (resp1 resp2 : Message) (tc : ToolCall) (w : World),
        let state0 := {| legal.AgentState_Matter := matter; legal.Messages := init |} in
        let toolMsg := ToolMessage (legal_result (Name (Function tc))) (ID tc) in
        Generate (generate_calls w) (SystemMessage (legal.sysPrompt state0) :: init)
        = inl resp1 ->
        ToolCalls resp1 = [tc] ->
        is_Some (legal.toolHandlers !! Name (Function tc)) ->
        Generate (S (generate_calls w))
                 (SystemMessage (legal.sysPrompt state0) :: (init ++ [resp1]) ++ [toolMsg])
        = inl resp2 ->
        ToolCalls resp2 = [] ->
        exists w',
          Invoke legal.NewAgent (4 + fuel) state0 w
          = Ret (Done {| legal.AgentState_Matter := matter;
                         legal.Messages := ((init ++ [resp1]) ++ [toolMsg]) ++ [resp2] |}) w'
          /\ generate_calls w' = 2 + generate_calls w).
Proof.
  repeat split.
  - intros fuel ticket init resp1 resp2 tc w. apply helpdesk_round_trip.
  - intros fuel incident init resp1 resp2 tc w. apply soc_round_trip.
  - intros fuel matter init resp1 resp2 tc w. apply legal_round_trip.
Qed.

(** X9: whatever handlers the SOC or the legal executor closes over, panicking
    ones included, and whatever state it is given, a state it returns has the
    same record and a message list that extends the input's, and it never
    returns an error. *)
Theorem X9_tool_executor_only_extends_messages :
  (forall (handlers : gmap string Handler) (state : soc.AgentState) (w : World),
     match soc.toolExecutorWith handlers state w with
     | Ret (inl state') _ =>
         soc.AgentState_Incident state' = soc.AgentState_Incident state
         /\ exists appended, soc.Messages state' = soc.Messages state ++ appended
     | Ret (inr _) _ => False
     | Panic _ _ | Exit _ _ => True
     end)
  /\ (forall (handlers : gmap string Handler) (state : legal.AgentState) (w : World),
        match legal.toolExecutorWith handlers state w with
        | Ret (inl state') _ =>
            legal.AgentState_Matter state' = legal.AgentState_Matter state
            /\ exists appended, legal.Messages state' = legal.Messages state ++ appended
        | Ret (inr _) _ => False
        | Panic _ _ | Exit _ _ => True
        end).
Proof.
  split.
  - apply soc_toolExecutorWith_frame.
  - apply legal_toolExecutorWith_frame.
Qed.

End GraphAgents.

Section HandlerErrors.
Import soc legal.
Context `{Recover} `{ChatModel}.
Context `{!Marshal soc.Incident}.
Context `{!Unmarshal soc.LookupThreatIntelArgs} `{!Unmarshal soc.QueryLogsArgs}.
Context `{!Unmarshal soc.TriageIncidentArgs} `{!Unmarshal soc.IsolateHostArgs}.
Context `{!Unmarshal soc.SendAnalystResponseArgs}.
Context `{!Marshal legal.Matter}.
Context `{!Unmarshal legal.ReviewContractArgs} `{!Unmarshal legal.ResearchCaseLawArgs}.
Context `{!Unmarshal legal.ClientIntakeArgs} `{!Unmarshal legal.AssessComplianceArgs}.
Context `{!Unmarshal legal.ManageDiscoveryArgs} `{!Unmarshal legal.CalculateDamagesArgs}.
Context `{!Unmarshal legal.TrackDeadlinesArgs} `{!Unmarshal legal.SendLegalResponseArgs}.

(** X8: whatever handlers the SOC or the legal executor closes over, a handler
    error becomes the content of the Tool message and does not leave the
    executor. Tool by tool: when the handler, called on the argument struct
    decoded from the invocation, returns an error, the iteration returns with
    the message Error: and the error text appended, under the id of the
    invocation. And for a message with any number of invocations and handlers
    that answer by the name of their tool, the executor returns with one
    message per registered invocation, in order: the result, or Error: and
    the error text. *)
Theorem X8_handler_error_becomes_message_content :
  (((forall (handlers : gmap string Handler) (handler : Handler) (tc : ToolCall)
            (resultStr : string) (e : error) (msgs : list Message) (w w' : World),
       Name (Function tc) = "lookup_threat_intel" ->
       handlers !! Name (Function tc) = Some handler ->
       handler (PtrLookupThreatIntelArgs
                  (fst (json_Unmarshal (Arguments (Function tc)) zero_LookupThreatIntelArgs))) w
       = Ret (resultStr, Some e) w' ->
       toolCall handlers soc.switch_case tc msgs w
       = Ret (msgs ++ [ToolMessage ("Error: " +:+ e) (ID tc)]) w')
   /\
    (forall (handlers : gmap string Handler) (handler : Handler) (tc : ToolCall)
            (resultStr : string) (e : error) (msgs : list Message) (w w' : World),
       Name (Function tc) = "query_logs" ->
       handlers !! Name (Function tc) = Some handler ->
       handler (PtrQueryLogsArgs
                  (fst (json_Unmarshal (Arguments (Function tc)) zero_QueryLogsArgs))) w
       = Ret (resultStr, Some e) w' ->
       toolCall handlers soc.switch_case tc msgs w
       = Ret (msgs ++ [ToolMessage ("Error: " +:+ e) (ID tc)]) w')
   /\
    (forall (handlers : gmap string Handler) (handler : Handler) (tc : ToolCall)
            (resultStr : string) (e : error) (msgs : list Message) (w w' : World),
       Name (Function tc) = "triage_incident" ->
       handlers !! Name (Function tc) = Some handler ->
       handler (PtrTriageIncidentArgs
                  (fst (json_Unmarshal (Arguments (Function tc)) zero_TriageIncidentArgs))) w
       = Ret (resultStr, Some e) w' ->
       toolCall handlers soc.switch_case tc msgs w
       = Ret (msgs ++ [ToolMessage ("Error: " +:+ e) (ID tc)]) w')
   /\
    (forall (handlers : gmap string Handler) (handler : Handler) (tc : ToolCall)
            (resultStr : string) (e : error) (msgs : list Message) (w w' : World),
       Name (Function tc) = "isolate_host" ->
       handlers !! Name (Function tc) = Some handler ->
       handler (PtrIsolateHostArgs
                  (fst (json_Unmarshal (Arguments (Function tc)) zero_IsolateHostArgs))) w
       = Ret (resultStr, Some e) w' ->
       toolCall handlers soc.switch_case tc msgs w
       = Ret (msgs ++ [ToolMessage ("Error: " +:+ e) (ID tc)]) w')
   /\
    (forall (handlers : gmap string Handler) (handler : Handler) (tc : ToolCall)
            (resultStr : string) (e : error) (msgs : list Message) (w w' : World),
       Name (Function tc) = "send_analyst_response" ->
       handlers !! Name (Function tc) = Some handler ->
       handler (PtrSendAnalystResponseArgs
                  (fst (json_Unmarshal (Arguments (Function tc)) zero_SendAnalystResponseArgs))) w
       = Ret (resultStr, Some e) w' ->
       toolCall handlers soc.switch_case tc msgs w
       = Ret (msgs ++ [ToolMessage ("Error: " +:+ e) (ID tc)]) w'))
   /\
   (forall (handlers : gmap string Handler) (outcome : string -> string * option error),
      handlers_answer handlers soc_tool_names outcome ->
      forall (incident : option soc.Incident) (init : list Message) (lastMsg : Message) (w : World),
      exists w',
        soc.toolExecutorWith handlers
          {| soc.AgentState_Incident := incident; soc.Messages := init ++ [lastMsg] |} w
        = Ret (inl {| soc.AgentState_Incident := incident;
                      soc.Messages :=
                        (init ++ [lastMsg])
                        ++ outcome_messages handlers outcome (ToolCalls lastMsg) |}) w'))
  /\
  (((forall (handlers : gmap string Handler) (handler : Handler) (tc : ToolCall)
            (resultStr : string) (e : error) (msgs : list Message) (w w' : World),
       Name (Function tc) = "review_contract" ->
       handlers !! Name (Function tc) = Some handler ->
       handler (PtrReviewContractArgs
                  (fst (json_Unmarshal (Arguments (Function tc)) zero_ReviewContractArgs))) w
       = Ret (resultStr, Some e) w' ->
       toolCall handlers legal.switch_case tc msgs w
       = Ret (msgs ++ [ToolMessage ("Error: " +:+ e) (ID tc)]) w')
   /\
    (forall (handlers : gmap string Handler) (handler : Handler) (tc : ToolCall)
            (resultStr : string) (e : error) (msgs : list Message) (w w' : World),
       Name (Function tc) = "research_case_law" ->
       handlers !! Name (Function tc) = Some handler ->
       handler (PtrResearchCaseLawArgs
                  (fst (json_Unmarshal (Arguments (Function tc)) zero_ResearchCaseLawArgs))) w
       = Ret (resultStr, Some e) w' ->
       toolCall handlers legal.switch_case tc msgs w
       = Ret (msgs ++ [ToolMessage ("Error: " +:+ e) (ID tc)]) w')
   /\
    (forall (handlers : gmap string Handler) (handler : Handler) (tc : ToolCall)
            (resultStr : string) (e : error) (msgs : list Message) (w w' : World),
       Name (Function tc) = "client_intake" ->
       handlers !! Name (Function tc) = Some handler ->
       handler (PtrClientIntakeArgs
                  (fst (json_Unmarshal (Arguments (Function tc)) zero_ClientIntakeArgs))) w
       = Ret (resultStr, Some e) w' ->
       toolCall handlers legal.switch_case tc msgs w
       = Ret (msgs ++ [ToolMessage ("Error: " +:+ e) (ID tc)]) w')
   /\
    (forall (handlers : gmap string Handler) (handler : Handler) (tc : ToolCall)
            (resultStr : string) (e : error) (msgs : list Message) (w w' : World),
       Name (Function tc) = "assess_compliance" ->
       handlers !! Name (Function tc) = Some handler ->
       handler (PtrAssessComplianceArgs
                  (fst (json_Unmarshal (Arguments (Function tc)) zero_AssessComplianceArgs))) w
       = Ret (resultStr, Some e) w' ->
       toolCall handlers legal.switch_case tc msgs w
       = Ret (msgs ++ [ToolMessage ("Error: " +:+ e) (ID tc)]) w')
   /\
    (forall (handlers : gmap string Handler) (handler : Handler) (tc : ToolCall)
            (resultStr : string) (e : error) (msgs : list Message) (w w' : World),
       Name (Function tc) = "manage_discovery" ->
       handlers !! Name (Function tc) = Some handler ->
       handler (PtrManageDiscoveryArgs
                  (fst (json_Unmarshal (Arguments (Function tc)) zero_ManageDiscoveryArgs))) w
       = Ret (resultStr, Some e) w' ->
       toolCall handlers legal.switch_case tc msgs w
       = Ret (msgs ++ [ToolMessage ("Error: " +:+ e) (ID tc)]) w')
   /\
    (forall (handlers : gmap string Handler) (handler : Handler) (tc : ToolCall)
            (resultStr : string) (e : error) (msgs : list Message) (w w' : World),
       Name (Function tc) = "calculate_damages" ->
       handlers !! Name (Function tc) = Some handler ->
       handler (PtrCalculateDamagesArgs
                  (fst (json_Unmarshal (Arguments (Function tc)) zero_CalculateDamagesArgs))) w
       = Ret (resultStr, Some e) w' ->
       toolCall handlers legal.switch_case tc msgs w
       = Ret (msgs ++ [ToolMessage ("Error: " +:+ e) (ID tc)]) w')
   /\
    (forall (handlers : gmap string Handler) (handler : Handler) (tc : ToolCall)
            (resultStr : string) (e : error) (msgs : list Message) (w w' : World),
       Name (Function tc) = "track_deadlines" ->
       handlers !! Name (Function tc) = Some handler ->
       handler (PtrTrackDeadlinesArgs
                  (fst (json_Unmarshal (Arguments (Function tc)) zero_TrackDeadlinesArgs))) w
       = Ret (resultStr, Some e) w' ->
       toolCall handlers legal.switch_case tc msgs w
       = Ret (msgs ++ [ToolMessage ("Error: " +:+ e) (ID tc)]) w')
   /\
    (forall (handlers : gmap string Handler) (handler : Handler) (tc : ToolCall)
            (resultStr : string) (e : error) (msgs : list Message) (w w' : World),
       Name (Function tc) = "send_legal_response" ->
       handlers !! Name (Function tc) = Some handler ->
       handler (PtrSendLegalResponseArgs
                  (fst (json_Unmarshal (Arguments (Function tc)) zero_SendLegalResponseArgs))) w
       = Ret (resultStr, Some e) w' ->
       toolCall handlers legal.switch_case tc msgs w
       = Ret (msgs ++ [ToolMessage ("Error: " +:+ e) (ID tc)]) w'))
   /\
   (forall (handlers : gmap string Handler) (outcome : string -> string * option error),
      handlers_answer handlers legal_tool_names outcome ->
      forall (matter : option legal.Matter) (init : list Message) (lastMsg : Message) (w : World),
      exists w',
        legal.toolExecutorWith handlers
          {| legal.AgentState_Matter := matter; legal.Messages := init ++ [lastMsg] |} w
        = Ret (inl {| legal.AgentState_Matter := matter;
                      legal.Messages :=
                        (init ++ [lastMsg])
                        ++ outcome_messages handlers outcome (ToolCalls lastMsg) |}) w')).
Proof.
  split; (split; [repeat match goal with |- _ /\ _ => split end|]).
  all: try (intros handlers handler tc resultStr e msgs w w' Hname Hlook Hrun;
            apply (toolCall_registered _ _ tc msgs w w' handler resultStr (Some e) Hlook);
            first [rewrite (soc_switch_lookup_threat_intel handler tc Hname)
                  | rewrite (soc_switch_query_logs handler tc Hname)
                  | rewrite (soc_switch_triage_incident handler tc Hname)
                  | rewrite (soc_switch_isolate_host handler tc Hname)
                  | rewrite (soc_switch_send_analyst_response handler tc Hname)
                  | rewrite (legal_switch_review_contract handler tc Hname)
                  | rewrite (legal_switch_research_case_law handler tc Hname)
                  | rewrite (legal_switch_client_intake handler tc Hname)
                  | rewrite (legal_switch_assess_compliance handler tc Hname)
                  | rewrite (legal_switch_manage_discovery handler tc Hname)
                  | rewrite (legal_switch_calculate_damages handler tc Hname)
                  | rewrite (legal_switch_track_deadlines handler tc Hname)
                  | rewrite (legal_switch_send_legal_response handler tc Hname) ];
            exact Hrun).
  - intros handlers outcome Hanswer. now apply soc_toolExecutorWith_outcomes.
  - intros handlers outcome Hanswer. now apply legal_toolExecutorWith_outcomes.
Qed.

End HandlerErrors.

Section GraphAgentWitnesses.
Import more_scripts.
#[local] Existing Instance scripted.recover.
#[local] Existing Instance scripted.fmt_small_integers.
#[local] Existing Instance json_empty_object.
#[local] Existing Instance json_null.

Section AlwaysCancel.
#[local] Existing Instance model_always_cancel.

(** X6 at a model that asks for a cancellation in every answer, with a budget
    of seven steps: four model calls. *)
Lemma X6_always_cancel_witness :
  exists w',
    compose.Invoke ecommerce_customer_support.NewAgent 7
      ecommerce_script.state_cancel world0
    = Ret (compose.Failed "[GraphRunError] exceeds max steps") w'
    /\ generate_calls w' = 4.
Proof.
  refine (proj1 (X6_only_the_step_budget_bounds_the_rounds _) 7
            ecommerce_script.state_cancel world0).
  intros k input. eexists. split; [reflexivity | discriminate].
Defined.

End AlwaysCancel.

Section Unauthorized.
#[local] Existing Instance model_unauthorized.

(** X4 at a model that answers 401 to the first call of a SOC run. *)
Lemma X4_unauthorized_witness :
  compose.Invoke soc.NewAgent 3 soc_script.state_add world0
  = Ret (compose.Failed ("[NodeRunError] 401 Unauthorized" +:+ newline
                         +:+ "------------------------" +:+ newline
                         +:+ "node path: [assistant]"))
        (model_called world0)
  /\ ("[NodeRunError] 401 Unauthorized" +:+ newline
      +:+ "------------------------" +:+ newline +:+ "node path: [assistant]"
      = "[GraphRunError] exceeds max steps"
      \/ (generate_calls world0 < generate_calls (model_called world0)
          /\ exists (input : list Message) (cause : error),
               Generate (pred (generate_calls (model_called world0))) input = inr cause
               /\ "[NodeRunError] 401 Unauthorized" +:+ newline
                  +:+ "------------------------" +:+ newline +:+ "node path: [assistant]"
                  = "[NodeRunError] " +:+ cause +:+ newline
                    +:+ "------------------------" +:+ newline
                    +:+ "node path: [assistant]")).
Proof.
  assert (Hrun : compose.Invoke soc.NewAgent 3 soc_script.state_add world0
                 = Ret (compose.Failed ("[NodeRunError] 401 Unauthorized" +:+ newline
                                        +:+ "------------------------" +:+ newline
                                        +:+ "node path: [assistant]"))
                       (model_called world0))
    by (vm_compute; reflexivity).
  split; [exact Hrun|].
  exact (proj1 (proj2 (proj2 X4_failed_run_is_budget_or_last_model_call))
           3 soc_script.state_add world0 (model_called world0) _ Hrun).
Defined.

End Unauthorized.

Section Review.
#[local] Existing Instance model_review.

(** X7 at the legal agent: a contract review, then the answer. *)
Lemma X7_contract_review_witness :
  exists w',
    compose.Invoke legal.NewAgent (4 + 0)
      {| legal.AgentState_Matter := None;
         legal.Messages := [UserMessage "Please review my contract."] |} world0
    = Ret (compose.Done
             {| legal.AgentState_Matter := None;
                legal.Messages :=
                  (([UserMessage "Please review my contract."]
                    ++ [scripted.assistantMessage "" [asks_review]])
                   ++ [ToolMessage "contract_review_complete" "call_1"])
                  ++ [scripted.assistantMessage "The contract is fine." []] |}) w'
    /\ generate_calls w' = 2 + generate_calls world0.
Proof.
  refine (proj2 (proj2 X7_one_tool_round_trip) 0 None
            [UserMessage "Please review my contract."]
            (scripted.assistantMessage "" [asks_review])
            (scripted.assistantMessage "The contract is fine." [])
            asks_review world0 _ _ _ _ _);
    first [reflexivity | eexists; reflexivity].
Defined.

End Review.

(** X8 at a SOC isolation whose handler fails, and at a legal answer that
    asks for a contract review, whose handler fails. *)
Lemma X8_isolation_and_review_witness :
  toolCall failing_soc_handlers soc.switch_case asks_isolation [] world0
  = Ret [ToolMessage "Error: host unreachable" "call_6"] world0
  /\ (exists w',
        legal.toolExecutorWith failing_legal_handlers
          {| legal.AgentState_Matter := None;
             legal.Messages := [UserMessage "Please review my contract."]
                               ++ [scripted.assistantMessage "" [asks_review]] |} world0
        = Ret (inl {| legal.AgentState_Matter := None;
                      legal.Messages :=
                        ([UserMessage "Please review my contract."]
                         ++ [scripted.assistantMessage "" [asks_review]])
                        ++ [ToolMessage "Error: archive offline" "call_1"] |}) w').
Proof.
  split.
  - refine ((proj1 (proj2 (proj2 (proj2 (proj1 (proj1 X8_handler_error_becomes_message_content))))))
              failing_soc_handlers host_unreachable asks_isolation
              "" "host unreachable" [] world0 world0 _ _ _); reflexivity.
  - refine (proj2 (proj2 X8_handler_error_becomes_message_content)
              failing_legal_handlers (fun _ => ("", Some "archive offline")) _
              None [UserMessage "Please review my contract."]
              (scripted.assistantMessage "" [asks_review]) world0).
    intros name handler Hlook. unfold failing_legal_handlers in Hlook.
    apply lookup_singleton_Some in Hlook as [<- <-].
    split; [unfold legal_tool_names; name_in_literal|].
    intros a w. exists w. reflexivity.
Defined.

End GraphAgentWitnesses.

Section EcommerceMain.
Import compose ecommerce_customer_support ecommerce_main.
Context `{Setup}.
Context `{Recover} `{ChatModel} `{Fmt}.
Context `{!Marshal ecommerce_customer_support.Order}.
Context `{!Unmarshal ecommerce_customer_support.SendCustomerMessageArgs}.
Context `{!Unmarshal ecommerce_customer_support.IssueRefundArgs}.
Context `{!Unmarshal ecommerce_customer_support.CancelOrderArgs}.
Context `{!Unmarshal ecommerce_customer_support.UpdateAddressArgs}.
Context `{!Unmarshal AgentState} `{!Marshal AgentState}.


End EcommerceMain.

Section EcommerceMainWitness.
Import more_scripts.
#[local] Existing Instance scripted.setup_ok.
#[local] Existing Instance scripted.recover.
#[local] Existing Instance scripted.fmt_small_integers.
#[local] Existing Instance json_empty_object.
#[local] Existing Instance json_null.
#[local] Existing Instance model_always_cancel.


End EcommerceMainWitness.

Section SocMain.
Import compose soc soc_main.
Context `{Setup}.
Context `{Recover} `{ChatModel}.
Context `{!Marshal soc.Incident}.
Context `{!Unmarshal soc.LookupThreatIntelArgs} `{!Unmarshal soc.QueryLogsArgs}.
Context `{!Unmarshal soc.TriageIncidentArgs} `{!Unmarshal soc.IsolateHostArgs}.
Context `{!Unmarshal soc.SendAnalystResponseArgs}.
Context `{!Unmarshal AgentState} `{!Marshal AgentState}.


End SocMain.

Section SocMainWitness.
Import more_scripts.
#[local] Existing Instance setup_without_key.
#[local] Existing Instance scripted.recover.
#[local] Existing Instance json_empty_object.
#[local] Existing Instance json_null.
#[local] Existing Instance model_always_cancel.


End SocMainWitness.

Section DirectLoop.
Import math_tools.
Context `{ChatModel} `{Fmt} `{MathPow} `{!Unmarshal (option MathArgs)}.

(** X12: the map the direct loop builds from its tool list finds every tool
    of the list under the tool's own name, and holds exactly the names
    multiply, exponentiate and add. *)
Theorem X12_toolMap_holds_the_three_tools :
  (forall t : InvokableTool, t ∈ tools -> toolMap !! Info_Name t = Some t)
  /\ (forall name : string, is_Some (toolMap !! name) <-> name ∈ math_tool_names).
Proof.
  split.
  - apply toolMap_finds_each_tool.
  - apply toolMap_names.
Qed.

(** X13: when every requested name is registered and no arguments decode to
    a nil pointer, the dispatch of the direct loop appends exactly one Tool
    message per call, in the order of the calls, each with the id of its call
    and the output of its tool, prints one line per call, writes nothing to
    stderr and does not call the model. *)
Theorem X13_direct_dispatch_answers_every_call
    (calls : list ToolCall) (msgs : list Message) (w : World) :
  Forall (fun tc => Name (Function tc) ∈ math_tool_names /\ ~ decodes_to_nil tc) calls ->
  runToolCalls calls msgs w
  = Ret (msgs ++ ((fun tc => ToolMessage (math_tool_output tc) (ID tc)) <$> calls))
        {| generate_calls := generate_calls w;
           stdout := stdout w
                     ++ ((fun tc => Name (Function tc) +:+ "(" +:+ Arguments (Function tc)
                                    +:+ ") = " +:+ math_tool_output tc) <$> calls);
           stderr := stderr w |}.
Proof.
  intros Hall. rewrite (runToolCalls_effect calls Hall msgs w).
  unfold with_output. cbn. now rewrite app_nil_r.
Qed.

(** X14: one call of a registered tool in the direct loop, by what the
    decoder makes of the arguments. When it reports an error, the tool's
    error is dropped and the Tool message has an empty content; when it
    leaves a nil pointer without an error, as for null, the tool function
    dereferences it and the program panics; otherwise the content is the
    [%v] form of x + y for add, of x * y for multiply and of x to the power
    y for exponentiate. The line printed ends with the same content. *)
Theorem X14_tool_output_of_a_call (tc : ToolCall) (msgs : list Message) (w : World) :
  Name (Function tc) ∈ math_tool_names ->
  let answered (content : string) :=
    Ret (msgs ++ [ToolMessage content (ID tc)])
        (add_stdout (Name (Function tc) +:+ "(" +:+ Arguments (Function tc)
                     +:+ ") = " +:+ content) w) in
  runToolCall tc msgs w
  = match json_Unmarshal (Arguments (Function tc))
            (Some {| X := S754_zero false; Y := S754_zero false |}) with
    | (_, Some _) => answered ""
    | (None, None) => Panic "invalid memory address or nil pointer dereference" w
    | (Some args, None) =>
        answered (Sprintf_v (if decide (Name (Function tc) = "add")
                             then float64_add (X args) (Y args)
                             else if decide (Name (Function tc) = "multiply")
                                  then float64_mul (X args) (Y args)
                                  else math_Pow (X args) (Y args)))
    end.
Proof.
  intros Hin answered. subst answered.
  rewrite (runToolCall_registered tc msgs w Hin).
  unfold math_tool_line, math_tool_output, math_decoded, math_value.
  destruct (json_Unmarshal _ _) as [[args|] [err|]]; reflexivity.
Qed.

(** X15: the ways [main] of the direct loop ends. If the first model call
    fails, the standard logger writes the error to stderr and the program
    exits with status 1 after that single call, printing nothing. If the
    first answer requests a tool that is not registered, or a registered one
    with arguments that decode to a nil pointer, [main] panics with a nil
    dereference. Otherwise the final model call gets the question, the
    answer and the tool messages; when it succeeds [main] prints its content
    last and returns the log without it, after exactly two model calls; when
    it fails [main] panics with a nil dereference. *)
Theorem X15_direct_loop_main_outcomes :
  (forall (w : World) (err : error),
     Generate (generate_calls w) [math_question] = inr err ->
     main w = Exit 1 {| generate_calls := S (generate_calls w);
                        stdout := stdout w;
                        stderr := stderr w ++ [Logged err] |})
  /\ (forall (w : World) (resp : Message),
        Generate (generate_calls w) [math_question] = inl resp ->
        Exists (fun tc => Name (Function tc) ∉ math_tool_names \/ decodes_to_nil tc)
               (ToolCalls resp) ->
        exists w', main w = Panic "invalid memory address or nil pointer dereference" w')
  /\ (forall (w : World) (resp : Message),
        Generate (generate_calls w) [math_question] = inl resp ->
        Forall (fun tc => Name (Function tc) ∈ math_tool_names /\ ~ decodes_to_nil tc)
               (ToolCalls resp) ->
        let msgs := [math_question; resp] ++ math_tool_messages (ToolCalls resp) in
        let w1 := with_output [] (math_tool_line <$> ToolCalls resp) (model_called w) in
        main w
        = match Generate (S (generate_calls w)) msgs with
          | inl final => Ret msgs (add_stdout (Content final) (model_called w1))
          | inr _ =>
              Panic "invalid memory address or nil pointer dereference" (model_called w1)
          end).
Proof.
  split; [|split].
  - apply main_first_call_fails.
  - apply main_dispatch_panics.
  - apply main_after_dispatch.
Qed.

End DirectLoop.

Section DirectLoopWitnesses.
Import math_tools more_scripts.
#[local] Existing Instance scripted.fmt_small_integers.
#[local] Existing Instance scripted.pow_unused.
#[local] Existing Instance math_script.json_args.

Section AddThenDown.
#[local] Existing Instance model_add_then_down.

(** X12 at the tool [add]. *)
Lemma X12_add_tool_witness : toolMap !! "add" = Some addTool.
Proof.
  refine (proj1 X12_toolMap_holds_the_three_tools addTool _).
  unfold tools. apply list_elem_of_further, list_elem_of_further, list_elem_of_here.
Defined.

(** X13 at a request for [add] followed by one for [multiply]. *)
Lemma X13_add_then_multiply_witness :
  runToolCalls [math_script.asks_add; asks_multiply] [] world0
  = Ret [ToolMessage "5" "call_1"; ToolMessage "6" "call_2"]
        {| generate_calls := 0;
           stdout := ["add(" +:+ scripted.xy_payload "2" "3" +:+ ") = 5";
                      "multiply(" +:+ scripted.xy_payload "2" "3" +:+ ") = 6"];
           stderr := [] |}.
Proof.
  refine (eq_trans (X13_direct_dispatch_answers_every_call
                      [math_script.asks_add; asks_multiply] [] world0 _) _).
  - repeat constructor; intros Hnil; vm_compute in Hnil; discriminate Hnil.
  - vm_compute. reflexivity.
Defined.

(** X14 at a request for [add] whose arguments are not JSON, at one whose
    arguments are null, and at the request add(x=2, y=3). *)
Lemma X14_add_outputs_witness :
  runToolCall asks_add_garbled [] world0
  = Ret [ToolMessage "" "call_3"] (add_stdout "add(oops) = " world0)
  /\ runToolCall asks_add_null [] world0
     = Panic "invalid memory address or nil pointer dereference" world0
  /\ runToolCall math_script.asks_add [] world0
     = Ret [ToolMessage "5" "call_1"]
           (add_stdout ("add(" +:+ scripted.xy_payload "2" "3" +:+ ") = 5") world0).
Proof.
  split; [|split].
  - refine (X14_tool_output_of_a_call asks_add_garbled [] world0 _). repeat constructor.
  - refine (X14_tool_output_of_a_call asks_add_null [] world0 _). repeat constructor.
  - refine (X14_tool_output_of_a_call math_script.asks_add [] world0 _).
    repeat constructor.
Defined.

(** X15 at a model whose second call fails: [main] panics. *)
Lemma X15_final_call_down_witness :
  main world0
  = Panic "invalid memory address or nil pointer dereference"
      (model_called
         (with_output [] [math_tool_line math_script.asks_add] (model_called world0))).
Proof.
  refine (proj2 (proj2 X15_direct_loop_main_outcomes) world0
            (scripted.assistantMessage "" [math_script.asks_add]) _ _).
  - reflexivity.
  - repeat constructor. intros Hnil. vm_compute in Hnil. discriminate Hnil.
Defined.

End AddThenDown.
End DirectLoopWitnesses.
